(** * Lifting Diary: the ownership-scoped query layer and the mutation gateway

    A shallow embedding of
      - [src/db/schema.ts]                          (the four tables),
      - [src/data/workouts.ts]                      (the query layer),
      - [src/app/dashboard/workout/new/actions.ts]  (typed [createWorkoutAction]),
      - [src/app/dashboard/workout/[workoutId]/actions.ts] ([updateWorkoutAction]),
      - [src/app/dashboard/actions.ts]              (the FormData [createWorkoutAction]),
    followed by the properties of the specification that concern them.

    Conventions of the model.
    - A JavaScript [Date] is its time value in milliseconds since the epoch
      ([Z]); [Invalid Date] only occurs inside a JavaScript value, as
      [VDate None].
    - A JavaScript string is a [string]; one character stands for one UTF-16
      code unit, so [String.length] is the [.length] Zod compares.
    - A table is the list of its rows in physical (insertion) order.  A
      statement without [orderBy] scans the table in that order; [orderBy]
      is a sort of the selected rows.
    - The identifier columns are opaque strings: the [uuid] syntax check of
      the database itself is not part of the model. *)

From Stdlib Require Import ZArith Ascii String List Lia Permutation Sorted.
From stdpp Require Import base decidable option list gmap strings sorting.

Local Open Scope Z_scope.

(** ** JavaScript values and objects *)

Inductive JsVal : Type :=
  | VUndefined
  | VNull
  | VStr (s : string)
  | VDate (t : option Z).

#[global] Instance JsVal_eq_dec : EqDecision JsVal.
Proof. solve_decision. Defined.

(** A plain object: a finite map from property names to values. *)
Abbreviation JsObj := (gmap string JsVal).

(** [obj.k]: reading a property that is not there gives [undefined]. *)
Definition prop (o : JsObj) (k : string) : JsVal := default VUndefined (o !! k).

Inductive JsError : Type :=
  | Error (message : string).

(** ** The schema ([src/db/schema.ts]) *)

Record WorkoutRow : Type := mkWorkout {
  w_id : string;
  w_userId : string;
  w_name : option string;
  w_startedAt : Z;
  w_completedAt : option Z;
  w_createdAt : Z;
  w_updatedAt : Z
}.

Record ExerciseRow : Type := mkExercise {
  e_id : string;
  e_userId : string;
  e_name : string;
  e_createdAt : Z;
  e_updatedAt : Z
}.

Record WorkoutExerciseRow : Type := mkWorkoutExercise {
  we_id : string;
  we_workoutId : string;
  we_exerciseId : string;
  we_order : Z;
  we_createdAt : Z;
  we_updatedAt : Z
}.

Record SetRow : Type := mkSet {
  s_id : string;
  s_workoutExerciseId : string;
  s_setNumber : Z;
  s_reps : option Z;
  s_weight : option string;
  s_createdAt : Z;
  s_updatedAt : Z
}.

Record Db : Type := mkDb {
  workouts : list WorkoutRow;
  exercises : list ExerciseRow;
  workoutExercises : list WorkoutExerciseRow;
  sets : list SetRow
}.

#[global] Instance WorkoutRow_eq_dec : EqDecision WorkoutRow.
Proof. solve_decision. Defined.
#[global] Instance ExerciseRow_eq_dec : EqDecision ExerciseRow.
Proof. solve_decision. Defined.
#[global] Instance WorkoutExerciseRow_eq_dec : EqDecision WorkoutExerciseRow.
Proof. solve_decision. Defined.
#[global] Instance SetRow_eq_dec : EqDecision SetRow.
Proof. solve_decision. Defined.

(** What a relational query with
    [with: { workoutExercises: { with: { exercise: true, sets: ... } } }]
    returns for one workout. *)
Record WorkoutExerciseFull : Type := mkWorkoutExerciseFull {
  wef_row : WorkoutExerciseRow;
  wef_exercise : option ExerciseRow;
  wef_sets : list SetRow
}.

Record WorkoutFull : Type := mkWorkoutFull {
  wf_row : WorkoutRow;
  wf_workoutExercises : list WorkoutExerciseFull
}.

(** ** Ordering clauses *)

Definition asc {A} (key : A → Z) : relation A := λ a b, key a ≤ key b.
Definition desc {A} (key : A → Z) : relation A := λ a b, key b ≤ key a.

#[global] Instance asc_dec {A} (key : A → Z) : RelDecision (asc key).
Proof. intros a b. unfold asc. apply _. Defined.
#[global] Instance desc_dec {A} (key : A → Z) : RelDecision (desc key).
Proof. intros a b. unfold desc. apply _. Defined.

(** [orderBy: [clause]] *)
Definition orderBy {A} (R : relation A) `{!RelDecision R} (l : list A) : list A :=
  merge_sort R l.

(** ** The relational read ([db.query.workouts.findMany / findFirst]) *)

(** [sets: { orderBy: (sets, { asc }) => [asc(sets.setNumber)] }] *)
Definition loadSets (d : Db) (we : WorkoutExerciseRow) : list SetRow :=
  orderBy (asc s_setNumber)
    (List.filter (λ s, bool_decide (s_workoutExerciseId s = we_id we)) (sets d)).

(** [exercise: true] *)
Definition loadExercise (d : Db) (we : WorkoutExerciseRow) : option ExerciseRow :=
  head (List.filter (λ e, bool_decide (e_id e = we_exerciseId we)) (exercises d)).

Definition loadWorkoutExercise (d : Db) (we : WorkoutExerciseRow) : WorkoutExerciseFull :=
  {| wef_row := we; wef_exercise := loadExercise d we; wef_sets := loadSets d we |}.

(** [workoutExercises: { with: ..., orderBy: ... [asc(workoutExercises.order)] }] *)
Definition loadWorkoutExercises (d : Db) (w : WorkoutRow) : list WorkoutExerciseFull :=
  map (loadWorkoutExercise d)
    (orderBy (asc we_order)
       (List.filter (λ we, bool_decide (we_workoutId we = w_id w)) (workoutExercises d))).

Definition loadWorkout (d : Db) (w : WorkoutRow) : WorkoutFull :=
  {| wf_row := w; wf_workoutExercises := loadWorkoutExercises d w |}.

(** ** Outcomes: a call returns a value or throws *)

Inductive Outcome (A : Type) : Type :=
  | Returned (a : A)
  | Thrown (e : JsError).
Arguments Returned {A} a.
Arguments Thrown {A} e.

Definition obind {A B} (m : Outcome A) (k : A → Outcome B) : Outcome B :=
  match m with
  | Returned a => k a
  | Thrown e => Thrown e
  end.

Notation "'let!' x ':=' m 'in' k" := (obind m (λ x, k))
  (at level 10, x name, m at level 100, k at level 200).

(** ** Statements: what the driver and the database do with a value *)

Inductive SqlVal : Type :=
  | SNull
  | SText (s : string)
  | STime (t : Z).

Inductive ColumnType : Type := PgUuid | PgVarchar | PgTimestamp.

(** The columns of [workouts], by their property names. *)
Definition workoutsColumns : list (string * ColumnType) :=
  [ ("id", PgUuid); ("userId", PgVarchar); ("name", PgVarchar);
    ("startedAt", PgTimestamp); ("completedAt", PgTimestamp);
    ("createdAt", PgTimestamp); ("updatedAt", PgTimestamp) ]%string.

(** Binding a JavaScript value to a column.  [null] is passed through; a
    timestamp column encodes with [value.toISOString()], which throws on
    [Invalid Date] and on anything that is not a [Date].  Every signature of
    the query layer rules out a [Date] bound to a text column; the driver is
    modelled as rejecting it. *)
Definition mapToDriverValue (ty : ColumnType) (v : JsVal) : Outcome SqlVal :=
  match v, ty with
  | VNull, _ => Returned SNull
  | VDate (Some t), PgTimestamp => Returned (STime t)
  | VDate None, PgTimestamp => Thrown (Error "Invalid time value")
  | VStr _, PgTimestamp => Thrown (Error "value.toISOString is not a function")
  | VStr s, _ => Returned (SText s)
  | VDate _, _ => Thrown (Error "cannot bind a Date to a text column")
  | VUndefined, _ => Thrown (Error "undefined is not bound")
  end.

(** The columns a [.set(values)] or [.values(values)] object mentions: the
    table's columns whose property is not [undefined], each encoded. *)
Fixpoint mapColumns (cols : list (string * ColumnType)) (values : JsObj)
  : Outcome (list (string * SqlVal)) :=
  match cols with
  | [] => Returned []
  | (c, ty) :: cols' =>
      match prop values c with
      | VUndefined => mapColumns cols' values
      | v =>
          let! sv := mapToDriverValue ty v in
          let! rest := mapColumns cols' values in
          Returned ((c, sv) :: rest)
      end
  end.

Definition notNullViolation (c : string) : JsError :=
  Error ("null value in column " +:+ c +:+ " violates not-null constraint").
Definition typeMismatch (c : string) : JsError :=
  Error ("column " +:+ c +:+ " is of another type").

Definition textNotNull (c : string) (v : SqlVal) : Outcome string :=
  match v with
  | SText s => Returned s
  | SNull => Thrown (notNullViolation c)
  | STime _ => Thrown (typeMismatch c)
  end.
Definition textNullable (c : string) (v : SqlVal) : Outcome (option string) :=
  match v with
  | SText s => Returned (Some s)
  | SNull => Returned None
  | STime _ => Thrown (typeMismatch c)
  end.
Definition timeNotNull (c : string) (v : SqlVal) : Outcome Z :=
  match v with
  | STime t => Returned t
  | SNull => Thrown (notNullViolation c)
  | SText _ => Thrown (typeMismatch c)
  end.
Definition timeNullable (c : string) (v : SqlVal) : Outcome (option Z) :=
  match v with
  | STime t => Returned (Some t)
  | SNull => Returned None
  | SText _ => Thrown (typeMismatch c)
  end.

(** [SET c = v] on one row. *)
Definition assign (r : WorkoutRow) (cv : string * SqlVal) : Outcome WorkoutRow :=
  let '(c, v) := cv in
  if decide (c = "id") then
    let! x := textNotNull c v in
    Returned (mkWorkout x (w_userId r) (w_name r) (w_startedAt r) (w_completedAt r) (w_createdAt r) (w_updatedAt r))
  else if decide (c = "userId") then
    let! x := textNotNull c v in
    Returned (mkWorkout (w_id r) x (w_name r) (w_startedAt r) (w_completedAt r) (w_createdAt r) (w_updatedAt r))
  else if decide (c = "name") then
    let! x := textNullable c v in
    Returned (mkWorkout (w_id r) (w_userId r) x (w_startedAt r) (w_completedAt r) (w_createdAt r) (w_updatedAt r))
  else if decide (c = "startedAt") then
    let! x := timeNotNull c v in
    Returned (mkWorkout (w_id r) (w_userId r) (w_name r) x (w_completedAt r) (w_createdAt r) (w_updatedAt r))
  else if decide (c = "completedAt") then
    let! x := timeNullable c v in
    Returned (mkWorkout (w_id r) (w_userId r) (w_name r) (w_startedAt r) x (w_createdAt r) (w_updatedAt r))
  else if decide (c = "createdAt") then
    let! x := timeNotNull c v in
    Returned (mkWorkout (w_id r) (w_userId r) (w_name r) (w_startedAt r) (w_completedAt r) x (w_updatedAt r))
  else if decide (c = "updatedAt") then
    let! x := timeNotNull c v in
    Returned (mkWorkout (w_id r) (w_userId r) (w_name r) (w_startedAt r) (w_completedAt r) (w_createdAt r) x)
  else Thrown (Error ("column " +:+ c +:+ " does not exist")).

Fixpoint assignAll (r : WorkoutRow) (cvs : list (string * SqlVal)) : Outcome WorkoutRow :=
  match cvs with
  | [] => Returned r
  | cv :: cvs' => let! r' := assign r cv in assignAll r' cvs'
  end.

(** [UPDATE workouts SET ... WHERE cond RETURNING *]: the rows that satisfy
    [cond] are rewritten in place; the statement gives the new table and the
    rewritten rows, or fails as a whole. *)
Fixpoint updateRows (cond : WorkoutRow → bool) (cvs : list (string * SqlVal))
    (rows : list WorkoutRow) : Outcome (list WorkoutRow * list WorkoutRow) :=
  match rows with
  | [] => Returned ([], [])
  | r :: rows' =>
      if cond r then
        let! r' := assignAll r cvs in
        let! rest := updateRows cond cvs rows' in
        Returned (r' :: rest.1, r' :: rest.2)
      else
        let! rest := updateRows cond cvs rows' in
        Returned (r :: rest.1, rest.2)
  end.

Definition primaryKeyViolation : JsError :=
  Error "duplicate key value violates unique constraint workouts_pkey".

Definition withWorkouts (d : Db) (ws : list WorkoutRow) : Db :=
  mkDb ws (exercises d) (workoutExercises d) (sets d).

Definition updateStatement (cond : WorkoutRow → bool) (cvs : list (string * SqlVal))
    (d : Db) : Outcome (list WorkoutRow * Db) :=
  let! res := updateRows cond cvs (workouts d) in
  if decide (("id" : string) ∈ cvs.*1 ∧ res.2 ≠ [] ∧ ¬ NoDup (w_id <$> res.1))
  then Thrown primaryKeyViolation
  else Returned (res.2, withWorkouts d res.1).

(** [INSERT INTO workouts ... RETURNING *]: a column the statement does not
    mention takes its default ([defaultRandom()], [defaultNow()], else NULL). *)
Definition columnValue (cvs : list (string * SqlVal)) (c : string) (dflt : SqlVal) : SqlVal :=
  default dflt (snd <$> head (List.filter (λ cv, bool_decide (cv.1 = c)) cvs)).

Definition insertStatement (randomUuid : string) (dbNow : Z)
    (cvs : list (string * SqlVal)) (d : Db) : Outcome (WorkoutRow * Db) :=
  let! i := textNotNull "id" (columnValue cvs "id" (SText randomUuid)) in
  let! u := textNotNull "userId" (columnValue cvs "userId" SNull) in
  let! n := textNullable "name" (columnValue cvs "name" SNull) in
  let! s := timeNotNull "startedAt" (columnValue cvs "startedAt" SNull) in
  let! c := timeNullable "completedAt" (columnValue cvs "completedAt" SNull) in
  let! ca := timeNotNull "createdAt" (columnValue cvs "createdAt" (STime dbNow)) in
  let! ua := timeNotNull "updatedAt" (columnValue cvs "updatedAt" (STime dbNow)) in
  if decide (i ∈ w_id <$> workouts d) then Thrown primaryKeyViolation
  else
    let r := mkWorkout i u n s c ca ua in
    Returned (r, withWorkouts d (workouts d ++ [r])).

(** ** The request: environment, world, and the monad of a server call *)

(** What a request reads from its surroundings. *)
Record Env : Type := mkEnv {
  session : option string;  (** [userId] of [await auth()] *)
  now : Z;                  (** [new Date()] on the application server *)
  dbNow : Z;                (** [now()] in the database ([defaultNow()]) *)
  randomUuid : string;      (** [gen_random_uuid()] ([defaultRandom()]) *)
  fault : option string     (** [Some e]: the store fails every statement with [e] *)
}.

(** What a request leaves behind, apart from its result. *)
Inductive Event : Type :=
  | EvSafeParse                                  (** a schema was run on the input *)
  | EvQuery (fn : string)                        (** a query-layer function was entered *)
  | EvRevalidatePath (path : string)
  | EvConsoleError (label : string) (e : JsError).

Record World : Type := mkWorld {
  db : Db;
  trace : list Event
}.

Definition M (A : Type) : Type := Env → World → Outcome A * World.

Definition ret {A} (a : A) : M A := λ _ w, (Returned a, w).
Definition throw {A} (e : JsError) : M A := λ _ w, (Thrown e, w).
Definition bind {A B} (m : M A) (k : A → M B) : M B :=
  λ env w,
    match m env w with
    | (Returned a, w') => k a env w'
    | (Thrown e, w') => (Thrown e, w')
    end.
Definition tryCatch {A} (body : M A) (handler : JsError → M A) : M A :=
  λ env w,
    match body env w with
    | (Thrown e, w') => handler e env w'
    | r => r
    end.
Definition ask : M Env := λ env w, (Returned env, w).
Definition emit (ev : Event) : M unit :=
  λ _ w, (Returned tt, mkWorld (db w) (trace w ++ [ev])).

Notation "'let*' x ':=' m 'in' k" := (bind m (λ x, k))
  (at level 10, x name, m at level 100, k at level 200).
Notation "m ;;; k" := (bind m (λ _, k))
  (at level 100, k at level 200, right associativity).

(** [await <statement>]: one round trip to the store. *)
Definition statement {A} (f : Db → Outcome (A * Db)) : M A :=
  λ env w,
    match fault env with
    | Some e => (Thrown (Error e), w)
    | None =>
        match f (db w) with
        | Returned (a, d') => (Returned a, mkWorld d' (trace w))
        | Thrown e => (Thrown e, w)
        end
    end.

Definition query {A} (f : Db → A) : M A :=
  statement (λ d, Returned (f d, d)).

(** The driver encodes the parameters before the statement is sent. *)
Definition encode (values : JsObj) : M (list (string * SqlVal)) :=
  λ _ w, (mapColumns workoutsColumns values, w).

(** ** The query layer ([src/data/workouts.ts]) *)

(** [and(c1, ..., cn)] *)
Definition and_ {A} (conds : list (A → bool)) (r : A) : bool :=
  forallb (λ c, c r) conds.

(** [eq(workouts.userId, userId)], [eq(workouts.id, workoutId)] *)
Definition eq_userId (userId : string) (r : WorkoutRow) : bool :=
  bool_decide (w_userId r = userId).
Definition eq_id (workoutId : string) (r : WorkoutRow) : bool :=
  bool_decide (w_id r = workoutId).

Definition findMany (where_ : WorkoutRow → bool) (d : Db) : list WorkoutFull :=
  map (loadWorkout d)
    (orderBy (desc w_startedAt) (List.filter where_ (workouts d))).

Definition findFirst (where_ : WorkoutRow → bool) (d : Db) : option WorkoutFull :=
  loadWorkout d <$> head (List.filter where_ (workouts d)).

Definition getUserWorkouts (userId : string) : M (list WorkoutFull) :=
  emit (EvQuery "getUserWorkouts") ;;;
  let* userWorkouts := query (findMany (eq_userId userId)) in
  ret userWorkouts.

Section LocalTime.
(** The host's zone, as [Date.prototype.getTimezoneOffset] gives it
    (minutes, UTC minus local time), taken as constant. *)
Variable timezoneOffset : Z.

Definition msPerDay : Z := 86400000.
Definition localTime (t : Z) : Z := t - timezoneOffset * 60000.
Definition utcOfLocal (l : Z) : Z := l + timezoneOffset * 60000.

(** [d.setHours(h, m, s, ms)]: same local calendar day, given time of day. *)
Definition setHours (t h m s ms : Z) : Z :=
  let l := localTime t in
  utcOfLocal (l - l mod msPerDay + ((h * 60 + m) * 60 + s) * 1000 + ms).

Definition getUserWorkoutsByDate (userId : string) (date : Z) : M (list WorkoutFull) :=
  emit (EvQuery "getUserWorkoutsByDate") ;;;
  let startOfDay := setHours date 0 0 0 0 in
  let endOfDay := setHours date 23 59 59 999 in
  let* userWorkouts := query (findMany (and_ [eq_userId userId])) in
  ret (List.filter
         (λ workout,
            let workoutDate := w_startedAt (wf_row workout) in
            (startOfDay <=? workoutDate) && (workoutDate <=? endOfDay))
         userWorkouts).
End LocalTime.

Definition getUserWorkout (workoutId userId : string) : M (option WorkoutFull) :=
  emit (EvQuery "getUserWorkout") ;;;
  query (findFirst (and_ [eq_id workoutId; eq_userId userId])).

(** [{ ...data, userId, completedAt: null }] *)
Definition createWorkout (data : JsObj) (userId : string) : M WorkoutRow :=
  emit (EvQuery "createWorkout") ;;;
  let* env := ask in
  let* cvs := encode (<["completedAt" := VNull]> (<["userId" := VStr userId]> data)) in
  let* workout := statement (insertStatement (randomUuid env) (dbNow env) cvs) in
  ret workout.

(** [{ ...data, updatedAt: new Date() }]; [const [workout] = ...] takes the
    first returned row, [undefined] when there is none. *)
Definition updateWorkout (workoutId : string) (data : JsObj) (userId : string)
  : M (option WorkoutRow) :=
  emit (EvQuery "updateWorkout") ;;;
  let* env := ask in
  let* cvs := encode (<["updatedAt" := VDate (Some (now env))]> data) in
  let* returning := statement
    (updateStatement (and_ [eq_id workoutId; eq_userId userId]) cvs) in
  ret (head returning).

(** ** Zod, as far as the two schemas use it *)

Module z.
Inductive ZodIssueCode : Type :=
  | invalid_type | invalid_string | too_small | too_big | invalid_date.

(** A schema without transforms: the issues it raises on a value (none:
    the value is accepted, and is its own parse result). *)
Definition ZodType : Type := JsVal → list ZodIssueCode.
Definition StringCheck : Type := string → option ZodIssueCode.

(** [z.string()] followed by its checks; the checks run on strings only. *)
Definition string_ (checks : list StringCheck) : ZodType :=
  λ v, match v with
       | VStr s => omap (λ c, c s) checks
       | _ => [invalid_type]
       end.
Definition min (n : nat) : StringCheck :=
  λ s, if (String.length s <? n)%nat then Some too_small else None.
Definition max (n : nat) : StringCheck :=
  λ s, if (n <? String.length s)%nat then Some too_big else None.
(** [.uuid()]: the library's regular expression, as a predicate. *)
Definition uuid (isUuid : string → bool) : StringCheck :=
  λ s, if isUuid s then None else Some invalid_string.

(** [z.date()]: a [Date] whose time value is not [NaN]. *)
Definition date : ZodType :=
  λ v, match v with
       | VDate (Some _) => []
       | VDate None => [invalid_date]
       | _ => [invalid_type]
       end.

Definition nullable (t : ZodType) : ZodType :=
  λ v, match v with VNull => [] | _ => t v end.
Definition optional (t : ZodType) : ZodType :=
  λ v, match v with VUndefined => [] | _ => t v end.

(** Issues by field, as [error.flatten().fieldErrors] groups them. *)
Definition FieldErrors : Type := list (string * ZodIssueCode).

Inductive SafeParseResult : Type :=
  | success (data : JsObj)
  | failure (error : FieldErrors).

(** The parse result of [z.object(shape)] keeps the keys of the shape that
    the input has and drops every other key (the default, [strip]). *)
Fixpoint strip (keys : list string) (input : JsObj) : JsObj :=
  match keys with
  | [] => ∅
  | k :: keys' =>
      match input !! k with
      | Some v => <[k := v]> (strip keys' input)
      | None => strip keys' input
      end
  end.

Definition issues (shape : list (string * ZodType)) (input : JsObj) : FieldErrors :=
  flat_map (λ kt, (λ c, (kt.1, c)) <$> kt.2 (prop input kt.1)) shape.

Definition object (shape : list (string * ZodType)) (input : JsObj) : SafeParseResult :=
  match issues shape input with
  | [] => success (strip shape.*1 input)
  | error => failure error
  end.
End z.

(** [schema.safeParse(input)] *)
Definition safeParse (schema : JsObj → z.SafeParseResult) (input : JsObj)
  : M z.SafeParseResult :=
  emit EvSafeParse ;;; ret (schema input).

(** [revalidatePath(path)], [console.error(label, error)] *)
Definition revalidatePath (path : string) : M unit := emit (EvRevalidatePath path).
Definition console_error (label : string) (e : JsError) : M unit :=
  emit (EvConsoleError label e).

(** [const { userId } = await auth()], together with the test [!userId]:
    [null] and the empty string are both falsy. *)
Definition auth : M (option string) :=
  let* env := ask in
  ret (match session env with
       | Some EmptyString => None
       | o => o
       end).

(** The result shape of the typed actions:
    [{ success: true, workout } | { success: false, error, details? }]. *)
Inductive ActionResult : Type :=
  | ActionSuccess (workout : WorkoutRow)
  | ActionError (error : string) (details : option z.FieldErrors).

(** ** [src/app/dashboard/workout/new/actions.ts] *)

Module WorkoutNew.
Definition createWorkoutSchema : JsObj → z.SafeParseResult :=
  z.object
    [ ("name", z.nullable (z.string_ [z.min 1; z.max 100]));
      ("startedAt", z.date) ]%string.

Definition createWorkoutAction (input : JsObj) : M ActionResult :=
  let* userId := auth in
  match userId with
  | None => ret (ActionError "Unauthorized" None)
  | Some userId =>
      let* validation := safeParse createWorkoutSchema input in
      match validation with
      | z.failure error => ret (ActionError "Invalid input" (Some error))
      | z.success data =>
          tryCatch
            (let* workout := createWorkout data userId in
             revalidatePath "/dashboard" ;;;
             ret (ActionSuccess workout))
            (λ error,
               console_error "Failed to create workout:" error ;;;
               ret (ActionError "Failed to create workout" None))
      end
  end.
End WorkoutNew.

(** ** [src/app/dashboard/workout/[workoutId]/actions.ts] *)

Module WorkoutEdit.
Section Schema.
Variable isUuid : string → bool.

Definition updateWorkoutSchema : JsObj → z.SafeParseResult :=
  z.object
    [ ("workoutId", z.string_ [z.uuid isUuid]);
      ("name", z.optional (z.nullable (z.string_ [z.min 1; z.max 100])));
      ("startedAt", z.optional z.date);
      ("completedAt", z.optional (z.nullable z.date)) ]%string.

(** [validation.data.workoutId]; the schema makes it a string. *)
Definition workoutIdOf (data : JsObj) : string :=
  match prop data "workoutId" with
  | VStr s => s
  | _ => ""
  end.

Definition updateWorkoutAction (input : JsObj) : M ActionResult :=
  let* userId := auth in
  match userId with
  | None => ret (ActionError "Unauthorized" None)
  | Some userId =>
      let* validation := safeParse updateWorkoutSchema input in
      match validation with
      | z.failure error => ret (ActionError "Invalid input" (Some error))
      | z.success parsed =>
          tryCatch
            (let workoutId := workoutIdOf parsed in
             let data := delete "workoutId" parsed in
             let* workout := updateWorkout workoutId data userId in
             match workout with
             | None =>
                 ret (ActionError
                        "Workout not found or you do not have permission to edit it"
                        None)
             | Some workout =>
                 revalidatePath "/dashboard" ;;;
                 revalidatePath ("/dashboard/workout/" +:+ workoutId) ;;;
                 ret (ActionSuccess workout)
             end)
            (λ error,
               console_error "Failed to update workout:" error ;;;
               ret (ActionError "Failed to update workout" None))
      end
  end.
End Schema.
End WorkoutEdit.

(** ** [src/app/dashboard/actions.ts] *)

Module Dashboard.
(** [{ success: true, workoutId: workout.id }] *)
Record CreateResult : Type := mkCreateResult {
  success : bool;
  workoutId : string
}.

Section Host.
(** [new Date(dateStr)]: the host's parsing of a date string; [None] is
    [Invalid Date]. *)
Variable parseDate : string → option Z.

(** [formData.get(k)]: the value of the field, [null] when there is none. *)
Definition get (formData : gmap string string) (k : string) : option string :=
  formData !! k.

Definition createWorkoutAction (formData : gmap string string) : M CreateResult :=
  let* userId := auth in
  match userId with
  | None => throw (Error "Unauthorized")
  | Some userId =>
      let name := get formData "name" in
      let dateStr := get formData "date" in
      match dateStr with
      | None | Some EmptyString => throw (Error "Date is required")
      | Some dateStr =>
          let startedAt := VDate (parseDate dateStr) in
          let values : JsObj :=
            {[ "userId" := VStr userId;
               "name" := match name with
                         | None | Some EmptyString => VNull
                         | Some n => VStr n
                         end;
               "startedAt" := startedAt;
               "completedAt" := VNull ]} in
          let* env := ask in
          let* cvs := encode values in
          let* workout := statement (insertStatement (randomUuid env) (dbNow env) cvs) in
          revalidatePath "/dashboard" ;;;
          ret (mkCreateResult true (w_id workout))
      end
  end.
End Host.
End Dashboard.

(** ** Calendar fields of a [Date] (ECMAScript, Day Number and Time within Day) *)

Definition Day (t : Z) : Z := t / msPerDay.

Definition DaysInYear (y : Z) : Z :=
  if negb (y mod 4 =? 0) then 365
  else if negb (y mod 100 =? 0) then 366
  else if negb (y mod 400 =? 0) then 365
  else 366.

Definition DayFromYear (y : Z) : Z :=
  365 * (y - 1970) + (y - 1969) / 4 - (y - 1901) / 100 + (y - 1601) / 400.

(** The year a day number falls in: the largest [y] with
    [DayFromYear y <= d], found next to the estimate by the mean year. *)
Definition YearFromDay (d : Z) : Z :=
  let y := 1970 + d * 400 / 146097 in
  if DayFromYear (y + 1) <=? d then y + 1
  else if DayFromYear y <=? d then y
  else y - 1.

Definition YearFromTime (t : Z) : Z := YearFromDay (Day t).
Definition InLeapYear (t : Z) : Z :=
  if DaysInYear (YearFromTime t) =? 366 then 1 else 0.
Definition DayWithinYear (t : Z) : Z := Day t - DayFromYear (YearFromTime t).

Definition MonthFromTime (t : Z) : Z :=
  let d := DayWithinYear t in
  let leap := InLeapYear t in
  if d <? 31 then 0
  else if d <? 59 + leap then 1
  else if d <? 90 + leap then 2
  else if d <? 120 + leap then 3
  else if d <? 151 + leap then 4
  else if d <? 181 + leap then 5
  else if d <? 212 + leap then 6
  else if d <? 243 + leap then 7
  else if d <? 273 + leap then 8
  else if d <? 304 + leap then 9
  else if d <? 334 + leap then 10
  else 11.

Definition DateFromTime (t : Z) : Z :=
  let d := DayWithinYear t in
  let leap := InLeapYear t in
  let m := MonthFromTime t in
  if m =? 0 then d + 1
  else if m =? 1 then d - 30
  else if m =? 2 then d - 58 - leap
  else if m =? 3 then d - 89 - leap
  else if m =? 4 then d - 119 - leap
  else if m =? 5 then d - 150 - leap
  else if m =? 6 then d - 180 - leap
  else if m =? 7 then d - 211 - leap
  else if m =? 8 then d - 242 - leap
  else if m =? 9 then d - 272 - leap
  else if m =? 10 then d - 303 - leap
  else d - 333 - leap.

(** [d.getFullYear()], [d.getMonth()], [d.getDate()]: fields of local time. *)
Definition getFullYear (timezoneOffset t : Z) : Z := YearFromTime (localTime timezoneOffset t).
Definition getMonth (timezoneOffset t : Z) : Z := MonthFromTime (localTime timezoneOffset t).
Definition getDate (timezoneOffset t : Z) : Z := DateFromTime (localTime timezoneOffset t).

(** ** Pages (server components) *)

(** How a page function ends: it renders, or [redirect(path)] or
    [notFound()] ends it (neither returns). *)
Inductive PageResult (P : Type) : Type :=
  | Rendered (props : P)
  | Redirected (path : string)
  | NotFoundPage.
Arguments Rendered {P} props.
Arguments Redirected {P} path.
Arguments NotFoundPage {P}.

(** [<EditWorkoutForm workoutId=... initialName=... initialStartedAt=... />] *)
Record EditWorkoutFormProps : Type := mkEditWorkoutFormProps {
  workoutId : string;
  initialName : option string;
  initialStartedAt : Z
}.

(** [src/app/dashboard/workout/[workoutId]/page.tsx] *)
Definition EditWorkoutPage (params_workoutId : string) : M (PageResult EditWorkoutFormProps) :=
  let* userId := auth in
  match userId with
  | None => ret (Redirected "/sign-in")
  | Some userId =>
      let* workout := getUserWorkout params_workoutId userId in
      match workout with
      | None => ret NotFoundPage
      | Some workout =>
          ret (Rendered
                 (mkEditWorkoutFormProps
                    (w_id (wf_row workout))
                    (w_name (wf_row workout))
                    (w_startedAt (wf_row workout))))
      end
  end.

(** [src/app/dashboard/workout/new/page.tsx] *)
Definition NewWorkoutPage : M (PageResult unit) :=
  let* userId := auth in
  match userId with
  | None => ret (Redirected "/sign-in")
  | Some _ => ret (Rendered tt)
  end.

(** [src/app/dashboard/page.tsx]: [<DashboardClient workouts={workouts} />] *)
Definition DashboardPage : M (PageResult (list WorkoutFull)) :=
  let* userId := auth in
  match userId with
  | None => ret (Redirected "/sign-in")
  | Some userId =>
      let* workouts := getUserWorkouts userId in
      ret (Rendered workouts)
  end.

(** ** [src/app/dashboard/dashboard-client.tsx] *)

Module DashboardClient.
Section Browser.
(** The browser's zone, as for [LocalTime]. *)
Variable timezoneOffset : Z.

(** [filteredWorkouts]: the workouts of the selected day, all of them when
    no day is selected. *)
Definition filteredWorkouts (selectedDate : option Z) (workouts : list WorkoutFull)
  : list WorkoutFull :=
  match selectedDate with
  | Some selectedDate =>
      List.filter
        (λ workout,
           let workoutDate := w_startedAt (wf_row workout) in
           (getDate timezoneOffset workoutDate =? getDate timezoneOffset selectedDate) &&
           (getMonth timezoneOffset workoutDate =? getMonth timezoneOffset selectedDate) &&
           (getFullYear timezoneOffset workoutDate =? getFullYear timezoneOffset selectedDate))
        workouts
  | None => workouts
  end.

(** [isDateInPast], with [today = new Date()]. *)
Definition isDateInPast (selectedDate : option Z) (today : Z) : bool :=
  match selectedDate with
  | Some selectedDate =>
      let today := setHours timezoneOffset today 0 0 0 0 in
      let selected := setHours timezoneOffset selectedDate 0 0 0 0 in
      selected <? today
  | None => false
  end.
End Browser.

(** The two pieces of state the handler writes. *)
Record DialogState : Type := mkDialogState {
  isDialogOpen : bool;
  isSubmitting : bool
}.

Section Host.
Variable parseDate : string → option Z.

(** [handleCreateWorkout]: [try { await createWorkoutAction(formData);
    setIsDialogOpen(false) } catch (error) { console.error(...) }
    finally { setIsSubmitting(false) }], from a dialog that is open. *)
Definition handleCreateWorkout (formData : gmap string string) : M DialogState :=
  let* isDialogOpen :=
    tryCatch
      (let* result := Dashboard.createWorkoutAction parseDate formData in
       ret false)
      (λ error,
         console_error "Failed to create workout:" error ;;;
         ret true) in
  ret (mkDialogState isDialogOpen false).
End Host.
End DashboardClient.

(** ** [src/app/dashboard/workout/new/new-workout-form.tsx] *)

Module NewWorkoutForm.
(** The state [handleSubmit] leaves, and where it sent the router. *)
Record FormState : Type := mkFormState {
  loading : bool;
  error : option string;
  pushed : list string
}.

(** [{ name: (formData.get('name') as string) || null, startedAt: date }] *)
Definition inputOf (name : string) (date : Z) : JsObj :=
  {[ "name" := match name with EmptyString => VNull | _ => VStr name end;
     "startedAt" := VDate (Some date) ]}.

(** [handleSubmit], for the text of the name field and the [date] state. *)
Definition handleSubmit (name : string) (date : Z) : M FormState :=
  let input := inputOf name date in
  let* result := WorkoutNew.createWorkoutAction input in
  match result with
  | ActionError error _ => ret (mkFormState false (Some error) [])
  | ActionSuccess _ => ret (mkFormState false None ["/dashboard"%string])
  end.
End NewWorkoutForm.

(** ** Vocabulary of the specification *)

(** The rows a user owns, and the children of a row. *)
Definition ownedBy (userId : string) (d : Db) : list WorkoutRow :=
  List.filter (eq_userId userId) (workouts d).
Definition exercisesOf (d : Db) (w : WorkoutRow) : list WorkoutExerciseRow :=
  List.filter (λ we, bool_decide (we_workoutId we = w_id w)) (workoutExercises d).
Definition setsOf (d : Db) (we : WorkoutExerciseRow) : list SetRow :=
  List.filter (λ s, bool_decide (s_workoutExerciseId s = we_id we)) (sets d).

(** A fetched workout is ordered below the top level: its exercises ascend
    by [order], the sets of each exercise ascend by [setNumber]; and it
    holds exactly the children the tables have for it. *)
Definition nestedOrdered (d : Db) (wf : WorkoutFull) : Prop :=
  StronglySorted (asc we_order) (wef_row <$> wf_workoutExercises wf) ∧
  wef_row <$> wf_workoutExercises wf ≡ₚ exercisesOf d (wf_row wf) ∧
  Forall (λ x, StronglySorted (asc s_setNumber) (wef_sets x) ∧
               wef_sets x ≡ₚ setsOf d (wef_row x))
         (wf_workoutExercises wf).

(** The local calendar day a time value falls on, counted from the epoch. *)
Definition localDay (timezoneOffset t : Z) : Z :=
  localTime timezoneOffset t / msPerDay.
(** The time value of a local day at a time of day given in milliseconds. *)
Definition localDayAt (timezoneOffset day ms : Z) : Z :=
  utcOfLocal timezoneOffset (day * msPerDay + ms).

(** The world after a call that entered the query-layer function [fn] and
    left the store as it was. *)
Definition entered (fn : string) (w : World) : World :=
  mkWorld (db w) (trace w ++ [EvQuery fn]).

(** A patch, field by field: untouched ([None]), or set to a value, which
    for [name] and [completedAt] may be [null] ([Some None]). *)
Record WorkoutPatch : Type := mkPatch {
  p_name : option (option string);
  p_startedAt : option Z;
  p_completedAt : option (option Z)
}.

Definition jsText (o : option string) : JsVal :=
  match o with Some s => VStr s | None => VNull end.
Definition jsTime (o : option Z) : JsVal :=
  match o with Some t => VDate (Some t) | None => VNull end.

(** [{ key: value }] with the key left out when there is no value. *)
Definition withProp (k : string) (v : option JsVal) (o : JsObj) : JsObj :=
  match v with Some v => <[k := v]> o | None => o end.

(** The object a caller passes as [data] for a patch. *)
Definition patchObject (p : WorkoutPatch) : JsObj :=
  withProp "name" (jsText <$> p_name p)
    (withProp "startedAt" ((λ t, VDate (Some t)) <$> p_startedAt p)
       (withProp "completedAt" (jsTime <$> p_completedAt p) ∅)).

(** The row the specification asks for: the fields of the patch replaced,
    [updatedAt] refreshed, everything else as it was. *)
Definition patched (now : Z) (p : WorkoutPatch) (r : WorkoutRow) : WorkoutRow :=
  mkWorkout (w_id r) (w_userId r)
    (default (w_name r) (p_name p))
    (default (w_startedAt r) (p_startedAt p))
    (default (w_completedAt r) (p_completedAt p))
    (w_createdAt r) now.

(** The store in which the workout [workoutId] does not exist (nor, by the
    cascading foreign keys, its exercises and their sets). *)
Definition without (workoutId : string) (d : Db) : Db :=
  let gone := List.filter (λ we, bool_decide (we_workoutId we = workoutId)) (workoutExercises d) in
  mkDb
    (List.filter (λ r, negb (eq_id workoutId r)) (workouts d))
    (exercises d)
    (List.filter (λ we, negb (bool_decide (we_workoutId we = workoutId))) (workoutExercises d))
    (List.filter (λ s, negb (bool_decide (s_workoutExerciseId s ∈ we_id <$> gone))) (sets d)).

(** The columns that identify a row and its owner. *)
Definition identity (r : WorkoutRow) : string * string * Z :=
  (w_id r, w_userId r, w_createdAt r).

(** The assignments a patch stands for, in the order of the table's columns. *)
Definition patchColumns (now : Z) (p : WorkoutPatch) : list (string * SqlVal) :=
  match p_name p with
  | Some n => [("name"%string, match n with Some s => SText s | None => SNull end)]
  | None => []
  end ++
  match p_startedAt p with
  | Some t => [("startedAt"%string, STime t)]
  | None => []
  end ++
  match p_completedAt p with
  | Some c => [("completedAt"%string, match c with Some t => STime t | None => SNull end)]
  | None => []
  end ++
  [("updatedAt"%string, STime now)].

(** The caller is signed in as [userId]. *)
Definition signedIn (env : Env) (userId : string) : Prop :=
  session env = Some userId ∧ userId ≠ ""%string.

(** The world after the input went through a schema and nothing else happened. *)
Definition validated (w : World) : World :=
  mkWorld (db w) (trace w ++ [EvSafeParse]).

Definition logged (label : string) (e : JsError) (w : World) : World :=
  mkWorld (db w) (trace w ++ [EvConsoleError label e]).

Definition revalidated (paths : list string) (w : World) : World :=
  mkWorld (db w) (trace w ++ (EvRevalidatePath <$> paths)).

(** Structural defects of an input, in the words of the specification. *)
Definition present (v : JsVal) : Prop := v ≠ VUndefined ∧ v ≠ VNull.
Definition validTimestamp (v : JsVal) : Prop := ∃ t, v = VDate (Some t).
(** a name that is empty or longer than 100 characters *)
Definition badName (v : JsVal) : Prop :=
  ∃ s, v = VStr s ∧ (String.length s = 0 ∨ 100 < String.length s)%nat.
(** a timestamp that is present but not valid *)
Definition badTimestamp (v : JsVal) : Prop := present v ∧ ¬ validTimestamp v.
(** an identifier that is not syntactically valid *)
Definition badIdentifier (isUuid : string → bool) (v : JsVal) : Prop :=
  ∀ s, v = VStr s → isUuid s = false.

Inductive offendsCreate (input : JsObj) : string → Prop :=
  | create_name :
      badName (prop input "name") → offendsCreate input "name"
  | create_startedAt :
      badTimestamp (prop input "startedAt") → offendsCreate input "startedAt".

Inductive offendsUpdate (isUuid : string → bool) (input : JsObj) : string → Prop :=
  | update_workoutId :
      badIdentifier isUuid (prop input "workoutId") → offendsUpdate isUuid input "workoutId"
  | update_name :
      badName (prop input "name") → offendsUpdate isUuid input "name"
  | update_startedAt :
      badTimestamp (prop input "startedAt") → offendsUpdate isUuid input "startedAt"
  | update_completedAt :
      badTimestamp (prop input "completedAt") → offendsUpdate isUuid input "completedAt".

(** The input of [updateWorkoutAction] for a patch of one workout. *)
Definition updateInput (workoutId : string) (p : WorkoutPatch) : JsObj :=
  <["workoutId" := VStr workoutId]> (patchObject p).

(** The name of a patch, when it is a string, has 1 to 100 characters. *)
Definition validPatchName (p : WorkoutPatch) : Prop :=
  match p_name p with
  | Some (Some s) => (1 ≤ String.length s ≤ 100)%nat
  | _ => True
  end.

(** Nobody is signed in: [auth()] gives [null], or the (falsy) empty string. *)
Definition signedOut (env : Env) : Prop :=
  session env = None ∨ session env = Some ""%string.

(** The tables an action on workouts has no business with. *)
Definition childTables (d : Db)
  : list ExerciseRow * list WorkoutExerciseRow * list SetRow :=
  (exercises d, workoutExercises d, sets d).

(** What the schemas let through, value by value. *)
Definition okName (v : JsVal) : Prop :=
  v = VNull ∨ ∃ s, v = VStr s ∧ (1 ≤ String.length s ≤ 100)%nat.
Definition okDate (v : JsVal) : Prop := ∃ t, v = VDate (Some t).
Definition okIdentifier (isUuid : string → bool) (v : JsVal) : Prop :=
  ∃ s, v = VStr s ∧ isUuid s = true.

Definition acceptsCreate (input : JsObj) : Prop :=
  okName (prop input "name") ∧ okDate (prop input "startedAt").

Definition acceptsUpdate (isUuid : string → bool) (input : JsObj) : Prop :=
  okIdentifier isUuid (prop input "workoutId") ∧
  (prop input "name" = VUndefined ∨ okName (prop input "name")) ∧
  (prop input "startedAt" = VUndefined ∨ okDate (prop input "startedAt")) ∧
  (prop input "completedAt" = VUndefined ∨ prop input "completedAt" = VNull ∨
   okDate (prop input "completedAt")).

(** The patch an input of [updateWorkoutAction] asks for. *)
Definition patchOf (input : JsObj) : WorkoutPatch :=
  mkPatch
    match prop input "name" with
    | VStr s => Some (Some s)
    | VNull => Some None
    | _ => None
    end
    match prop input "startedAt" with
    | VDate (Some t) => Some t
    | _ => None
    end
    match prop input "completedAt" with
    | VDate (Some t) => Some (Some t)
    | VNull => Some None
    | _ => None
    end.

(** The name and the start an input of [createWorkoutAction] asks for. *)
Definition nameOf (input : JsObj) : option string :=
  match prop input "name" with VStr s => Some s | _ => None end.
Definition startedAtOf (input : JsObj) : Z :=
  match prop input "startedAt" with VDate (Some t) => t | _ => 0 end.

(** A row of somebody other than the caller of the request. *)
Definition foreign (env : Env) (x : WorkoutRow) : Prop :=
  session env ≠ Some (w_userId x).

(** Two stores hold the same foreign rows, at the same places. *)
Definition sameForeignRows (env : Env) (d d' : Db) : Prop :=
  ∀ i x, foreign env x → workouts d !! i = Some x ↔ workouts d' !! i = Some x.

(** [name || null] for a form field: a missing or empty field is no name. *)
Definition fieldOrNull (field : option string) : option string :=
  match field with
  | None | Some EmptyString => None
  | Some n => Some n
  end.

(** The store [d'] is [d], or [d] with one more workout, of the caller's,
    under an id that was free. *)
Definition grownByOwn (env : Env) (d d' : Db) : Prop :=
  d' = d ∨
  ∃ r, d' = withWorkouts d (workouts d ++ [r]) ∧ session env = Some (w_userId r) ∧
       (w_id r ∉ w_id <$> workouts d).

(** The store [d'] is [d] with some of the caller's workouts rewritten in
    place, their identity kept. *)
Definition rewrittenOwn (env : Env) (d d' : Db) : Prop :=
  ∃ rows',
    d' = withWorkouts d rows' ∧
    Forall2 (λ x x', x' = x ∨ (session env = Some (w_userId x) ∧ identity x' = identity x))
      (workouts d) rows'.

(** ** Sample data *)

(** The 8-4-4-4-12 hexadecimal shape, an instance of the [uuid] check. *)
Definition isHexDigit (c : ascii) : bool :=
  let n := nat_of_ascii c in
  ((48 <=? n) && (n <=? 57) || (65 <=? n) && (n <=? 70) || (97 <=? n) && (n <=? 102))%nat.

Fixpoint hexDigits (n : nat) (s : string) : option string :=
  match n, s with
  | O, _ => Some s
  | S n', String c s' => if isHexDigit c then hexDigits n' s' else None
  | S _, EmptyString => None
  end.

(** [n] hexadecimal digits and a hyphen, then the rest of the shape. *)
Definition hexGroup (n : nat) (rest : string → bool) (s : string) : bool :=
  match hexDigits n s with
  | Some (String "-"%char s') => rest s'
  | _ => false
  end.

Definition uuidShape : string → bool :=
  hexGroup 8 (hexGroup 4 (hexGroup 4 (hexGroup 4
    (λ s, match hexDigits 12 s with
          | Some EmptyString => true
          | _ => false
          end)))).

Definition legDay : WorkoutRow :=
  mkWorkout "00000000-0000-4000-8000-0000000000a1" "user_A" (Some "Leg Day"%string)
    1705363140000 None 1705363140000 1705363140000.
Definition pushDay : WorkoutRow :=
  mkWorkout "00000000-0000-4000-8000-0000000000a2" "user_A" (Some "Push"%string)
    1705363260000 (Some 1705366860000) 1705363260000 1705366860000.
Definition pullDay : WorkoutRow :=
  mkWorkout "00000000-0000-4000-8000-0000000000a3" "user_A" None
    1705449480000 None 1705449480000 1705449480000.
Definition otherUsers : WorkoutRow :=
  mkWorkout "00000000-0000-4000-8000-0000000000b1" "user_B" (Some "Run"%string)
    1705363270000 (Some 1705366870000) 1705363270000 1705366870000.

Definition sampleExercise (i : string) (o : Z) : WorkoutExerciseRow :=
  mkWorkoutExercise i (w_id pushDay) "00000000-0000-4000-8000-0000000000e1" o 0 0.
Definition sampleSet (i parent : string) (n : Z) : SetRow :=
  mkSet i parent n (Some 8) (Some "60.00"%string) 0 0.

(** Exercises inserted with [order] 2, 0, 1; the sets of each with
    [setNumber] 3, 1, 2. *)
Definition sampleDb : Db :=
  mkDb
    [legDay; otherUsers; pushDay; pullDay]
    [mkExercise "00000000-0000-4000-8000-0000000000e1" "user_A" "Bench Press" 0 0]
    [sampleExercise "x2" 2; sampleExercise "x0" 0; sampleExercise "x1" 1]
    [sampleSet "x2s3" "x2" 3; sampleSet "x2s1" "x2" 1; sampleSet "x2s2" "x2" 2;
     sampleSet "x0s3" "x0" 3; sampleSet "x0s1" "x0" 1; sampleSet "x0s2" "x0" 2;
     sampleSet "x1s3" "x1" 3; sampleSet "x1s1" "x1" 1; sampleSet "x1s2" "x1" 2].

Definition sampleWorld : World := mkWorld sampleDb [].

Definition sampleEnv (who : option string) : Env :=
  mkEnv who 1705500000000 1705500000001 "00000000-0000-4000-8000-0000000000c1" None.

(** The same request while the store is unreachable. *)
Definition faultyEnv (who : option string) : Env :=
  mkEnv who 1705500000000 1705500000001 "00000000-0000-4000-8000-0000000000c1"
    (Some "connect ECONNREFUSED 10.0.0.5:5432"%string).

(** The sample store with every child table in the opposite order. *)
Definition sampleDbReversed : Db :=
  mkDb (workouts sampleDb) (exercises sampleDb)
    (reverse (workoutExercises sampleDb)) (reverse (sets sampleDb)).

(** * Properties *)

(** ** Ordering clauses sort *)

Section Ordering.
Context {A : Type} (key : A → Z).

#[global] Instance asc_total : Total (asc key).
Proof. intros a b. unfold asc. lia. Qed.
#[global] Instance asc_trans : Transitive (asc key).
Proof. intros a b c. unfold asc. lia. Qed.
#[global] Instance desc_total : Total (desc key).
Proof. intros a b. unfold desc. lia. Qed.
#[global] Instance desc_trans : Transitive (desc key).
Proof. intros a b c. unfold desc. lia. Qed.
End Ordering.

Section OrderBy.
Context {A : Type} (R : relation A) `{!RelDecision R, !Total R, !Transitive R}.

Lemma orderBy_sorted (l : list A) : StronglySorted R (orderBy R l).
Proof. apply StronglySorted_merge_sort; apply _. Qed.

Lemma orderBy_perm (l : list A) : orderBy R l ≡ₚ l.
Proof. apply merge_sort_Permutation. Qed.

Lemma orderBy_elem (l : list A) (x : A) : x ∈ orderBy R l ↔ x ∈ l.
Proof. by rewrite orderBy_perm. Qed.

(** Where no two selected rows tie, the result does not depend on the
    order the rows lie in the table. *)
Lemma orderBy_insertion_independent (l1 l2 : list A) :
  (∀ x y, x ∈ l1 → y ∈ l1 → R x y → R y x → x = y) →
  l1 ≡ₚ l2 → orderBy R l1 = orderBy R l2.
Proof.
  intros Hties Hperm.
  apply (StronglySorted_unique_strong R); try apply orderBy_sorted.
  - intros x y Hx Hy. rewrite orderBy_elem in Hx, Hy.
    rewrite <- Hperm in Hy. by apply Hties.
  - by rewrite !orderBy_perm.
Qed.
End OrderBy.

Lemma StronglySorted_fmap {A B} (f : A → B) (R : relation B) (l : list A) :
  StronglySorted (λ a b, R (f a) (f b)) l → StronglySorted R (f <$> l).
Proof.
  induction 1 as [|x l Hl IH Hx]; simpl; constructor; [done|].
  apply Forall_fmap. eapply Forall_impl; [exact Hx|]. done.
Qed.

Lemma elem_of_List_filter {A} (f : A → bool) (l : list A) (x : A) :
  x ∈ List.filter f l ↔ f x = true ∧ x ∈ l.
Proof. rewrite !list_elem_of_In, filter_In. tauto. Qed.

Lemma List_filter_none {A} (f : A → bool) (l : list A) :
  (∀ x, x ∈ l → f x = false) → List.filter f l = [].
Proof.
  intros Hf. destruct (List.filter f l) as [|x l'] eqn:Hl; [done|].
  assert (Hx : x ∈ List.filter f l) by (rewrite Hl; left).
  apply elem_of_List_filter in Hx as [Hx Hin]. rewrite Hf in Hx; done.
Qed.

Lemma List_filter_Permutation {A} (f : A → bool) (l1 l2 : list A) :
  l1 ≡ₚ l2 → List.filter f l1 ≡ₚ List.filter f l2.
Proof.
  induction 1 as [|x l l' _ IH|x y l|l l' l'' _ IH1 _ IH2]; simpl.
  - done.
  - destruct (f x); by rewrite IH.
  - destruct (f x), (f y); try done. apply perm_swap.
  - by rewrite IH1.
Qed.

(** ** The relational read *)

Lemma loadWorkoutExercises_rows (d : Db) (w : WorkoutRow) :
  wef_row <$> loadWorkoutExercises d w = orderBy (asc we_order) (exercisesOf d w).
Proof.
  unfold loadWorkoutExercises. rewrite <- list_fmap_compose.
  apply list_fmap_id.
Qed.

Lemma loadWorkout_nestedOrdered (d : Db) (w : WorkoutRow) :
  nestedOrdered d (loadWorkout d w).
Proof.
  unfold nestedOrdered. simpl. rewrite loadWorkoutExercises_rows.
  split; [apply (orderBy_sorted _)|]. split; [apply (orderBy_perm _)|].
  unfold loadWorkoutExercises. apply Forall_fmap, Forall_forall.
  intros we _. simpl. unfold loadSets, setsOf.
  split; [apply (orderBy_sorted _) | apply (orderBy_perm _)].
Qed.

Lemma findMany_rows (where_ : WorkoutRow → bool) (d : Db) :
  wf_row <$> findMany where_ d = orderBy (desc w_startedAt) (List.filter where_ (workouts d)).
Proof. unfold findMany. rewrite <- list_fmap_compose. apply list_fmap_id. Qed.

Lemma findMany_nestedOrdered (where_ : WorkoutRow → bool) (d : Db) :
  Forall (nestedOrdered d) (findMany where_ d).
Proof.
  unfold findMany. apply Forall_fmap, Forall_forall.
  intros w _. apply loadWorkout_nestedOrdered.
Qed.

(** ** What the read functions of the query layer compute *)

Lemma getUserWorkouts_run (userId : string) (env : Env) (w : World) :
  getUserWorkouts userId env w =
    (match fault env with
     | Some e => Thrown (Error e)
     | None => Returned (findMany (eq_userId userId) (db w))
     end, entered "getUserWorkouts" w).
Proof.
  unfold getUserWorkouts, bind, emit, query, statement, ret, entered; simpl.
  by destruct (fault env).
Qed.

Lemma getUserWorkout_run (workoutId userId : string) (env : Env) (w : World) :
  getUserWorkout workoutId userId env w =
    (match fault env with
     | Some e => Thrown (Error e)
     | None => Returned (findFirst (and_ [eq_id workoutId; eq_userId userId]) (db w))
     end, entered "getUserWorkout" w).
Proof.
  unfold getUserWorkout, bind, emit, query, statement, ret, entered; simpl.
  by destruct (fault env).
Qed.

Lemma findFirst_Some (where_ : WorkoutRow → bool) (d : Db) (wf : WorkoutFull) :
  findFirst where_ d = Some wf →
  wf = loadWorkout d (wf_row wf) ∧ where_ (wf_row wf) = true ∧ wf_row wf ∈ workouts d.
Proof.
  unfold findFirst. intros H.
  apply fmap_Some in H as (r & Hhead & ->). simpl.
  apply head_Some_elem_of, elem_of_List_filter in Hhead. tauto.
Qed.

Lemma and_id_userId (workoutId userId : string) (r : WorkoutRow) :
  and_ [eq_id workoutId; eq_userId userId] r = true ↔
  w_id r = workoutId ∧ w_userId r = userId.
Proof.
  unfold and_, eq_id, eq_userId. simpl.
  rewrite andb_true_r, andb_true_iff, !bool_decide_eq_true. tauto.
Qed.

(** When no two exercises of a workout share an [order] and no two sets of
    an exercise share a [setNumber], what is fetched for a workout is the
    same whatever order the child rows were inserted in. *)
Lemma loadWorkout_insertion_independent (d1 d2 : Db) (w : WorkoutRow) :
  exercises d1 = exercises d2 →
  workoutExercises d1 ≡ₚ workoutExercises d2 →
  sets d1 ≡ₚ sets d2 →
  (∀ x y, x ∈ workoutExercises d1 → y ∈ workoutExercises d1 →
          we_workoutId x = we_workoutId y → we_order x = we_order y → x = y) →
  (∀ x y, x ∈ sets d1 → y ∈ sets d1 →
          s_workoutExerciseId x = s_workoutExerciseId y →
          s_setNumber x = s_setNumber y → x = y) →
  loadWorkout d1 w = loadWorkout d2 w.
Proof.
  intros Hex Hwe Hsets Hord Hnum.
  unfold loadWorkout, loadWorkoutExercises. f_equal.
  assert (Hrows : orderBy (asc we_order)
            (List.filter (λ we, bool_decide (we_workoutId we = w_id w)) (workoutExercises d1)) =
          orderBy (asc we_order)
            (List.filter (λ we, bool_decide (we_workoutId we = w_id w)) (workoutExercises d2))).
  { apply (orderBy_insertion_independent _).
    - intros x y [Hx Hx']%elem_of_List_filter [Hy Hy']%elem_of_List_filter Hxy Hyx.
      apply bool_decide_eq_true in Hx, Hy. unfold asc in *.
      apply Hord; [done|done|congruence|lia].
    - by apply List_filter_Permutation. }
  rewrite <- Hrows. apply list_fmap_ext. intros _ we _.
  unfold loadWorkoutExercise, loadExercise, loadSets. rewrite Hex. f_equal.
  apply (orderBy_insertion_independent _).
  - intros x y [Hx Hx']%elem_of_List_filter [Hy Hy']%elem_of_List_filter Hxy Hyx.
    apply bool_decide_eq_true in Hx, Hy. unfold asc in *.
    apply Hnum; [done|done|congruence|lia].
  - by apply List_filter_Permutation.
Qed.

(** ** Local calendar days *)

Lemma setHours_localDayAt (tz t h m s ms : Z) :
  setHours tz t h m s ms =
  localDayAt tz (localDay tz t) (((h * 60 + m) * 60 + s) * 1000 + ms).
Proof.
  unfold setHours, localDayAt, localDay. f_equal.
  pose proof (Z.div_mod (localTime tz t) msPerDay) as H.
  unfold msPerDay in *. lia.
Qed.

Lemma within_day_iff (tz date t : Z) :
  localDayAt tz (localDay tz date) 0 ≤ t ≤ localDayAt tz (localDay tz date) 86399999
  ↔ localDay tz t = localDay tz date.
Proof.
  unfold localDayAt, localDay, utcOfLocal, localTime, msPerDay.
  set (c := tz * 60000). set (q := (date - c) / 86400000).
  split.
  - intros H. symmetry. apply (Z.div_unique _ _ _ (t - c - q * 86400000)); lia.
  - intros H. subst q. rewrite <- H.
    pose proof (Z.div_mod (t - c) 86400000).
    pose proof (Z.mod_pos_bound (t - c) 86400000). lia.
Qed.

Lemma getUserWorkoutsByDate_run (tz : Z) (userId : string) (date : Z) (env : Env) (w : World) :
  getUserWorkoutsByDate tz userId date env w =
    (match fault env with
     | Some e => Thrown (Error e)
     | None =>
         Returned
           (List.filter
              (λ workout,
                 (setHours tz date 0 0 0 0 <=? w_startedAt (wf_row workout)) &&
                 (w_startedAt (wf_row workout) <=? setHours tz date 23 59 59 999))
              (findMany (and_ [eq_userId userId]) (db w)))
     end, entered "getUserWorkoutsByDate" w).
Proof.
  unfold getUserWorkoutsByDate, bind, emit, query, statement, ret, entered; simpl.
  by destruct (fault env).
Qed.

Lemma findMany_ext (f g : WorkoutRow → bool) (d : Db) :
  (∀ r, f r = g r) → findMany f d = findMany g d.
Proof. intros H. unfold findMany. by rewrite (filter_ext f g H). Qed.

(** ** Nested fetch *)

(** C6. For every owner and every store, [getUserWorkouts] returns the
    owner's workouts sorted descending by [startedAt], and [getUserWorkout]
    the workout with the given id and owner; in both, the exercises of a
    workout ascend by [order] and the sets of an exercise ascend by
    [setNumber], and they are exactly the children the tables hold.  The
    store is arbitrary, so this holds for every insertion sequence. *)
Theorem nested_fetch_ordering (userId workoutId : string) (env : Env) (w : World) :
  fault env = None →
  (∃ ws,
      getUserWorkouts userId env w = (Returned ws, entered "getUserWorkouts" w) ∧
      StronglySorted (desc w_startedAt) (wf_row <$> ws) ∧
      wf_row <$> ws ≡ₚ ownedBy userId (db w) ∧
      Forall (nestedOrdered (db w)) ws) ∧
  (∃ o,
      getUserWorkout workoutId userId env w = (Returned o, entered "getUserWorkout" w) ∧
      ∀ wf, o = Some wf →
            w_id (wf_row wf) = workoutId ∧ w_userId (wf_row wf) = userId ∧
            wf_row wf ∈ workouts (db w) ∧ nestedOrdered (db w) wf).
Proof.
  intros Hfault. split.
  - exists (findMany (eq_userId userId) (db w)).
    rewrite getUserWorkouts_run, Hfault, findMany_rows.
    split; [done|]. split; [apply (orderBy_sorted _)|].
    split; [apply (orderBy_perm _)|apply findMany_nestedOrdered].
  - eexists. rewrite getUserWorkout_run, Hfault. split; [done|].
    intros wf (Hwf & [Hid Hown]%and_id_userId & Hin)%findFirst_Some.
    rewrite Hwf at 4. auto using loadWorkout_nestedOrdered.
Qed.

Lemma nested_fetch_ordering_witness :
  ∃ wf,
    (getUserWorkout (w_id pushDay) "user_A" (sampleEnv (Some "user_A"%string)) sampleWorld).1
      = Returned (Some wf) ∧
    nestedOrdered sampleDb wf.
Proof.
  destruct (nested_fetch_ordering "user_A" (w_id pushDay)
              (sampleEnv (Some "user_A"%string)) sampleWorld eq_refl)
    as [_ (o & Hrun & Ho)].
  rewrite Hrun. simpl.
  destruct o as [wf|].
  - exists wf. split; [done|]. by apply Ho.
  - exfalso. rewrite getUserWorkout_run in Hrun. vm_compute in Hrun. congruence.
Defined.

(** The scenario of the specification: exercises come back in order 0, 1, 2
    and the sets of each in order 1, 2, 3. *)
Example nested_fetch_scenario :
  ∃ wf,
    (getUserWorkout (w_id pushDay) "user_A" (sampleEnv (Some "user_A"%string)) sampleWorld).1
      = Returned (Some wf) ∧
    (λ x, (we_order (wef_row x), s_setNumber <$> wef_sets x)) <$> wf_workoutExercises wf
      = [(0, [1; 2; 3]); (1, [1; 2; 3]); (2, [1; 2; 3])].
Proof. eexists. split; vm_compute; reflexivity. Qed.

(** ** Date filtering *)

(** C3. For every owner and date, [getUserWorkoutsByDate] returns what
    [getUserWorkouts] returns for that owner, in the same order, restricted
    to the workouts whose [startedAt] lies between 00:00:00.000 and
    23:59:59.999 of the date's local calendar day, both ends included.  A
    workout is in the result exactly when the owner owns it and its
    [startedAt] falls on that local day; no other column is consulted. *)
Theorem date_filtering (tz : Z) (userId : string) (date : Z) (env : Env) (w : World) :
  fault env = None →
  let startOfDay := localDayAt tz (localDay tz date) 0 in
  let endOfDay := localDayAt tz (localDay tz date) (((23 * 60 + 59) * 60 + 59) * 1000 + 999) in
  ∃ all ws,
    getUserWorkouts userId env w = (Returned all, entered "getUserWorkouts" w) ∧
    getUserWorkoutsByDate tz userId date env w =
      (Returned ws, entered "getUserWorkoutsByDate" w) ∧
    ws = List.filter
           (λ wf, bool_decide (startOfDay ≤ w_startedAt (wf_row wf) ≤ endOfDay)) all ∧
    (∀ wf, wf ∈ ws ↔
           wf ∈ all ∧ localDay tz (w_startedAt (wf_row wf)) = localDay tz date) ∧
    (∀ r, r ∈ wf_row <$> ws ↔
          r ∈ workouts (db w) ∧ w_userId r = userId ∧
          startOfDay ≤ w_startedAt r ≤ endOfDay).
Proof.
  intros Hfault startOfDay endOfDay.
  exists (findMany (eq_userId userId) (db w)). eexists.
  rewrite getUserWorkouts_run, getUserWorkoutsByDate_run, Hfault.
  split; [done|]. split; [done|].
  rewrite (findMany_ext (and_ [eq_userId userId]) (eq_userId userId))
    by (intros r; apply andb_true_r).
  rewrite !setHours_localDayAt. fold startOfDay endOfDay.
  assert (Hcond : ∀ wf,
    (startOfDay <=? w_startedAt (wf_row wf)) && (w_startedAt (wf_row wf) <=? endOfDay)
    = bool_decide (startOfDay ≤ w_startedAt (wf_row wf) ≤ endOfDay)).
  { intros wf. apply eq_true_iff_eq.
    rewrite andb_true_iff, !Z.leb_le, bool_decide_eq_true. done. }
  rewrite (filter_ext _ _ Hcond).
  split; [done|]. split.
  - intros wf. rewrite elem_of_List_filter, bool_decide_eq_true.
    subst startOfDay endOfDay. rewrite within_day_iff. tauto.
  - intros r. rewrite list_elem_of_fmap. split.
    + intros (wf & -> & [Hday Hin]%elem_of_List_filter).
      apply bool_decide_eq_true in Hday.
      assert (Hr : wf_row wf ∈ wf_row <$> findMany (eq_userId userId) (db w))
        by (apply list_elem_of_fmap; eauto).
      rewrite findMany_rows, (orderBy_elem _), elem_of_List_filter in Hr.
      destruct Hr as [Hown Hr]. apply bool_decide_eq_true in Hown. done.
    + intros (Hin & Hown & Hday).
      assert (Hr : r ∈ wf_row <$> findMany (eq_userId userId) (db w)).
      { rewrite findMany_rows, (orderBy_elem _), elem_of_List_filter.
        split; [by apply bool_decide_eq_true|done]. }
      apply list_elem_of_fmap in Hr as (wf & -> & Hwf).
      exists wf. split; [done|]. apply elem_of_List_filter.
      split; [by apply bool_decide_eq_true|done].
Qed.

(** The scenario of the specification, in a host on UTC: of the owner's
    workouts started at 2024-01-15T23:59, 2024-01-16T00:01 and
    2024-01-16T23:58, the day 2024-01-16 holds the last two, latest first. *)
Lemma date_filtering_witness :
  ∃ ws,
    (getUserWorkoutsByDate 0 "user_A" 1705406400000
       (sampleEnv (Some "user_A"%string)) sampleWorld).1 = Returned ws ∧
    wf_row <$> ws = [pullDay; pushDay].
Proof.
  destruct (date_filtering 0 "user_A" 1705406400000
              (sampleEnv (Some "user_A"%string)) sampleWorld eq_refl)
    as (all & ws & Hall & Hrun & Hws & _).
  exists ws. rewrite Hrun. split; [done|].
  rewrite getUserWorkouts_run in Hall. simpl in Hall.
  injection Hall as <-. rewrite Hws. vm_compute. reflexivity.
Defined.

(** ** What the write functions of the query layer compute *)

Lemma withWorkouts_same (d : Db) : withWorkouts d (workouts d) = d.
Proof. by destruct d. Qed.

Lemma updateWorkout_run (workoutId : string) (data : JsObj) (userId : string)
    (env : Env) (w : World) :
  updateWorkout workoutId data userId env w =
    match mapColumns workoutsColumns (<["updatedAt" := VDate (Some (now env))]> data) with
    | Thrown e => (Thrown e, entered "updateWorkout" w)
    | Returned cvs =>
        match fault env with
        | Some e => (Thrown (Error e), entered "updateWorkout" w)
        | None =>
            match updateStatement (and_ [eq_id workoutId; eq_userId userId]) cvs (db w) with
            | Returned (returning, d') =>
                (Returned (head returning), mkWorld d' (trace w ++ [EvQuery "updateWorkout"]))
            | Thrown e => (Thrown e, entered "updateWorkout" w)
            end
        end
    end.
Proof.
  unfold updateWorkout, bind, emit, ask, encode, statement, ret, entered.
  cbn [db trace fst snd].
  destruct (mapColumns _ _) as [cvs|e]; [|done].
  destruct (fault env); [done|].
  by destruct (updateStatement _ _ _) as [[returning d']|e].
Qed.

Lemma createWorkout_run (data : JsObj) (userId : string) (env : Env) (w : World) :
  createWorkout data userId env w =
    match mapColumns workoutsColumns
            (<["completedAt" := VNull]> (<["userId" := VStr userId]> data)) with
    | Thrown e => (Thrown e, entered "createWorkout" w)
    | Returned cvs =>
        match fault env with
        | Some e => (Thrown (Error e), entered "createWorkout" w)
        | None =>
            match insertStatement (randomUuid env) (dbNow env) cvs (db w) with
            | Returned (workout, d') =>
                (Returned workout, mkWorld d' (trace w ++ [EvQuery "createWorkout"]))
            | Thrown e => (Thrown e, entered "createWorkout" w)
            end
        end
    end.
Proof.
  unfold createWorkout, bind, emit, ask, encode, statement, ret, entered.
  cbn [db trace fst snd].
  destruct (mapColumns _ _) as [cvs|e]; [|done].
  destruct (fault env); [done|].
  by destruct (insertStatement _ _ _ _) as [[workout d']|e].
Qed.

(** A statement whose condition no row satisfies rewrites nothing. *)
Lemma updateRows_no_match (cond : WorkoutRow → bool) (cvs : list (string * SqlVal))
    (rows : list WorkoutRow) :
  (∀ r, r ∈ rows → cond r = false) →
  updateRows cond cvs rows = Returned (rows, []).
Proof.
  induction rows as [|r rows IH]; intros Hcond; simpl; [done|].
  rewrite (Hcond r) by left.
  rewrite IH by (intros x Hx; apply Hcond; by right). done.
Qed.

Lemma updateStatement_no_match (cond : WorkoutRow → bool) (cvs : list (string * SqlVal))
    (d : Db) :
  (∀ r, r ∈ workouts d → cond r = false) →
  updateStatement cond cvs d = Returned ([], d).
Proof.
  intros Hcond. unfold updateStatement.
  rewrite updateRows_no_match by done. simpl.
  rewrite decide_False by (by intros (_ & ? & _)).
  by rewrite withWorkouts_same.
Qed.

(** A statement whose assignments succeed on every row rewrites the rows
    that satisfy the condition and returns them. *)
Lemma updateRows_total (cond : WorkoutRow → bool) (cvs : list (string * SqlVal))
    (f : WorkoutRow → WorkoutRow) (rows : list WorkoutRow) :
  (∀ r, assignAll r cvs = Returned (f r)) →
  updateRows cond cvs rows =
    Returned ((λ r, if cond r then f r else r) <$> rows, f <$> List.filter cond rows).
Proof.
  intros Hf. induction rows as [|r rows IH]; simpl; [done|].
  rewrite IH. destruct (cond r); simpl; [by rewrite Hf|done].
Qed.

(** Under a primary key a row is known by its id. *)
Lemma primary_key (rows : list WorkoutRow) (r x : WorkoutRow) :
  NoDup (w_id <$> rows) → r ∈ rows → x ∈ rows → w_id x = w_id r → x = r.
Proof.
  intros Hnodup Hr Hx Hid.
  apply list_elem_of_lookup in Hr as [i Hi], Hx as [j Hj].
  assert (i = j) as ->; [|congruence].
  eapply NoDup_lookup; [exact Hnodup| |]; rewrite list_lookup_fmap.
  - by rewrite Hi.
  - rewrite Hj. simpl. by rewrite Hid.
Qed.

(** So the condition [id = ... AND userId = ...] selects the owner's row
    and nothing else, and nothing at all for another user. *)
Lemma and_id_userId_row (r x : WorkoutRow) (rows : list WorkoutRow) :
  NoDup (w_id <$> rows) → r ∈ rows → x ∈ rows →
  and_ [eq_id (w_id r); eq_userId (w_userId r)] x = bool_decide (x = r).
Proof.
  intros Hnodup Hr Hx. apply eq_true_iff_eq.
  rewrite and_id_userId, bool_decide_eq_true. split; [|by intros ->].
  intros [Hid _]. eauto using primary_key.
Qed.

Lemma and_id_userId_other (r x : WorkoutRow) (B : string) (rows : list WorkoutRow) :
  NoDup (w_id <$> rows) → r ∈ rows → B ≠ w_userId r → x ∈ rows →
  and_ [eq_id (w_id r); eq_userId B] x = false.
Proof.
  intros Hnodup Hr HB Hx. apply not_true_iff_false.
  rewrite and_id_userId. intros [Hid Hown].
  assert (x = r) as -> by eauto using primary_key. congruence.
Qed.

(** ** Patches *)

Lemma mapColumns_patchObject (now : Z) (p : WorkoutPatch) :
  mapColumns workoutsColumns (<["updatedAt" := VDate (Some now)]> (patchObject p)) =
  Returned (patchColumns now p).
Proof.
  destruct p as [[[n|]|] [t|] [[c|]|]]; vm_compute; reflexivity.
Qed.

Lemma assignAll_patchColumns (now : Z) (p : WorkoutPatch) (r : WorkoutRow) :
  assignAll r (patchColumns now p) = Returned (patched now p r).
Proof.
  destruct p as [[[n|]|] [t|] [[c|]|]]; reflexivity.
Qed.

Lemma patchColumns_keeps_id (now : Z) (p : WorkoutPatch) :
  ("id" : string) ∉ (patchColumns now p).*1.
Proof.
  destruct p as [[[n|]|] [t|] [[c|]|]]; vm_compute;
    intros H; repeat (inversion H as [|? ? ? H']; clear H; rename H' into H); inversion H.
Qed.

Lemma head_filter_row (r : WorkoutRow) (rows : list WorkoutRow) :
  r ∈ rows → head (List.filter (λ x, bool_decide (x = r)) rows) = Some r.
Proof.
  induction rows as [|x rows IH]; [by intros ?%not_elem_of_nil|].
  intros Hr. simpl. case_bool_decide as Hx; [by subst|].
  apply IH. apply elem_of_cons in Hr as [->|]; done.
Qed.

(** ** Partial update *)

(** C2. For a workout the caller owns and a patch of any subset of [name],
    [startedAt], [completedAt] (the empty one included), [updateWorkout]
    returns the row with exactly the fields of the patch replaced and
    [updatedAt] set to the current time; in the store that row takes the
    place of the old one, and nothing else changes. *)
Theorem partial_update (r : WorkoutRow) (p : WorkoutPatch) (env : Env) (w : World) :
  fault env = None →
  r ∈ workouts (db w) →
  NoDup (w_id <$> workouts (db w)) →
  updateWorkout (w_id r) (patchObject p) (w_userId r) env w =
    (Returned (Some (patched (now env) p r)),
     mkWorld
       (withWorkouts (db w)
          ((λ x, if bool_decide (x = r) then patched (now env) p r else x)
             <$> workouts (db w)))
       (trace w ++ [EvQuery "updateWorkout"])) ∧
  let r' := patched (now env) p r in
  identity r' = identity r ∧
  w_updatedAt r' = now env ∧
  w_name r' = default (w_name r) (p_name p) ∧
  w_startedAt r' = default (w_startedAt r) (p_startedAt p) ∧
  w_completedAt r' = default (w_completedAt r) (p_completedAt p).
Proof.
  intros Hfault Hr Hnodup. split; [|done].
  rewrite updateWorkout_run, mapColumns_patchObject, Hfault.
  unfold updateStatement.
  rewrite (updateRows_total _ _ (patched (now env) p))
    by (intros x; apply assignAll_patchColumns).
  cbn [obind fst snd].
  rewrite decide_False
    by (intros (Hid & _); by apply patchColumns_keeps_id in Hid).
  assert (Hsel : ∀ x, x ∈ workouts (db w) →
    and_ [eq_id (w_id r); eq_userId (w_userId r)] x = bool_decide (x = r))
    by (intros x Hx; eauto using and_id_userId_row).
  f_equal.
  - f_equal.
    rewrite (filter_ext_in _ (λ x, bool_decide (x = r)))
      by (intros x Hx; apply Hsel; by apply list_elem_of_In).
    pose proof (head_filter_row r (workouts (db w)) Hr) as Hhead.
    destruct (List.filter _ _); simpl in *; congruence.
  - f_equal. f_equal. apply list_fmap_ext. intros i x Hx.
    rewrite Hsel by (by eapply list_elem_of_lookup_2).
    by case_bool_decide; subst.
Qed.

(** The scenario of the specification: completing a workout leaves its name
    and start untouched and refreshes [updatedAt]. *)
Lemma partial_update_witness :
  (updateWorkout (w_id legDay) (patchObject (mkPatch None None (Some (Some 1705366740000))))
     "user_A" (sampleEnv (Some "user_A"%string)) sampleWorld).1
  = Returned (Some (mkWorkout (w_id legDay) "user_A" (Some "Leg Day"%string)
                      1705363140000 (Some 1705366740000) 1705363140000 1705500000000)).
Proof.
  assert (Hin : legDay ∈ workouts (db sampleWorld)) by (by left).
  assert (Hkey : NoDup (w_id <$> workouts (db sampleWorld))) by (apply (bool_decide_unpack _); vm_compute; exact I).
  destruct (partial_update legDay (mkPatch None None (Some (Some 1705366740000)))
              (sampleEnv (Some "user_A"%string)) sampleWorld eq_refl Hin Hkey)
    as [Hrun _].
  exact (f_equal fst Hrun).
Defined.

(** ** Create, then get *)

Lemma prop_insert_eq (o : JsObj) (k : string) (v : JsVal) : prop (<[k := v]> o) k = v.
Proof. unfold prop. by rewrite lookup_insert_eq. Qed.

Lemma prop_insert_ne (o : JsObj) (k k' : string) (v : JsVal) :
  k ≠ k' → prop (<[k := v]> o) k' = prop o k'.
Proof. intros. unfold prop. by rewrite lookup_insert_ne. Qed.

Lemma mapColumns_create (data : JsObj) (name : option string) (startedAt : Z)
    (userId : string) :
  prop data "name" = jsText name →
  prop data "startedAt" = VDate (Some startedAt) →
  prop data "id" = VUndefined →
  prop data "createdAt" = VUndefined →
  prop data "updatedAt" = VUndefined →
  mapColumns workoutsColumns
    (<["completedAt" := VNull]> (<["userId" := VStr userId]> data)) =
  Returned [ ("userId"%string, SText userId);
             ("name"%string, match name with Some s => SText s | None => SNull end);
             ("startedAt"%string, STime startedAt);
             ("completedAt"%string, SNull) ].
Proof.
  intros Hname Hstart Hid Hcreated Hupdated.
  set (values := <["completedAt" := VNull]> (<["userId" := VStr userId]> data)).
  assert (Hother : ∀ k, k ≠ "completedAt"%string → k ≠ "userId"%string →
                        prop values k = prop data k)
    by (intros k Hc Hu; unfold values; by rewrite !prop_insert_ne).
  assert (Hc : prop values "completedAt" = VNull) by apply prop_insert_eq.
  assert (Hu : prop values "userId" = VStr userId)
    by (unfold values; by rewrite prop_insert_ne, prop_insert_eq).
  cbn [mapColumns workoutsColumns].
  rewrite Hc, Hu, !Hother, Hname, Hstart, Hid, Hcreated, Hupdated by done.
  by destruct name.
Qed.

(** C5. [createWorkout] called for [A] with [name] and [startedAt] inserts
    one row: its owner is [A] and its [completedAt] is absent whatever the
    data object holds under [userId] and [completedAt]; and a later
    [getUserWorkout] of the returned id by [A] finds that row, with the same
    [name], the same [startedAt] and [completedAt] still absent. *)
Theorem create_get_round_trip (data : JsObj) (name : option string) (startedAt : Z)
    (A : string) (env env' : Env) (w : World) :
  prop data "name" = jsText name →
  prop data "startedAt" = VDate (Some startedAt) →
  prop data "id" = VUndefined →
  prop data "createdAt" = VUndefined →
  prop data "updatedAt" = VUndefined →
  fault env = None →
  fault env' = None →
  randomUuid env ∉ w_id <$> workouts (db w) →
  ∃ r w',
    createWorkout data A env w = (Returned r, w') ∧
    workouts (db w') = workouts (db w) ++ [r] ∧
    w_userId r = A ∧ w_name r = name ∧ w_startedAt r = startedAt ∧
    w_completedAt r = None ∧
    ∃ wf,
      getUserWorkout (w_id r) A env' w' =
        (Returned (Some wf), entered "getUserWorkout" w') ∧
      wf_row wf = r.
Proof.
  intros Hname Hstart Hid Hcreated Hupdated Hfault Hfault' Hfresh.
  rewrite createWorkout_run, (mapColumns_create data name startedAt A), Hfault by done.
  unfold insertStatement.
  replace (columnValue _ "id" _) with (SText (randomUuid env)) by done.
  replace (columnValue _ "userId" _) with (SText A) by done.
  replace (columnValue _ "name" _)
    with (match name with Some s => SText s | None => SNull end) by done.
  replace (columnValue _ "startedAt" _) with (STime startedAt) by done.
  replace (columnValue _ "completedAt" _) with SNull by done.
  replace (columnValue _ "createdAt" _) with (STime (dbNow env)) by done.
  replace (columnValue _ "updatedAt" _) with (STime (dbNow env)) by done.
  assert (Hn : textNullable "name" (match name with Some s => SText s | None => SNull end)
               = Returned name) by (by destruct name).
  rewrite Hn. cbn [obind textNotNull timeNotNull timeNullable].
  rewrite decide_False by done.
  set (r := mkWorkout (randomUuid env) A name startedAt None (dbNow env) (dbNow env)).
  set (d' := withWorkouts (db w) (workouts (db w) ++ [r])).
  exists r, (mkWorld d' (trace w ++ [EvQuery "createWorkout"])).
  split; [done|]. repeat (split; [done|]).
  exists (loadWorkout d' r). split; [|done].
  rewrite getUserWorkout_run, Hfault'. do 2 f_equal.
  unfold findFirst. cbn [db workouts withWorkouts d']. rewrite List.filter_app.
  assert (Hnone : List.filter (and_ [eq_id (w_id r); eq_userId A]) (workouts (db w)) = []).
  { apply List_filter_none. intros x Hx. apply not_true_iff_false.
    rewrite and_id_userId. intros [Hx' _]. apply Hfresh.
    apply list_elem_of_fmap. by exists x. }
  rewrite Hnone. cbn [app List.filter].
  assert (Hsel : and_ [eq_id (w_id r); eq_userId A] r = true) by (by apply and_id_userId).
  by rewrite Hsel.
Qed.

Lemma create_get_round_trip_witness :
  ∃ r w' wf,
    createWorkout
      {[ "name" := VStr "Leg Day"; "startedAt" := VDate (Some 1705500000000);
         "userId" := VStr "user_B"; "completedAt" := VDate (Some 1705500000000) ]}
      "user_A" (sampleEnv (Some "user_A"%string)) sampleWorld = (Returned r, w') ∧
    getUserWorkout (w_id r) "user_A" (sampleEnv (Some "user_A"%string)) w'
      = (Returned (Some wf), entered "getUserWorkout" w') ∧
    wf_row wf =
      mkWorkout "00000000-0000-4000-8000-0000000000c1" "user_A" (Some "Leg Day"%string)
        1705500000000 None 1705500000001 1705500000001.
Proof.
  assert (Hfresh : randomUuid (sampleEnv (Some "user_A"%string))
                   ∉ w_id <$> workouts (db sampleWorld))
    by (apply (bool_decide_unpack _); vm_compute; exact I).
  destruct (create_get_round_trip
              {[ "name" := VStr "Leg Day"; "startedAt" := VDate (Some 1705500000000);
                 "userId" := VStr "user_B"; "completedAt" := VDate (Some 1705500000000) ]}
              (Some "Leg Day"%string) 1705500000000 "user_A"
              (sampleEnv (Some "user_A"%string)) (sampleEnv (Some "user_A"%string))
              sampleWorld)
    as (r & w' & Hcreate & _ & _ & _ & _ & _ & wf & Hget & Hwf);
    [vm_compute; reflexivity..|exact Hfresh|].
  exists r, w', wf. split; [done|]. split; [done|].
  rewrite Hwf. rewrite createWorkout_run in Hcreate. vm_compute in Hcreate.
  by injection Hcreate as <- _.
Defined.

(** ** The gateway, step by step *)

Lemma auth_run (env : Env) (w : World) :
  auth env w =
    (Returned (match session env with Some EmptyString => None | o => o end), w).
Proof. done. Qed.

Lemma auth_signedIn (env : Env) (userId : string) (w : World) :
  signedIn env userId → auth env w = (Returned (Some userId), w).
Proof. intros [Hs Hne]. rewrite auth_run, Hs. by destruct userId. Qed.

Lemma createWorkoutAction_run (input : JsObj) (userId : string) (env : Env) (w : World) :
  signedIn env userId →
  WorkoutNew.createWorkoutAction input env w =
    match WorkoutNew.createWorkoutSchema input with
    | z.failure error =>
        (Returned (ActionError "Invalid input" (Some error)), validated w)
    | z.success data =>
        match createWorkout data userId env (validated w) with
        | (Returned workout, w') =>
            (Returned (ActionSuccess workout), revalidated ["/dashboard"%string] w')
        | (Thrown e, w') =>
            (Returned (ActionError "Failed to create workout" None),
             logged "Failed to create workout:" e w')
        end
    end.
Proof.
  intros Hin. unfold WorkoutNew.createWorkoutAction, bind at 1.
  rewrite (auth_signedIn _ _ _ Hin).
  unfold bind at 1, safeParse, bind at 1, emit, ret. fold (validated w).
  destruct (WorkoutNew.createWorkoutSchema input) as [data|error]; [|done].
  unfold tryCatch, bind at 1.
  by destruct (createWorkout data userId env (validated w)) as [[workout|e] w'].
Qed.

Lemma updateWorkoutAction_run (isUuid : string → bool) (input : JsObj) (userId : string)
    (env : Env) (w : World) :
  signedIn env userId →
  WorkoutEdit.updateWorkoutAction isUuid input env w =
    match WorkoutEdit.updateWorkoutSchema isUuid input with
    | z.failure error =>
        (Returned (ActionError "Invalid input" (Some error)), validated w)
    | z.success parsed =>
        match updateWorkout (WorkoutEdit.workoutIdOf parsed) (delete "workoutId" parsed)
                userId env (validated w) with
        | (Returned (Some workout), w') =>
            (Returned (ActionSuccess workout),
             revalidated [ "/dashboard"%string;
                           "/dashboard/workout/" +:+ WorkoutEdit.workoutIdOf parsed ] w')
        | (Returned None, w') =>
            (Returned (ActionError
                         "Workout not found or you do not have permission to edit it" None),
             w')
        | (Thrown e, w') =>
            (Returned (ActionError "Failed to update workout" None),
             logged "Failed to update workout:" e w')
        end
    end.
Proof.
  intros Hin. unfold WorkoutEdit.updateWorkoutAction, bind at 1.
  rewrite (auth_signedIn _ _ _ Hin).
  unfold bind at 1, safeParse, bind at 1, emit, ret. fold (validated w).
  destruct (WorkoutEdit.updateWorkoutSchema isUuid input) as [parsed|error]; [|done].
  unfold tryCatch, bind at 1.
  destruct (updateWorkout _ _ userId env (validated w)) as [[[workout|]|e] w']; try done.
  unfold revalidated, revalidatePath, bind, emit, ret. simpl.
  by rewrite <- app_assoc.
Qed.

(** ** No session *)

(** C4, as the code has it.  Without a user identity the two typed actions
    return [{ success: false, error: "Unauthorized" }] and the FormData
    action of the dashboard throws [Error("Unauthorized")]; in all three the
    world is left exactly as it was: no schema was run, no query-layer
    function entered, no row written. *)
Theorem unauthenticated_rejection (isUuid : string → bool) (parseDate : string → option Z)
    (input : JsObj) (formData : gmap string string) (env : Env) (w : World) :
  session env = None →
  WorkoutNew.createWorkoutAction input env w =
    (Returned (ActionError "Unauthorized" None), w) ∧
  WorkoutEdit.updateWorkoutAction isUuid input env w =
    (Returned (ActionError "Unauthorized" None), w) ∧
  Dashboard.createWorkoutAction parseDate formData env w =
    (Thrown (Error "Unauthorized"), w).
Proof.
  intros Hs.
  unfold WorkoutNew.createWorkoutAction, WorkoutEdit.updateWorkoutAction,
    Dashboard.createWorkoutAction, bind.
  by rewrite auth_run, Hs.
Qed.

Lemma unauthenticated_rejection_witness :
  WorkoutEdit.updateWorkoutAction uuidShape
    {[ "workoutId" := VStr (w_id pushDay); "name" := VStr "Push, edited" ]}
    (sampleEnv None) sampleWorld
  = (Returned (ActionError "Unauthorized" None), sampleWorld).
Proof.
  exact (proj1 (proj2 (unauthenticated_rejection uuidShape (λ _, None)
                         {[ "workoutId" := VStr (w_id pushDay);
                            "name" := VStr "Push, edited" ]}
                         ∅ (sampleEnv None) sampleWorld eq_refl))).
Defined.

(** The claim as stated fails on the dashboard's [createWorkoutAction]: with
    no session it does not return a result, it throws. *)
Lemma unauthenticated_dashboard_create_throws :
  let outcome :=
    (Dashboard.createWorkoutAction (λ _, Some 1705363200000)
       {[ "name" := "Leg Day"; "date" := "2024-01-16" ]}%string
       (sampleEnv None) sampleWorld).1 in
  outcome = Thrown (Error "Unauthorized") ∧ ∀ result, outcome ≠ Returned result.
Proof. split; [reflexivity|]. intros result. discriminate. Qed.

(** ** Storage failures and missing rows *)

(** C8. When the query layer throws, the action catches the error, writes it
    to the console and returns [{ success: false, error: "Failed to create
    workout" }], respectively [... "Failed to update workout"]: a returned
    value that does not depend on the error.  When [updateWorkout] returns no
    row, the action returns the not-found message as a value. *)
Theorem storage_failure_containment (isUuid : string → bool) (input data : JsObj)
    (userId : string) (env : Env) (w w' : World) (e : JsError) :
  signedIn env userId →
  (WorkoutNew.createWorkoutSchema input = z.success data →
   createWorkout data userId env (validated w) = (Thrown e, w') →
   WorkoutNew.createWorkoutAction input env w =
     (Returned (ActionError "Failed to create workout" None),
      logged "Failed to create workout:" e w')) ∧
  (WorkoutEdit.updateWorkoutSchema isUuid input = z.success data →
   updateWorkout (WorkoutEdit.workoutIdOf data) (delete "workoutId" data)
     userId env (validated w) = (Thrown e, w') →
   WorkoutEdit.updateWorkoutAction isUuid input env w =
     (Returned (ActionError "Failed to update workout" None),
      logged "Failed to update workout:" e w')) ∧
  (WorkoutEdit.updateWorkoutSchema isUuid input = z.success data →
   updateWorkout (WorkoutEdit.workoutIdOf data) (delete "workoutId" data)
     userId env (validated w) = (Returned None, w') →
   WorkoutEdit.updateWorkoutAction isUuid input env w =
     (Returned (ActionError
                  "Workout not found or you do not have permission to edit it" None),
      w')) ∧
  (∃ result w'', WorkoutNew.createWorkoutAction input env w = (Returned result, w'')) ∧
  (∃ result w'', WorkoutEdit.updateWorkoutAction isUuid input env w = (Returned result, w'')).
Proof.
  intros Hin.
  rewrite (createWorkoutAction_run _ _ _ _ Hin), (updateWorkoutAction_run _ _ _ _ _ Hin).
  split; [|split; [|split; [|split]]].
  - by intros -> ->.
  - by intros -> ->.
  - by intros -> ->.
  - destruct (WorkoutNew.createWorkoutSchema input) as [parsed|error]; [|by eauto].
    destruct (createWorkout _ _ _ _) as [[workout|e'] w1]; eauto.
  - destruct (WorkoutEdit.updateWorkoutSchema isUuid input) as [parsed|error]; [|by eauto].
    destruct (updateWorkout _ _ _ _ _) as [[[workout|]|e'] w1]; eauto.
Qed.

(** The store is unreachable: the caller of either action gets the fixed
    message, the console gets the error, the tables are as they were. *)
Lemma storage_failure_containment_witness :
  WorkoutNew.createWorkoutAction
    {[ "name" := VStr "Leg Day"; "startedAt" := VDate (Some 1705500000000) ]}
    (faultyEnv (Some "user_A"%string)) sampleWorld
  = (Returned (ActionError "Failed to create workout" None),
     mkWorld sampleDb
       [ EvSafeParse; EvQuery "createWorkout";
         EvConsoleError "Failed to create workout:"
           (Error "connect ECONNREFUSED 10.0.0.5:5432") ]) ∧
  WorkoutEdit.updateWorkoutAction uuidShape
    {[ "workoutId" := VStr (w_id pushDay); "name" := VNull ]}
    (faultyEnv (Some "user_A"%string)) sampleWorld
  = (Returned (ActionError "Failed to update workout" None),
     mkWorld sampleDb
       [ EvSafeParse; EvQuery "updateWorkout";
         EvConsoleError "Failed to update workout:"
           (Error "connect ECONNREFUSED 10.0.0.5:5432") ]) ∧
  WorkoutEdit.updateWorkoutAction uuidShape
    {[ "workoutId" := VStr (w_id otherUsers); "name" := VNull ]}
    (sampleEnv (Some "user_A"%string)) sampleWorld
  = (Returned (ActionError
                 "Workout not found or you do not have permission to edit it" None),
     mkWorld sampleDb [EvSafeParse; EvQuery "updateWorkout"]).
Proof.
  assert (Hfaulty : signedIn (faultyEnv (Some "user_A"%string)) "user_A") by done.
  assert (Hsample : signedIn (sampleEnv (Some "user_A"%string)) "user_A") by done.
  split; [|split].
  - apply (proj1 (storage_failure_containment uuidShape _
                    {[ "name" := VStr "Leg Day"; "startedAt" := VDate (Some 1705500000000) ]}
                    "user_A" _ sampleWorld
                    (mkWorld sampleDb [EvSafeParse; EvQuery "createWorkout"])
                    (Error "connect ECONNREFUSED 10.0.0.5:5432") Hfaulty));
      vm_compute; reflexivity.
  - apply (proj1 (proj2 (storage_failure_containment uuidShape _
                    {[ "workoutId" := VStr (w_id pushDay); "name" := VNull ]}
                    "user_A" _ sampleWorld
                    (mkWorld sampleDb [EvSafeParse; EvQuery "updateWorkout"])
                    (Error "connect ECONNREFUSED 10.0.0.5:5432") Hfaulty)));
      vm_compute; reflexivity.
  - apply (proj1 (proj2 (proj2 (storage_failure_containment uuidShape _
                    {[ "workoutId" := VStr (w_id otherUsers); "name" := VNull ]}
                    "user_A" _ sampleWorld
                    (mkWorld sampleDb [EvSafeParse; EvQuery "updateWorkout"])
                    (Error "") Hsample))));
      vm_compute; reflexivity.
Defined.

(** ** Validation *)

Lemma object_failure (shape : list (string * z.ZodType)) (input : JsObj)
    (k : string) (t : z.ZodType) (c : z.ZodIssueCode) :
  (k, t) ∈ shape → c ∈ t (prop input k) →
  z.object shape input = z.failure (z.issues shape input) ∧
  k ∈ (z.issues shape input).*1.
Proof.
  intros Hk Hc.
  assert (Hin : (k, c) ∈ z.issues shape input).
  { unfold z.issues. apply list_elem_of_In, in_flat_map.
    exists (k, t). split; [by apply list_elem_of_In|].
    apply list_elem_of_In, list_elem_of_fmap. by exists c. }
  split.
  - unfold z.object. destruct (z.issues shape input); [by apply not_elem_of_nil in Hin|done].
  - apply list_elem_of_fmap. by exists (k, c).
Qed.

Lemma name_issue (v : JsVal) :
  badName v →
  ∃ c, c ∈ z.nullable (z.string_ [z.min 1; z.max 100]) v ∧
       c ∈ z.optional (z.nullable (z.string_ [z.min 1; z.max 100])) v.
Proof.
  intros (s & -> & Hlen). simpl. unfold z.min, z.max.
  destruct Hlen as [Hlen|Hlen].
  - exists z.too_small. rewrite Hlen. simpl. split; left.
  - exists z.too_big.
    replace (String.length s <? 1)%nat with false by (symmetry; apply Nat.ltb_ge; lia).
    replace (100 <? String.length s)%nat with true by (symmetry; by apply Nat.ltb_lt).
    split; left.
Qed.

Lemma timestamp_issue (v : JsVal) :
  badTimestamp v →
  ∃ c, c ∈ z.date v ∧ c ∈ z.optional z.date v ∧ c ∈ z.optional (z.nullable z.date) v.
Proof.
  intros [[Hu Hn] Hvalid].
  destruct v as [| |s|[t|]]; try done.
  - exists z.invalid_type. repeat split; left.
  - exfalso. apply Hvalid. by exists t.
  - exists z.invalid_date. repeat split; left.
Qed.

Lemma identifier_issue (isUuid : string → bool) (v : JsVal) :
  badIdentifier isUuid v → ∃ c, c ∈ z.string_ [z.uuid isUuid] v.
Proof.
  intros Hbad. destruct v as [| |s|t]; try (exists z.invalid_type; left).
  exists z.invalid_string. simpl. unfold z.uuid. rewrite (Hbad s eq_refl). left.
Qed.

Lemma createWorkoutSchema_rejects (input : JsObj) (field : string) :
  offendsCreate input field →
  ∃ details,
    WorkoutNew.createWorkoutSchema input = z.failure details ∧ field ∈ details.*1.
Proof.
  intros Hbad.
  destruct Hbad as [(c & Hc & _)%name_issue | (c & Hc & _)%timestamp_issue];
    eexists; unfold WorkoutNew.createWorkoutSchema;
    eapply object_failure; try exact Hc; set_solver.
Qed.

Lemma updateWorkoutSchema_rejects (isUuid : string → bool) (input : JsObj) (field : string) :
  offendsUpdate isUuid input field →
  ∃ details,
    WorkoutEdit.updateWorkoutSchema isUuid input = z.failure details ∧ field ∈ details.*1.
Proof.
  intros Hbad.
  destruct Hbad as [ (c & Hc)%identifier_issue
                   | (c & _ & Hc)%name_issue
                   | (c & _ & Hc & _)%timestamp_issue
                   | (c & _ & _ & Hc)%timestamp_issue ];
    eexists; unfold WorkoutEdit.updateWorkoutSchema;
    eapply object_failure; try exact Hc; set_solver.
Qed.

(** C7. A signed-in call whose input has a structural defect (a name that is
    a string but empty or longer than 100 characters; a [startedAt] or
    [completedAt] that is present, that is neither [undefined] nor [null],
    but not a valid date; for update, a [workoutId] that is not a valid
    identifier) returns [{ success: false, error: "Invalid input", details }]
    where [details] names the offending field; the schema is the only thing
    that ran: no query-layer function was entered and the store is as it
    was. *)
Theorem invalid_input_rejection (isUuid : string → bool) (input : JsObj) (field : string)
    (userId : string) (env : Env) (w : World) :
  signedIn env userId →
  (offendsCreate input field →
   ∃ details,
     field ∈ details.*1 ∧
     WorkoutNew.createWorkoutAction input env w =
       (Returned (ActionError "Invalid input" (Some details)), validated w)) ∧
  (offendsUpdate isUuid input field →
   ∃ details,
     field ∈ details.*1 ∧
     WorkoutEdit.updateWorkoutAction isUuid input env w =
       (Returned (ActionError "Invalid input" (Some details)), validated w)).
Proof.
  intros Hin. split.
  - intros (details & Hparse & Hfield)%createWorkoutSchema_rejects.
    exists details. by rewrite (createWorkoutAction_run _ _ _ _ Hin), Hparse.
  - intros (details & Hparse & Hfield)%updateWorkoutSchema_rejects.
    exists details. by rewrite (updateWorkoutAction_run _ _ _ _ _ Hin), Hparse.
Qed.

Lemma invalid_input_rejection_witness :
  (∃ details,
     "name"%string ∈ details.*1 ∧
     WorkoutNew.createWorkoutAction
       {[ "name" := VStr ""; "startedAt" := VDate None ]}
       (sampleEnv (Some "user_A"%string)) sampleWorld
     = (Returned (ActionError "Invalid input" (Some details)), validated sampleWorld)) ∧
  (∃ details,
     "workoutId"%string ∈ details.*1 ∧
     WorkoutEdit.updateWorkoutAction uuidShape
       {[ "workoutId" := VStr "1 OR 1=1"; "completedAt" := VNull ]}
       (sampleEnv (Some "user_A"%string)) sampleWorld
     = (Returned (ActionError "Invalid input" (Some details)), validated sampleWorld)).
Proof.
  assert (Hin : signedIn (sampleEnv (Some "user_A"%string)) "user_A") by done.
  split.
  - apply (proj1 (invalid_input_rejection uuidShape _ "name" "user_A" _ sampleWorld Hin)).
    apply create_name. exists ""%string. split; [vm_compute; reflexivity|by left].
  - apply (proj2 (invalid_input_rejection uuidShape _ "workoutId" "user_A" _ sampleWorld Hin)).
    apply update_workoutId. intros s Hs. vm_compute in Hs. by injection Hs as <-.
Defined.

(** The scenario of the specification: an empty name and an invalid start. *)
Example invalid_input_scenario :
  WorkoutNew.createWorkoutAction
    {[ "name" := VStr ""; "startedAt" := VDate None ]}
    (sampleEnv (Some "user_A"%string)) sampleWorld
  = (Returned (ActionError "Invalid input"
                 (Some [("name"%string, z.too_small); ("startedAt"%string, z.invalid_date)])),
     mkWorld sampleDb [EvSafeParse]).
Proof. vm_compute. reflexivity. Qed.

(** ** Valid patches pass the schema *)

Lemma object_success (shape : list (string * z.ZodType)) (input : JsObj) :
  Forall (λ kt, kt.2 (prop input kt.1) = []) shape →
  z.object shape input = z.success (z.strip shape.*1 input).
Proof.
  intros Hok. unfold z.object.
  assert (z.issues shape input = []) as ->; [|done].
  unfold z.issues. induction Hok as [|kt shape Hkt _ IH]; simpl; [done|].
  by rewrite Hkt, IH.
Qed.

Lemma prop_updateInput (workoutId : string) (p : WorkoutPatch) :
  prop (updateInput workoutId p) "workoutId" = VStr workoutId ∧
  prop (updateInput workoutId p) "name" = from_option jsText VUndefined (p_name p) ∧
  prop (updateInput workoutId p) "startedAt" =
    from_option (λ t, VDate (Some t)) VUndefined (p_startedAt p) ∧
  prop (updateInput workoutId p) "completedAt" =
    from_option jsTime VUndefined (p_completedAt p).
Proof.
  destruct p as [[[n|]|] [t|] [[c|]|]]; vm_compute; done.
Qed.

Lemma lookup_withProp (k : string) (v : option JsVal) (o : JsObj) (k' : string) :
  k ≠ k' → withProp k v o !! k' = o !! k'.
Proof. intros Hne. destruct v; simpl; [by rewrite lookup_insert_ne|done]. Qed.

Lemma lookup_patchObject_other (p : WorkoutPatch) (k : string) :
  k ≠ "name"%string → k ≠ "startedAt"%string → k ≠ "completedAt"%string →
  patchObject p !! k = None.
Proof.
  intros Hn Hs Hc. unfold patchObject.
  rewrite !lookup_withProp by done. apply lookup_empty.
Qed.

Lemma lookup_strip (keys : list string) (input : JsObj) (k : string) :
  z.strip keys input !! k = if decide (k ∈ keys) then input !! k else None.
Proof.
  induction keys as [|k' keys IH].
  - cbn [z.strip]. rewrite lookup_empty.
    case_decide as Hk; [by apply not_elem_of_nil in Hk|done].
  - cbn [z.strip]. destruct (decide (k = k')) as [->|Hne].
    + rewrite (decide_True (P := k' ∈ k' :: keys)) by left.
      destruct (input !! k') eqn:Hk; [by rewrite lookup_insert_eq|].
      rewrite IH. by case_decide.
    + assert (Hdec : (if decide (k ∈ k' :: keys) then input !! k else None) =
                     (if decide (k ∈ keys) then input !! k else None)).
      { destruct (decide (k ∈ keys)) as [Hin|Hnin].
        - by rewrite decide_True by (by right).
        - rewrite decide_False; [done|]. by intros [?|?]%elem_of_cons. }
      rewrite Hdec, <- IH.
      destruct (input !! k'); [by rewrite lookup_insert_ne|done].
Qed.

Lemma strip_updateInput (workoutId : string) (p : WorkoutPatch) :
  z.strip ["workoutId"; "name"; "startedAt"; "completedAt"]%string
    (updateInput workoutId p) = updateInput workoutId p.
Proof.
  apply map_eq. intros k. rewrite lookup_strip.
  case_decide as Hk; [done|]. symmetry.
  rewrite !not_elem_of_cons in Hk. destruct Hk as (Hw & Hn & Hs & Hc & _).
  unfold updateInput. rewrite lookup_insert_ne by done.
  by apply lookup_patchObject_other.
Qed.

Lemma delete_updateInput (workoutId : string) (p : WorkoutPatch) :
  delete "workoutId" (updateInput workoutId p) = patchObject p.
Proof. apply delete_insert_id. by apply lookup_patchObject_other. Qed.

Lemma updateWorkoutSchema_accepts (isUuid : string → bool) (workoutId : string)
    (p : WorkoutPatch) :
  isUuid workoutId = true → validPatchName p →
  WorkoutEdit.updateWorkoutSchema isUuid (updateInput workoutId p) =
    z.success (updateInput workoutId p).
Proof.
  intros Huuid Hname. unfold WorkoutEdit.updateWorkoutSchema.
  rewrite object_success; [by rewrite strip_updateInput|].
  destruct (prop_updateInput workoutId p) as (Hw & Hn & Hs & Hc).
  repeat constructor; cbn [fst snd].
  - rewrite Hw. simpl. unfold z.uuid. by rewrite Huuid.
  - rewrite Hn. unfold validPatchName in Hname.
    destruct (p_name p) as [[n|]|]; simpl; try done. unfold z.min, z.max.
    replace (String.length n <? 1)%nat with false by (symmetry; apply Nat.ltb_ge; lia).
    replace (100 <? String.length n)%nat with false by (symmetry; apply Nat.ltb_ge; lia).
    done.
  - rewrite Hs. by destruct (p_startedAt p).
  - rewrite Hc. by destruct (p_completedAt p) as [[c|]|].
Qed.

Lemma workoutIdOf_updateInput (workoutId : string) (p : WorkoutPatch) :
  WorkoutEdit.workoutIdOf (updateInput workoutId p) = workoutId.
Proof.
  unfold WorkoutEdit.workoutIdOf.
  by rewrite (proj1 (prop_updateInput workoutId p)).
Qed.

(** The statement of an owner's patch: one row rewritten, in place. *)
Lemma updateWorkout_owner_patch (r : WorkoutRow) (p : WorkoutPatch) (env : Env) (w : World) :
  fault env = None →
  r ∈ workouts (db w) →
  NoDup (w_id <$> workouts (db w)) →
  updateWorkout (w_id r) (patchObject p) (w_userId r) env w =
    (Returned (Some (patched (now env) p r)),
     mkWorld
       (withWorkouts (db w)
          ((λ x, if bool_decide (x = r) then patched (now env) p r else x)
             <$> workouts (db w)))
       (trace w ++ [EvQuery "updateWorkout"])).
Proof.
  intros Hfault Hr Hnodup.
  rewrite updateWorkout_run, mapColumns_patchObject, Hfault.
  unfold updateStatement.
  rewrite (updateRows_total _ _ (patched (now env) p))
    by (intros x; apply assignAll_patchColumns).
  cbn [obind fst snd].
  rewrite decide_False
    by (intros (Hid & _); by apply patchColumns_keeps_id in Hid).
  assert (Hsel : ∀ x, x ∈ workouts (db w) →
    and_ [eq_id (w_id r); eq_userId (w_userId r)] x = bool_decide (x = r))
    by (intros x Hx; eauto using and_id_userId_row).
  f_equal.
  - f_equal.
    rewrite (filter_ext_in _ (λ x, bool_decide (x = r)))
      by (intros x Hx; apply Hsel; by apply list_elem_of_In).
    pose proof (head_filter_row r (workouts (db w)) Hr) as Hhead.
    destruct (List.filter _ _); simpl in *; congruence.
  - f_equal. f_equal. apply list_fmap_ext. intros i x Hx.
    rewrite Hsel by (by eapply list_elem_of_lookup_2).
    by case_bool_decide; subst.
Qed.

(** The owner's valid patch goes through the gateway to the row. *)
Lemma updateWorkoutAction_patch (isUuid : string → bool) (r : WorkoutRow) (p : WorkoutPatch)
    (env : Env) (w : World) :
  signedIn env (w_userId r) →
  isUuid (w_id r) = true →
  validPatchName p →
  fault env = None →
  r ∈ workouts (db w) →
  NoDup (w_id <$> workouts (db w)) →
  WorkoutEdit.updateWorkoutAction isUuid (updateInput (w_id r) p) env w =
    (Returned (ActionSuccess (patched (now env) p r)),
     mkWorld
       (withWorkouts (db w)
          ((λ x, if bool_decide (x = r) then patched (now env) p r else x)
             <$> workouts (db w)))
       (trace w ++ [ EvSafeParse; EvQuery "updateWorkout";
                     EvRevalidatePath "/dashboard";
                     EvRevalidatePath ("/dashboard/workout/" +:+ w_id r) ])).
Proof.
  intros Hin Huuid Hname Hfault Hr Hkey.
  rewrite (updateWorkoutAction_run _ _ _ _ _ Hin).
  rewrite updateWorkoutSchema_accepts by done.
  rewrite workoutIdOf_updateInput, delete_updateInput.
  rewrite (updateWorkout_owner_patch r p env (validated w) Hfault Hr Hkey).
  unfold revalidated, validated. cbn [db trace fmap list_fmap].
  by rewrite <- !app_assoc.
Qed.

(** ** Completed, then in progress again *)

(** C9. For a completed workout of the caller, [updateWorkoutAction] accepts
    an input whose [completedAt] is [null] and succeeds; the row it returns
    and stores has [completedAt] absent and is otherwise the old row with the
    patch applied.  Neither the schema nor [updateWorkout] looks at the old
    [completedAt]. *)
Theorem completed_to_in_progress (isUuid : string → bool) (r : WorkoutRow) (p : WorkoutPatch)
    (env : Env) (w : World) :
  signedIn env (w_userId r) →
  isUuid (w_id r) = true →
  validPatchName p →
  fault env = None →
  r ∈ workouts (db w) →
  NoDup (w_id <$> workouts (db w)) →
  is_Some (w_completedAt r) →
  p_completedAt p = Some None →
  ∃ r' w',
    WorkoutEdit.updateWorkoutAction isUuid (updateInput (w_id r) p) env w =
      (Returned (ActionSuccess r'), w') ∧
    r' = patched (now env) p r ∧
    w_completedAt r' = None ∧
    r' ∈ workouts (db w') ∧
    r ∉ workouts (db w').
Proof.
  intros Hin Huuid Hname Hfault Hr Hkey Hdone Hnull.
  eexists _, _. split; [by apply updateWorkoutAction_patch|].
  assert (Hc : w_completedAt (patched (now env) p r) = None)
    by (simpl; by rewrite Hnull).
  split; [done|]. split; [done|]. cbn [db workouts withWorkouts]. split.
  - apply list_elem_of_fmap. exists r. by rewrite bool_decide_eq_true_2.
  - intros (x & Hx & _)%list_elem_of_fmap.
    case_bool_decide as Hxr; [|done].
    rewrite Hx, Hc in Hdone. by destruct Hdone.
Qed.

Lemma completed_to_in_progress_witness :
  ∃ w',
    WorkoutEdit.updateWorkoutAction uuidShape
      (updateInput (w_id pushDay) (mkPatch None None (Some None)))
      (sampleEnv (Some "user_A"%string)) sampleWorld
    = (Returned (ActionSuccess
                   (mkWorkout (w_id pushDay) "user_A" (Some "Push"%string)
                      1705363260000 None 1705363260000 1705500000000)), w').
Proof.
  assert (Hin : pushDay ∈ workouts (db sampleWorld)) by (do 2 right; left).
  assert (Hkey : NoDup (w_id <$> workouts (db sampleWorld)))
    by (apply (bool_decide_unpack _); vm_compute; exact I).
  destruct (completed_to_in_progress uuidShape pushDay (mkPatch None None (Some None))
              (sampleEnv (Some "user_A"%string)) sampleWorld)
    as (r' & w' & Hrun & -> & _); try done.
  exists w'. exact Hrun.
Defined.

Example updateInput_object :
  updateInput (w_id pushDay) (mkPatch None None (Some None)) =
  {[ "workoutId" := VStr (w_id pushDay); "completedAt" := VNull ]}.
Proof. vm_compute. reflexivity. Qed.

(** ** What an update can write *)

Lemma object_success_inv (shape : list (string * z.ZodType)) (input parsed : JsObj) :
  z.object shape input = z.success parsed → parsed = z.strip shape.*1 input.
Proof. unfold z.object. destruct (z.issues shape input); by intros [= <-]. Qed.

(** The assignments of a statement are columns the object defines. *)
Lemma mapColumns_defined (cols : list (string * ColumnType)) (values : JsObj)
    (cvs : list (string * SqlVal)) (c : string) :
  mapColumns cols values = Returned cvs → c ∈ cvs.*1 → prop values c ≠ VUndefined.
Proof.
  revert cvs. induction cols as [|[c' ty] cols IH]; intros cvs; cbn [mapColumns].
  - intros [= <-] Hc. by apply not_elem_of_nil in Hc.
  - assert (Hstep : ∀ v, prop values c' = v → v ≠ VUndefined →
      obind (mapToDriverValue ty v)
        (λ sv, obind (mapColumns cols values) (λ rest, Returned ((c', sv) :: rest)))
      = Returned cvs → c ∈ cvs.*1 → prop values c ≠ VUndefined).
    { intros v Hv Hdef.
      destruct (mapToDriverValue ty v) as [sv|e]; [|done]. cbn [obind].
      destruct (mapColumns cols values) as [rest|e]; [|done]. cbn [obind].
      intros [= <-]. rewrite fmap_cons. intros [Heq|Hc]%elem_of_cons.
      - cbn in Heq. congruence.
      - by eapply IH. }
    destruct (prop values c') eqn:Hc'; [by apply IH|..]; by eapply Hstep.
Qed.

Lemma assign_identity (r r' : WorkoutRow) (c : string) (v : SqlVal) :
  c ≠ "id"%string → c ≠ "userId"%string → c ≠ "createdAt"%string →
  assign r (c, v) = Returned r' → identity r' = identity r.
Proof.
  intros Hid Huser Hcreated. unfold assign.
  repeat case_decide; try done; destruct v; simpl; intros [=]; try by subst.
Qed.

Lemma assignAll_identity (cvs : list (string * SqlVal)) (r r' : WorkoutRow) :
  Forall (λ cv, cv.1 ≠ "id" ∧ cv.1 ≠ "userId" ∧ cv.1 ≠ "createdAt")%string cvs →
  assignAll r cvs = Returned r' → identity r' = identity r.
Proof.
  intros Hcvs. revert r. induction Hcvs as [|[c v] cvs (Hid & Huser & Hcreated) _ IH];
    intros r; cbn [assignAll].
  - by intros [= <-].
  - destruct (assign r (c, v)) as [r1|e] eqn:Hr1; [|done]. cbn [obind]. intros Hr'.
    rewrite (IH _ Hr'). by eapply assign_identity.
Qed.

Lemma updateRows_identity (cond : WorkoutRow → bool) (cvs : list (string * SqlVal))
    (rows rows' returning : list WorkoutRow) :
  Forall (λ cv, cv.1 ≠ "id" ∧ cv.1 ≠ "userId" ∧ cv.1 ≠ "createdAt")%string cvs →
  updateRows cond cvs rows = Returned (rows', returning) →
  identity <$> rows' = identity <$> rows ∧
  ∀ r', r' ∈ returning → ∃ r, r ∈ rows ∧ cond r = true ∧ identity r' = identity r.
Proof.
  intros Hcvs. revert rows' returning.
  induction rows as [|r rows IH]; intros rows' returning; cbn [updateRows].
  - intros [= <- <-]. split; [done|]. by intros r' ?%not_elem_of_nil.
  - destruct (cond r) eqn:Hcond.
    + destruct (assignAll r cvs) as [r1|e] eqn:Hr1; [|done]. simpl.
      destruct (updateRows cond cvs rows) as [[rows1 ret1]|e]; [|done]. simpl.
      intros [= <- <-]. destruct (IH _ _ eq_refl) as [Hrows Hret].
      pose proof (assignAll_identity _ _ _ Hcvs Hr1) as Hident.
      split; [by rewrite !fmap_cons, Hrows, Hident|].
      intros r' [->|Hr']%elem_of_cons.
      * exists r. split; [left|done].
      * destruct (Hret r' Hr') as (x & Hx & Hcx & Hix).
        exists x. split; [by right|done].
    + destruct (updateRows cond cvs rows) as [[rows1 ret1]|e]; [|done]. simpl.
      intros [= <- <-]. destruct (IH _ _ eq_refl) as [Hrows Hret].
      split; [by rewrite !fmap_cons, Hrows|].
      intros r' Hr'. destruct (Hret r' Hr') as (x & Hx & Hcx & Hix).
      exists x. split; [by right|done].
Qed.

(** What the action hands to [.set(...)] defines no identity column,
    whatever keys the caller's input carries. *)
Lemma set_object_identity_free (isUuid : string → bool) (input parsed : JsObj) (t : Z)
    (cvs : list (string * SqlVal)) :
  WorkoutEdit.updateWorkoutSchema isUuid input = z.success parsed →
  mapColumns workoutsColumns
    (<["updatedAt" := VDate (Some t)]> (delete "workoutId" parsed)) = Returned cvs →
  Forall (λ cv, cv.1 ≠ "id" ∧ cv.1 ≠ "userId" ∧ cv.1 ≠ "createdAt")%string cvs.
Proof.
  intros ->%object_success_inv Hcvs. apply Forall_forall. intros [c v] Hcv.
  assert (Hc : c ∈ cvs.*1) by (apply list_elem_of_fmap; by exists (c, v)).
  pose proof (mapColumns_defined _ _ _ _ Hcvs Hc) as Hdef.
  clear Hcvs Hcv Hc. cbn [fst].
  assert (Hundef : ∀ k : string,
    k ≠ "updatedAt"%string →
    k ∉ ["workoutId"; "name"; "startedAt"; "completedAt"]%string →
    prop (<["updatedAt" := VDate (Some t)]>
            (delete "workoutId"
               (z.strip ["workoutId"; "name"; "startedAt"; "completedAt"]%string input))) k
    = VUndefined).
  { intros k Hk Hnot. unfold prop. rewrite lookup_insert_ne by done.
    destruct (decide (k = "workoutId"%string)) as [->|Hw]; [by rewrite lookup_delete_eq|].
    rewrite lookup_delete_ne by done. rewrite lookup_strip. by rewrite decide_False. }
  repeat split; intros ->; apply Hdef, Hundef; try discriminate;
    rewrite !not_elem_of_cons; repeat split; try discriminate; apply not_elem_of_nil.
Qed.

(** ** Identity columns *)

(** C10. Whatever object [updateWorkoutAction] is given, and whatever it
    returns, the rows of the store keep their [id], [userId] and
    [createdAt]; the row a successful call returns carries the identity of a
    row that was there.  The schema drops every key other than [workoutId],
    [name], [startedAt], [completedAt], and [updateWorkout] adds only
    [updatedAt], so a [userId] or [id] in the input never reaches the
    statement. *)
Theorem identity_fields_immutable (isUuid : string → bool) (input : JsObj)
    (env : Env) (w : World) :
  identity <$> workouts (db (WorkoutEdit.updateWorkoutAction isUuid input env w).2)
    = identity <$> workouts (db w) ∧
  ∀ r', (WorkoutEdit.updateWorkoutAction isUuid input env w).1 = Returned (ActionSuccess r') →
        ∃ r, r ∈ workouts (db w) ∧ identity r' = identity r.
Proof.
  destruct (session env) as [[|a u]|] eqn:Hs.
  1, 3: unfold WorkoutEdit.updateWorkoutAction, bind; rewrite auth_run, Hs; by split.
  assert (Hin : signedIn env (String a u)) by done.
  rewrite (updateWorkoutAction_run _ _ _ _ _ Hin).
  destruct (WorkoutEdit.updateWorkoutSchema isUuid input) as [parsed|error] eqn:Hparse;
    [|by split].
  rewrite updateWorkout_run.
  destruct (mapColumns _ _) as [cvs|e] eqn:Hcvs; [|by split].
  destruct (fault env); [by split|].
  pose proof (set_object_identity_free _ _ _ _ _ Hparse Hcvs) as Hfree.
  unfold updateStatement. cbn [db validated].
  destruct (updateRows _ cvs (workouts (db w))) as [[rows' returning]|e] eqn:Hrows;
    [|by split].
  cbn [obind fst snd]. case_decide; [by split|].
  destruct (updateRows_identity _ _ _ _ _ Hfree Hrows) as [Hident Hret].
  destruct returning as [|r1 returning]; cbn [head]; (split; [done|]).
  - done.
  - intros r' [= <-]. destruct (Hret r1) as (r & Hr & _ & Hir); [left|]. eauto.
Qed.

(** A caller who sends [userId] and [id] along changes neither. *)
Example identity_fields_scenario :
  ∃ r' w',
    WorkoutEdit.updateWorkoutAction uuidShape
      {[ "workoutId" := VStr (w_id pushDay); "name" := VStr "Mine now";
         "userId" := VStr "user_B"; "id" := VStr (w_id legDay) ]}
      (sampleEnv (Some "user_A"%string)) sampleWorld = (Returned (ActionSuccess r'), w') ∧
    identity r' = identity pushDay ∧ w_name r' = Some "Mine now"%string.
Proof. eexists _, _. split; [vm_compute; reflexivity|done]. Qed.

(** ** Ownership *)

Lemma updateWorkout_no_match (workoutId : string) (data : JsObj) (userId : string)
    (env : Env) (w : World) :
  (∀ x, x ∈ workouts (db w) → and_ [eq_id workoutId; eq_userId userId] x = false) →
  updateWorkout workoutId data userId env w =
    (match mapColumns workoutsColumns (<["updatedAt" := VDate (Some (now env))]> data) with
     | Thrown e => Thrown e
     | Returned _ =>
         match fault env with
         | Some e => Thrown (Error e)
         | None => Returned None
         end
     end, entered "updateWorkout" w).
Proof.
  intros Hno. rewrite updateWorkout_run.
  destruct (mapColumns _ _) as [cvs|e]; [|done].
  destruct (fault env); [done|].
  rewrite updateStatement_no_match by done. by destruct w.
Qed.

Lemma findFirst_no_match (where_ : WorkoutRow → bool) (d : Db) :
  (∀ x, x ∈ workouts d → where_ x = false) → findFirst where_ d = None.
Proof. intros Hno. unfold findFirst. by rewrite List_filter_none. Qed.

Lemma workoutIdOf_parsed (isUuid : string → bool) (input parsed : JsObj) :
  WorkoutEdit.updateWorkoutSchema isUuid input = z.success parsed →
  WorkoutEdit.workoutIdOf parsed = WorkoutEdit.workoutIdOf input.
Proof.
  intros ->%object_success_inv. unfold WorkoutEdit.workoutIdOf, prop.
  rewrite lookup_strip. by rewrite decide_True by left.
Qed.

(** C1. Let [r] be a workout of the store, under the primary key, and [B] a
    user who does not own it.  Then [getUserWorkout] and [updateWorkout] on
    [r]'s id return not-found for [B] and [updateWorkout] leaves the store
    as it was; and whatever [B] passes, and whether or not the store fails,
    the outcome of [getUserWorkout], of [updateWorkout] and of
    [updateWorkoutAction] on that id is the outcome in the store where the
    workout does not exist. *)
Theorem ownership_isolation (isUuid : string → bool) (r : WorkoutRow) (B : string)
    (p : WorkoutPatch) (data input : JsObj) (env : Env) (w : World) :
  r ∈ workouts (db w) →
  NoDup (w_id <$> workouts (db w)) →
  B ≠ w_userId r →
  let absent := mkWorld (without (w_id r) (db w)) (trace w) in
  (fault env = None →
   getUserWorkout (w_id r) B env w = (Returned None, entered "getUserWorkout" w) ∧
   updateWorkout (w_id r) (patchObject p) B env w =
     (Returned None, entered "updateWorkout" w)) ∧
  (getUserWorkout (w_id r) B env w).1 = (getUserWorkout (w_id r) B env absent).1 ∧
  (updateWorkout (w_id r) data B env w).1 = (updateWorkout (w_id r) data B env absent).1 ∧
  db (updateWorkout (w_id r) data B env w).2 = db w ∧
  (signedIn env B → WorkoutEdit.workoutIdOf input = w_id r →
   (WorkoutEdit.updateWorkoutAction isUuid input env w).1 =
     (WorkoutEdit.updateWorkoutAction isUuid input env absent).1 ∧
   db (WorkoutEdit.updateWorkoutAction isUuid input env w).2 = db w).
Proof.
  intros Hr Hkey HB absent.
  assert (Hno : ∀ w0 x, db w0 = db w → x ∈ workouts (db w0) →
                        and_ [eq_id (w_id r); eq_userId B] x = false)
    by (intros w0 x ->; eauto using and_id_userId_other).
  assert (Hno' : ∀ w0 x, db w0 = db absent → x ∈ workouts (db w0) →
                         and_ [eq_id (w_id r); eq_userId B] x = false).
  { intros w0 x -> [_ Hx]%elem_of_List_filter. by apply (Hno w). }
  split; [|split; [|split; [|split]]].
  - intros Hfault. split.
    + rewrite getUserWorkout_run, Hfault, findFirst_no_match by eauto. done.
    + rewrite updateWorkout_no_match, mapColumns_patchObject, Hfault by eauto. done.
  - rewrite !getUserWorkout_run, !findFirst_no_match by eauto. done.
  - rewrite !updateWorkout_no_match by eauto. done.
  - rewrite updateWorkout_no_match by eauto. done.
  - intros Hin Hid.
    rewrite !(updateWorkoutAction_run _ _ _ _ _ Hin).
    destruct (WorkoutEdit.updateWorkoutSchema isUuid input) as [parsed|error] eqn:Hparse;
      [|done].
    rewrite (workoutIdOf_parsed _ _ _ Hparse), Hid.
    rewrite !updateWorkout_no_match by eauto.
    destruct (mapColumns _ _) as [cvs|e]; [|done].
    by destruct (fault env).
Qed.

Lemma ownership_isolation_witness :
  getUserWorkout (w_id pushDay) "user_B" (sampleEnv (Some "user_B"%string)) sampleWorld
    = (Returned None, entered "getUserWorkout" sampleWorld) ∧
  updateWorkout (w_id pushDay) (patchObject (mkPatch (Some (Some "Taken"%string)) None None))
    "user_B" (sampleEnv (Some "user_B"%string)) sampleWorld
    = (Returned None, entered "updateWorkout" sampleWorld) ∧
  (WorkoutEdit.updateWorkoutAction uuidShape
     (updateInput (w_id pushDay) (mkPatch (Some (Some "Taken"%string)) None None))
     (sampleEnv (Some "user_B"%string)) sampleWorld).1
  = (WorkoutEdit.updateWorkoutAction uuidShape
       (updateInput (w_id pushDay) (mkPatch (Some (Some "Taken"%string)) None None))
       (sampleEnv (Some "user_B"%string))
       (mkWorld (without (w_id pushDay) sampleDb) [])).1.
Proof.
  assert (Hin : pushDay ∈ workouts (db sampleWorld)) by (do 2 right; left).
  assert (Hkey : NoDup (w_id <$> workouts (db sampleWorld)))
    by (apply (bool_decide_unpack _); vm_compute; exact I).
  assert (HB : "user_B"%string ≠ w_userId pushDay) by done.
  destruct (ownership_isolation uuidShape pushDay "user_B"
              (mkPatch (Some (Some "Taken"%string)) None None) ∅
              (updateInput (w_id pushDay) (mkPatch (Some (Some "Taken"%string)) None None))
              (sampleEnv (Some "user_B"%string)) sampleWorld Hin Hkey HB)
    as (Hnone & _ & _ & _ & Haction).
  destruct (Hnone eq_refl) as [Hget Hupdate].
  split; [exact Hget|]. split; [exact Hupdate|].
  apply Haction; [done|]. apply workoutIdOf_updateInput.
Defined.

(** What [B] sees is the not-found message, and the row is as it was. *)
Example ownership_isolation_scenario :
  WorkoutEdit.updateWorkoutAction uuidShape
    (updateInput (w_id pushDay) (mkPatch (Some (Some "Taken"%string)) None None))
    (sampleEnv (Some "user_B"%string)) sampleWorld
  = (Returned (ActionError
                 "Workout not found or you do not have permission to edit it" None),
     mkWorld sampleDb [EvSafeParse; EvQuery "updateWorkout"]).
Proof. vm_compute. reflexivity. Qed.


(** * Further properties of the code *)

(** ** Calendar fields *)

Lemma DayFromYear_mono (y1 y2 : Z) : y1 ≤ y2 → DayFromYear y1 ≤ DayFromYear y2.
Proof. intros H. unfold DayFromYear. Z.div_mod_to_equations. lia. Qed.

(** [YearFromDay] is the year of the ECMAScript definition: the largest
    year that starts on or before the day. *)
Lemma YearFromDay_spec (d : Z) :
  DayFromYear (YearFromDay d) ≤ d < DayFromYear (YearFromDay d + 1).
Proof.
  unfold YearFromDay. cbv zeta.
  repeat match goal with |- context [?a <=? ?b] => destruct (Z.leb_spec a b) end;
    unfold DayFromYear in *; Z.div_mod_to_equations; lia.
Qed.

Lemma YearFromDay_largest (d y : Z) : DayFromYear y ≤ d → y ≤ YearFromDay d.
Proof.
  intros Hy. destruct (Z.le_gt_cases y (YearFromDay d)) as [|Hgt]; [done|].
  pose proof (YearFromDay_spec d) as [_ Hlt].
  pose proof (DayFromYear_mono (YearFromDay d + 1) y). lia.
Qed.

Lemma fields_of_day (t1 t2 : Z) :
  Day t1 = Day t2 →
  YearFromTime t1 = YearFromTime t2 ∧ MonthFromTime t1 = MonthFromTime t2 ∧
  DateFromTime t1 = DateFromTime t2.
Proof.
  intros H.
  assert (Hy : YearFromTime t1 = YearFromTime t2) by (unfold YearFromTime; by rewrite H).
  assert (Hl : InLeapYear t1 = InLeapYear t2) by (unfold InLeapYear; by rewrite Hy).
  assert (Hw : DayWithinYear t1 = DayWithinYear t2)
    by (unfold DayWithinYear; by rewrite H, Hy).
  assert (Hm : MonthFromTime t1 = MonthFromTime t2)
    by (unfold MonthFromTime; by rewrite Hw, Hl).
  repeat split; try done. unfold DateFromTime. by rewrite Hw, Hl, Hm.
Qed.

Lemma day_of_fields (t1 t2 : Z) :
  YearFromTime t1 = YearFromTime t2 →
  MonthFromTime t1 = MonthFromTime t2 →
  DateFromTime t1 = DateFromTime t2 →
  Day t1 = Day t2.
Proof.
  intros Hy Hm Hd.
  assert (Hl : InLeapYear t1 = InLeapYear t2) by (unfold InLeapYear; by rewrite Hy).
  assert (Hw : DayWithinYear t1 = DayWithinYear t2).
  { unfold DateFromTime in Hd. rewrite <- Hm, <- Hl in Hd.
    destruct (MonthFromTime t1 =? 0); [lia|].
    repeat (match type of Hd with context [if ?b then _ else _] => destruct b end; [lia|]).
    lia. }
  unfold DayWithinYear in Hw. rewrite Hy in Hw. lia.
Qed.

(** Two times show the same date, month and year exactly when they fall on
    the same local day. *)
Lemma same_fields_iff_same_day (tz t1 t2 : Z) :
  (getDate tz t1 =? getDate tz t2) && (getMonth tz t1 =? getMonth tz t2) &&
  (getFullYear tz t1 =? getFullYear tz t2) = true
  ↔ localDay tz t1 = localDay tz t2.
Proof.
  rewrite !andb_true_iff, !Z.eqb_eq. unfold getDate, getMonth, getFullYear, localDay.
  fold (Day (localTime tz t1)) (Day (localTime tz t2)). split.
  - intros [[Hd Hm] Hy]. by apply day_of_fields.
  - intros (Hy & Hm & Hd)%fields_of_day. done.
Qed.

Lemma DashboardPage_run (userId : string) (env : Env) (w : World) :
  signedIn env userId →
  DashboardPage env w =
    (match fault env with
     | Some e => Thrown (Error e)
     | None => Returned (Rendered (findMany (eq_userId userId) (db w)))
     end, entered "getUserWorkouts" w).
Proof.
  intros Hin. unfold DashboardPage, bind at 1. rewrite (auth_signedIn _ _ _ Hin).
  unfold bind. rewrite getUserWorkouts_run. by destruct (fault env).
Qed.

(** X1. What the dashboard shows for a selected day is what
    [getUserWorkoutsByDate] returns for the signed-in user and that day (in
    the same zone): the client's comparison of date, month and year selects
    the same workouts, in the same order, as the range test of the query
    layer; with no day selected the dashboard shows every workout. *)
Theorem dashboard_day_filter (tz : Z) (userId : string) (date : Z) (env : Env) (w : World) :
  signedIn env userId →
  fault env = None →
  ∃ workouts onDate,
    DashboardPage env w = (Returned (Rendered workouts), entered "getUserWorkouts" w) ∧
    getUserWorkoutsByDate tz userId date env w =
      (Returned onDate, entered "getUserWorkoutsByDate" w) ∧
    DashboardClient.filteredWorkouts tz (Some date) workouts = onDate ∧
    DashboardClient.filteredWorkouts tz None workouts = workouts ∧
    ∀ wf, wf ∈ DashboardClient.filteredWorkouts tz (Some date) workouts ↔
          wf ∈ workouts ∧ localDay tz (w_startedAt (wf_row wf)) = localDay tz date.
Proof.
  intros Hin Hfault. eexists _, _.
  rewrite (DashboardPage_run _ _ _ Hin), getUserWorkoutsByDate_run, Hfault.
  split; [done|]. split; [done|].
  rewrite (findMany_ext (and_ [eq_userId userId]) (eq_userId userId))
    by (intros r; apply andb_true_r).
  split; [|split; [done|]].
  - unfold DashboardClient.filteredWorkouts. apply filter_ext. intros wf.
    apply eq_true_iff_eq. rewrite same_fields_iff_same_day, <- within_day_iff.
    rewrite !setHours_localDayAt, andb_true_iff, !Z.leb_le. done.
  - intros wf. unfold DashboardClient.filteredWorkouts.
    rewrite elem_of_List_filter, same_fields_iff_same_day. tauto.
Qed.

Lemma dashboard_day_filter_witness :
  ∃ workouts,
    (DashboardPage (sampleEnv (Some "user_A"%string)) sampleWorld).1
      = Returned (Rendered workouts) ∧
    wf_row <$> DashboardClient.filteredWorkouts 0 (Some 1705406400000) workouts
      = [pullDay; pushDay].
Proof.
  destruct (dashboard_day_filter 0 "user_A" 1705406400000
              (sampleEnv (Some "user_A"%string)) sampleWorld)
    as (workouts & onDate & Hpage & Hquery & Hsame & _); [done..|].
  exists workouts. rewrite Hpage. split; [done|].
  rewrite Hsame. rewrite getUserWorkoutsByDate_run in Hquery.
  injection Hquery as <-. vm_compute. reflexivity.
Defined.

(** X2. The dashboard takes the selected date for a past date exactly when
    a date is selected and its local day lies before the local day of
    [new Date()]: no time of today, and no missing selection, is past. *)
Theorem isDateInPast_iff (tz : Z) (selectedDate : option Z) (today : Z) :
  DashboardClient.isDateInPast tz selectedDate today = true ↔
  ∃ selected, selectedDate = Some selected ∧ localDay tz selected < localDay tz today.
Proof.
  unfold DashboardClient.isDateInPast. destruct selectedDate as [selected|].
  - rewrite Z.ltb_lt, !setHours_localDayAt. unfold localDayAt, utcOfLocal, msPerDay.
    split.
    + intros H. exists selected. split; [done|]. lia.
    + intros (? & [= <-] & H). lia.
  - split; [done|]. by intros (? & ? & _).
Qed.

(** ** Pages *)

Lemma auth_signedOut (env : Env) (w : World) :
  signedOut env → auth env w = (Returned None, w).
Proof. intros [Hs|Hs]; by rewrite auth_run, Hs. Qed.

(** X3. A visitor who is not signed in is redirected to [/sign-in] by the
    edit page, the new-workout page and the dashboard page alike, before
    any query: the world is left as it was. *)
Theorem pages_redirect_signed_out (params_workoutId : string) (env : Env) (w : World) :
  signedOut env →
  EditWorkoutPage params_workoutId env w = (Returned (Redirected "/sign-in"), w) ∧
  NewWorkoutPage env w = (Returned (Redirected "/sign-in"), w) ∧
  DashboardPage env w = (Returned (Redirected "/sign-in"), w).
Proof.
  intros Hout. unfold EditWorkoutPage, NewWorkoutPage, DashboardPage, bind.
  by rewrite (auth_signedOut _ _ Hout).
Qed.

Lemma pages_redirect_signed_out_witness :
  EditWorkoutPage (w_id pushDay) (sampleEnv (Some ""%string)) sampleWorld
    = (Returned (Redirected "/sign-in"), sampleWorld).
Proof.
  apply (pages_redirect_signed_out (w_id pushDay) (sampleEnv (Some ""%string)) sampleWorld).
  by right.
Defined.





(** ** The query layer, beyond the owner's well-typed call *)

Lemma updateRows_frame (cond : WorkoutRow → bool) (cvs : list (string * SqlVal))
    (rows rows' returning : list WorkoutRow) :
  updateRows cond cvs rows = Returned (rows', returning) →
  length rows' = length rows ∧
  ∀ i x, rows !! i = Some x → cond x = false → rows' !! i = Some x.
Proof.
  revert rows' returning. induction rows as [|r rows IH]; intros rows' returning;
    cbn [updateRows].
  - intros [= <- <-]. by split.
  - destruct (cond r) eqn:Hcond.
    + destruct (assignAll r cvs) as [r1|e]; [|done]. cbn [obind].
      destruct (updateRows cond cvs rows) as [[rows1 ret1]|e]; [|done]. cbn [obind fst snd].
      intros [= <- <-]. destruct (IH _ _ eq_refl) as [Hlen Hframe].
      split; [simpl; by rewrite Hlen|].
      intros [|i] x; simpl; [intros [= ->]; congruence|by apply Hframe].
    + destruct (updateRows cond cvs rows) as [[rows1 ret1]|e]; [|done]. cbn [obind fst snd].
      intros [= <- <-]. destruct (IH _ _ eq_refl) as [Hlen Hframe].
      split; [simpl; by rewrite Hlen|].
      intros [|i] x; simpl; [done|by apply Hframe].
Qed.

Lemma updateWorkout_keeps_others (params_workoutId : string) (data : JsObj) (userId : string)
    (env : Env) (w : World) :
  let d' := db (updateWorkout params_workoutId data userId env w).2 in
  length (workouts d') = length (workouts (db w)) ∧
  childTables d' = childTables (db w) ∧
  ∀ i x, workouts (db w) !! i = Some x →
         ¬ (w_id x = params_workoutId ∧ w_userId x = userId) →
         workouts d' !! i = Some x.
Proof.
  rewrite updateWorkout_run.
  destruct (mapColumns _ _) as [cvs|e]; [|by repeat split].
  destruct (fault env); [by repeat split|].
  unfold updateStatement.
  destruct (updateRows _ cvs (workouts (db w))) as [[rows' returning]|e] eqn:Hrows;
    [|by repeat split].
  cbn [obind fst snd]. case_decide; [by repeat split|].
  destruct (updateRows_frame _ _ _ _ _ Hrows) as [Hlen Hframe].
  cbn [snd db workouts withWorkouts]. split; [done|]. split; [done|].
  intros i x Hx Hno. apply Hframe; [done|].
  apply not_true_iff_false. by rewrite and_id_userId.
Qed.

(** X5. Whatever [data] holds (also keys outside its type, such as [id] or
    [userId]) and whether the call returns or throws, [updateWorkout]
    leaves every row in place that does not have both the given id and the
    given owner, keeps the number of rows, and does not touch the other
    tables. *)
Theorem updateWorkout_frame (params_workoutId : string) (data : JsObj) (userId : string)
    (env : Env) (w : World) :
  let d' := db (updateWorkout params_workoutId data userId env w).2 in
  length (workouts d') = length (workouts (db w)) ∧
  childTables d' = childTables (db w) ∧
  ∀ i x, workouts (db w) !! i = Some x →
         ¬ (w_id x = params_workoutId ∧ w_userId x = userId) →
         workouts d' !! i = Some x.
Proof. apply updateWorkout_keeps_others. Qed.

(** X6. [getUserWorkoutsByDate] looks at its [date] only through the local
    calendar day: two dates on the same local day give the same call. *)
Theorem getUserWorkoutsByDate_same_day (tz : Z) (userId : string) (date1 date2 : Z)
    (env : Env) (w : World) :
  localDay tz date1 = localDay tz date2 →
  getUserWorkoutsByDate tz userId date1 env w = getUserWorkoutsByDate tz userId date2 env w.
Proof.
  intros Hday. rewrite !getUserWorkoutsByDate_run, !setHours_localDayAt. by rewrite Hday.
Qed.

Lemma getUserWorkoutsByDate_same_day_witness :
  getUserWorkoutsByDate 0 "user_A" 1705363200000 (sampleEnv None) sampleWorld
  = getUserWorkoutsByDate 0 "user_A" 1705449599999 (sampleEnv None) sampleWorld.
Proof. apply getUserWorkoutsByDate_same_day. reflexivity. Defined.

(** X7. When no two exercises of a workout share an [order] and no two sets
    of an exercise share a [setNumber], [getUserWorkouts] and
    [getUserWorkout] return the same value from two stores that hold the
    same rows with the child rows in different physical order. *)
Theorem nested_fetch_insertion_independent (d1 d2 : Db) (params_workoutId userId : string)
    (env : Env) (tr : list Event) :
  workouts d1 = workouts d2 →
  exercises d1 = exercises d2 →
  workoutExercises d1 ≡ₚ workoutExercises d2 →
  sets d1 ≡ₚ sets d2 →
  (∀ x y, x ∈ workoutExercises d1 → y ∈ workoutExercises d1 →
          we_workoutId x = we_workoutId y → we_order x = we_order y → x = y) →
  (∀ x y, x ∈ sets d1 → y ∈ sets d1 →
          s_workoutExerciseId x = s_workoutExerciseId y →
          s_setNumber x = s_setNumber y → x = y) →
  (getUserWorkouts userId env (mkWorld d1 tr)).1
    = (getUserWorkouts userId env (mkWorld d2 tr)).1 ∧
  (getUserWorkout params_workoutId userId env (mkWorld d1 tr)).1
    = (getUserWorkout params_workoutId userId env (mkWorld d2 tr)).1.
Proof.
  intros Hw Hex Hwe Hsets Hord Hnum.
  assert (Hload : ∀ r, loadWorkout d1 r = loadWorkout d2 r)
    by (intros r; by apply loadWorkout_insertion_independent).
  rewrite !getUserWorkouts_run, !getUserWorkout_run. cbn [fst db].
  unfold findMany, findFirst. rewrite <- Hw.
  split; (destruct (fault env); [done|]); f_equal.
  - apply list_fmap_ext. intros _ r _. apply Hload.
  - destruct (head _); simpl; by rewrite ?Hload.
Qed.

Lemma nested_fetch_insertion_independent_witness :
  (getUserWorkout (w_id pushDay) "user_A" (sampleEnv None) (mkWorld sampleDb [])).1
  = (getUserWorkout (w_id pushDay) "user_A" (sampleEnv None) (mkWorld sampleDbReversed [])).1.
Proof.
  apply (nested_fetch_insertion_independent sampleDb sampleDbReversed (w_id pushDay)
           "user_A" (sampleEnv None) []); try reflexivity.
  - apply Permutation_sym, reverse_Permutation.
  - apply Permutation_sym, reverse_Permutation.
  - intros x y Hx Hy _ Hord.
    repeat (apply elem_of_cons in Hx as [->|Hx]);
      try (by apply not_elem_of_nil in Hx);
      repeat (apply elem_of_cons in Hy as [->|Hy]);
      try (by apply not_elem_of_nil in Hy); done.
  - intros x y Hx Hy Hparent Hnum.
    repeat (apply elem_of_cons in Hx as [->|Hx]);
      try (by apply not_elem_of_nil in Hx);
      repeat (apply elem_of_cons in Hy as [->|Hy]);
      try (by apply not_elem_of_nil in Hy); done.
Defined.

Lemma mapColumns_head (cols : list (string * ColumnType)) (values : JsObj)
    (cvs : list (string * SqlVal)) (c : string) (ty : ColumnType) :
  NoDup cols.*1 → (c, ty) ∈ cols →
  mapColumns cols values = Returned cvs →
  prop values c ≠ VUndefined →
  ∃ sv, mapToDriverValue ty (prop values c) = Returned sv ∧
        head (List.filter (λ cv, bool_decide (cv.1 = c)) cvs) = Some (c, sv).
Proof.
  revert cvs. induction cols as [|[c' ty'] cols IH]; intros cvs Hnodup Hin;
    [by apply not_elem_of_nil in Hin|].
  rewrite fmap_cons in Hnodup. apply NoDup_cons in Hnodup as [Hfresh Hnodup].
  cbn [mapColumns]. intros Hcvs Hdef.
  destruct (decide (c = c')) as [<-|Hne].
  - assert (ty' = ty) as ->.
    { apply elem_of_cons in Hin as [[= ->]|Hin]; [done|].
      exfalso. apply Hfresh. apply list_elem_of_fmap. by exists (c, ty). }
    assert (Hstep : obind (mapToDriverValue ty (prop values c))
              (λ sv, obind (mapColumns cols values) (λ rest, Returned ((c, sv) :: rest)))
            = Returned cvs) by (by destruct (prop values c)).
    destruct (mapToDriverValue ty (prop values c)) as [sv|e]; [|done]. cbn [obind] in Hstep.
    destruct (mapColumns cols values) as [rest|e]; [|done]. cbn [obind] in Hstep.
    injection Hstep as <-. exists sv. split; [done|].
    cbn [List.filter fst]. by rewrite bool_decide_eq_true_2.
  - apply elem_of_cons in Hin as [[= ? ?]|Hin]; [done|].
    destruct (prop values c') eqn:Hc'; [by apply IH|..];
      (destruct (mapToDriverValue ty' _) as [sv'|e]; [|done]; cbn [obind] in Hcvs;
       destruct (mapColumns cols values) as [rest|e] eqn:Hrest; [|done]; cbn [obind] in Hcvs;
       injection Hcvs as <-;
       destruct (IH rest Hnodup Hin eq_refl Hdef) as (sv & Hsv & Hhead);
       exists sv; split; [done|];
       cbn [List.filter fst]; by rewrite bool_decide_eq_false_2 by done).
Qed.

Lemma columnValue_mapColumns (values : JsObj) (cvs : list (string * SqlVal))
    (c : string) (ty : ColumnType) (sv dflt : SqlVal) :
  (c, ty) ∈ workoutsColumns →
  mapColumns workoutsColumns values = Returned cvs →
  prop values c ≠ VUndefined →
  mapToDriverValue ty (prop values c) = Returned sv →
  columnValue cvs c dflt = sv.
Proof.
  intros Hin Hcvs Hdef Hsv.
  assert (Hnodup : NoDup workoutsColumns.*1)
    by (apply (bool_decide_unpack _); vm_compute; exact I).
  destruct (mapColumns_head _ _ _ _ _ Hnodup Hin Hcvs Hdef) as (sv' & Hsv' & Hhead).
  unfold columnValue. rewrite Hhead. simpl. congruence.
Qed.

Lemma insertStatement_appends (randomUuid : string) (dbNow : Z)
    (cvs : list (string * SqlVal)) (d d' : Db) (r : WorkoutRow) :
  insertStatement randomUuid dbNow cvs d = Returned (r, d') →
  d' = withWorkouts d (workouts d ++ [r]) ∧
  (w_id r ∉ w_id <$> workouts d) ∧
  textNotNull "userId" (columnValue cvs "userId" SNull) = Returned (w_userId r) ∧
  timeNullable "completedAt" (columnValue cvs "completedAt" SNull)
    = Returned (w_completedAt r).
Proof.
  unfold insertStatement.
  destruct (textNotNull "id" _) as [i|e]; [|done]. cbn [obind].
  destruct (textNotNull "userId" _) as [u|e]; [|done]. cbn [obind].
  destruct (textNullable "name" _) as [n|e]; [|done]. cbn [obind].
  destruct (timeNotNull "startedAt" _) as [st|e]; [|done]. cbn [obind].
  destruct (timeNullable "completedAt" _) as [c|e]; [|done]. cbn [obind].
  destruct (timeNotNull "createdAt" _) as [ca|e]; [|done]. cbn [obind].
  destruct (timeNotNull "updatedAt" _) as [ua|e]; [|done]. cbn [obind].
  case_decide; [done|]. by intros [= <- <-].
Qed.

Lemma createWorkout_returned (data : JsObj) (userId : string) (env : Env) (w w' : World)
    (r : WorkoutRow) :
  createWorkout data userId env w = (Returned r, w') →
  w_userId r = userId ∧
  w_completedAt r = None ∧
  (w_id r ∉ w_id <$> workouts (db w)) ∧
  db w' = withWorkouts (db w) (workouts (db w) ++ [r]).
Proof.
  rewrite createWorkout_run.
  set (values := <["completedAt" := VNull]> (<["userId" := VStr userId]> data)).
  destruct (mapColumns workoutsColumns values) as [cvs|e] eqn:Hcvs; [|done].
  destruct (fault env); [done|].
  destruct (insertStatement _ _ cvs (db w)) as [[r0 d']|e] eqn:Hinsert; [|done].
  intros [= -> <-].
  destruct (insertStatement_appends _ _ _ _ _ _ Hinsert) as (Hd' & Hfresh & Hu & Hc).
  assert (Hpu : prop values "userId" = VStr userId)
    by (unfold values; by rewrite prop_insert_ne, prop_insert_eq).
  assert (Hpc : prop values "completedAt" = VNull) by apply prop_insert_eq.
  assert (Hcu : columnValue cvs "userId" SNull = SText userId).
  { apply (columnValue_mapColumns values cvs "userId" PgVarchar);
      [right; left|done|by rewrite Hpu|by rewrite Hpu]. }
  assert (Hcc : columnValue cvs "completedAt" SNull = SNull).
  { apply (columnValue_mapColumns values cvs "completedAt" PgTimestamp);
      [do 4 right; left|done|by rewrite Hpc|by rewrite Hpc]. }
  rewrite Hcu in Hu. rewrite Hcc in Hc.
  injection Hu as Hu. injection Hc as Hc. done.
Qed.

(** X8. Whatever [data] holds (an [id], a [userId], a [completedAt] of its
    own), a [createWorkout] that returns has appended exactly the returned
    row to the table: its owner is the [userId] argument, its [completedAt]
    is absent, its id was not in use, and nothing else in the store has
    changed. *)
Theorem createWorkout_appends (data : JsObj) (userId : string) (env : Env) (w w' : World)
    (r : WorkoutRow) :
  createWorkout data userId env w = (Returned r, w') →
  w_userId r = userId ∧
  w_completedAt r = None ∧
  (w_id r ∉ w_id <$> workouts (db w)) ∧
  db w' = withWorkouts (db w) (workouts (db w) ++ [r]).
Proof. apply createWorkout_returned. Qed.

Lemma createWorkout_appends_witness :
  ∃ r w',
    createWorkout
      {[ "name" := VStr "Leg Day"; "startedAt" := VDate (Some 1705500000000);
         "userId" := VStr "user_B"; "completedAt" := VDate (Some 1705500000000);
         "id" := VStr "00000000-0000-4000-8000-0000000000f1" ]}
      "user_A" (sampleEnv (Some "user_A"%string)) sampleWorld = (Returned r, w') ∧
    w_id r = "00000000-0000-4000-8000-0000000000f1"%string ∧
    w_userId r = "user_A"%string ∧ w_completedAt r = None.
Proof.
  destruct (createWorkout _ "user_A" (sampleEnv (Some "user_A"%string)) sampleWorld)
    as [[r|e] w'] eqn:Hrun.
  - exists r, w'. split; [done|].
    destruct (createWorkout_appends _ _ _ _ _ _ Hrun) as (Hu & Hc & _).
    split; [|done].
    rewrite createWorkout_run in Hrun. vm_compute in Hrun. by injection Hrun as <- _.
  - exfalso. rewrite createWorkout_run in Hrun. vm_compute in Hrun. discriminate.
Defined.

(** ** What the schemas accept *)

Lemma issues_nil (shape : list (string * z.ZodType)) (input : JsObj) :
  z.issues shape input = [] ↔ Forall (λ kt, kt.2 (prop input kt.1) = []) shape.
Proof.
  unfold z.issues. induction shape as [|kt shape IH]; simpl.
  - split; [constructor|done].
  - rewrite Forall_cons, <- IH. split.
    + intros [H1 H2]%app_eq_nil. split; [|done].
      by apply fmap_nil_inv in H1.
    + intros [-> ->]. done.
Qed.

Lemma object_success_iff (shape : list (string * z.ZodType)) (input data : JsObj) :
  z.object shape input = z.success data ↔
  Forall (λ kt, kt.2 (prop input kt.1) = []) shape ∧ data = z.strip shape.*1 input.
Proof.
  rewrite <- issues_nil. unfold z.object.
  destruct (z.issues shape input); split.
  - by intros [= <-].
  - by intros [_ ->].
  - done.
  - by intros [? _].
Qed.

Lemma name_ok_iff (v : JsVal) :
  z.nullable (z.string_ [z.min 1; z.max 100]) v = [] ↔ okName v.
Proof.
  unfold okName. destruct v as [| |s|t]; simpl.
  - split; [done|]. by intros [|(? & ? & _)].
  - split; [by left|done].
  - unfold z.min, z.max. split.
    + intros H. right. exists s. split; [done|].
      destruct (Nat.ltb_spec (String.length s) 1); [done|].
      destruct (Nat.ltb_spec 100 (String.length s)); [done|]. lia.
    + intros [|(s' & [= <-] & Hlen)]; [done|].
      destruct (Nat.ltb_spec (String.length s) 1); [lia|].
      destruct (Nat.ltb_spec 100 (String.length s)); [lia|]. done.
  - split; [done|]. by intros [|(? & ? & _)].
Qed.

Lemma date_ok_iff (v : JsVal) : z.date v = [] ↔ okDate v.
Proof.
  unfold okDate. destruct v as [| |s|[t|]]; simpl; split; try done;
    try (by intros [? ?]). intros _. by exists t.
Qed.

Lemma identifier_ok_iff (isUuid : string → bool) (v : JsVal) :
  z.string_ [z.uuid isUuid] v = [] ↔ okIdentifier isUuid v.
Proof.
  unfold okIdentifier. destruct v as [| |s|t]; simpl; try (split; [done|by intros (? & ? & _)]).
  unfold z.uuid. destruct (isUuid s) eqn:Hs; simpl.
  - split; [intros _; by exists s|done].
  - split; [done|]. intros (? & [= <-] & ?). congruence.
Qed.

Lemma optional_ok_iff (t : z.ZodType) (v : JsVal) :
  z.optional t v = [] ↔ v = VUndefined ∨ t v = [].
Proof. destruct v; simpl; split; auto; by intros [|]. Qed.

Lemma nullable_ok_iff (t : z.ZodType) (v : JsVal) :
  z.nullable t v = [] ↔ v = VNull ∨ t v = [].
Proof. destruct v; simpl; split; auto; by intros [|]. Qed.

(** X9. [createWorkoutSchema] accepts an input exactly when its [name] is
    [null] or a string of 1 to 100 characters and its [startedAt] is a valid
    date (both must be there); what it hands on is the input cut down to
    these two keys. *)
Theorem createWorkoutSchema_accepts_iff (input data : JsObj) :
  WorkoutNew.createWorkoutSchema input = z.success data ↔
  acceptsCreate input ∧
  ∀ k, data !! k = if decide (k ∈ ["name"; "startedAt"]%string) then input !! k else None.
Proof.
  unfold WorkoutNew.createWorkoutSchema, acceptsCreate.
  rewrite object_success_iff, !Forall_cons, Forall_nil. cbn [fst snd].
  rewrite name_ok_iff, date_ok_iff.
  split.
  - intros [(Hn & Hs & _) ->]. split; [done|]. intros k. apply lookup_strip.
  - intros [[Hn Hs] Hdata]. split; [done|].
    apply map_eq. intros k. by rewrite Hdata, lookup_strip.
Qed.

(** X10. [updateWorkoutSchema] accepts an input exactly when its
    [workoutId] is a string the [uuid] check passes, its [name] is missing,
    [null] or a string of 1 to 100 characters, its [startedAt] is missing or
    a valid date, and its [completedAt] is missing, [null] or a valid date;
    what it hands on is the input cut down to these four keys. *)
Theorem updateWorkoutSchema_accepts_iff (isUuid : string → bool) (input data : JsObj) :
  WorkoutEdit.updateWorkoutSchema isUuid input = z.success data ↔
  acceptsUpdate isUuid input ∧
  ∀ k, data !! k =
       if decide (k ∈ ["workoutId"; "name"; "startedAt"; "completedAt"]%string)
       then input !! k else None.
Proof.
  unfold WorkoutEdit.updateWorkoutSchema, acceptsUpdate.
  rewrite object_success_iff, !Forall_cons, Forall_nil. cbn [fst snd].
  rewrite identifier_ok_iff, !optional_ok_iff, name_ok_iff, nullable_ok_iff, !date_ok_iff.
  split.
  - intros [(Hw & Hn & Hs & Hc & _) ->]. split; [done|]. intros k. apply lookup_strip.
  - intros [(Hw & Hn & Hs & Hc) Hdata]. split; [done|].
    apply map_eq. intros k. by rewrite Hdata, lookup_strip.
Qed.

(** ** An accepted update, end to end *)

Lemma mapColumns_ext (cols : list (string * ColumnType)) (o1 o2 : JsObj) :
  (∀ c, prop o1 c = prop o2 c) → mapColumns cols o1 = mapColumns cols o2.
Proof.
  intros Hprop. induction cols as [|[c ty] cols IH]; cbn [mapColumns]; [done|].
  by rewrite Hprop, IH.
Qed.

Lemma lookup_withProp_eq (k : string) (v : option JsVal) (o : JsObj) :
  withProp k v o !! k = match v with Some x => Some x | None => o !! k end.
Proof. destruct v; simpl; [by rewrite lookup_insert_eq|done]. Qed.

Lemma prop_patchObject (p : WorkoutPatch) (c : string) :
  prop (patchObject p) c =
    if decide (c = "name"%string) then from_option jsText VUndefined (p_name p)
    else if decide (c = "startedAt"%string)
         then from_option (λ t, VDate (Some t)) VUndefined (p_startedAt p)
    else if decide (c = "completedAt"%string)
         then from_option jsTime VUndefined (p_completedAt p)
    else VUndefined.
Proof.
  unfold prop. repeat case_decide; subst.
  - unfold patchObject. rewrite lookup_withProp_eq.
    destruct (p_name p); simpl; [done|].
    by rewrite !lookup_withProp, lookup_empty by done.
  - unfold patchObject. rewrite lookup_withProp, lookup_withProp_eq by done.
    destruct (p_startedAt p); simpl; [done|].
    by rewrite !lookup_withProp, lookup_empty by done.
  - unfold patchObject. rewrite !lookup_withProp, lookup_withProp_eq by done.
    destruct (p_completedAt p); simpl; [done|]. by rewrite lookup_empty.
  - by rewrite lookup_patchObject_other.
Qed.

Lemma prop_strip (keys : list string) (input : JsObj) (k : string) :
  prop (z.strip keys input) k = if decide (k ∈ keys) then prop input k else VUndefined.
Proof. unfold prop. rewrite lookup_strip. by case_decide. Qed.

(** What an accepted input puts into [.set(...)] is the object of its patch. *)
Lemma set_object_accepted (isUuid : string → bool) (input : JsObj) (t : Z) (c : string) :
  acceptsUpdate isUuid input →
  prop (<["updatedAt" := VDate (Some t)]>
          (delete "workoutId"
             (z.strip ["workoutId"; "name"; "startedAt"; "completedAt"]%string input))) c =
  prop (<["updatedAt" := VDate (Some t)]> (patchObject (patchOf input))) c.
Proof.
  intros (_ & Hn & Hs & Hc).
  destruct (decide (c = "updatedAt"%string)) as [->|Hu]; [by rewrite !prop_insert_eq|].
  rewrite !prop_insert_ne by done.
  destruct (decide (c = "workoutId"%string)) as [->|Hw].
  { unfold prop at 1. rewrite lookup_delete_eq. by rewrite prop_patchObject. }
  unfold prop at 1. rewrite lookup_delete_ne by done. fold (prop (z.strip
    ["workoutId"; "name"; "startedAt"; "completedAt"]%string input) c).
  rewrite prop_strip, prop_patchObject. unfold patchOf. cbn [p_name p_startedAt p_completedAt].
  destruct (decide (c = "name"%string)) as [->|Hcn].
  { rewrite decide_True by (right; left).
    destruct Hn as [->|[->|(s & -> & _)]]; done. }
  destruct (decide (c = "startedAt"%string)) as [->|Hcs].
  { rewrite decide_True by (do 2 right; left).
    destruct Hs as [->|(t' & ->)]; done. }
  destruct (decide (c = "completedAt"%string)) as [->|Hcc].
  { rewrite decide_True by (do 3 right; left).
    destruct Hc as [->|[->|(t' & ->)]]; done. }
  rewrite decide_False; [done|].
  rewrite !not_elem_of_cons. repeat split; try done. apply not_elem_of_nil.
Qed.

(** The statement of a well-typed patch, for any id and owner. *)
Lemma updateWorkout_patchColumns (params_workoutId : string) (data : JsObj) (p : WorkoutPatch)
    (userId : string) (env : Env) (w : World) :
  mapColumns workoutsColumns (<["updatedAt" := VDate (Some (now env))]> data)
    = Returned (patchColumns (now env) p) →
  fault env = None →
  let cond := and_ [eq_id params_workoutId; eq_userId userId] in
  updateWorkout params_workoutId data userId env w =
    (Returned (head (patched (now env) p <$> List.filter cond (workouts (db w)))),
     mkWorld
       (withWorkouts (db w)
          ((λ x, if cond x then patched (now env) p x else x) <$> workouts (db w)))
       (trace w ++ [EvQuery "updateWorkout"])).
Proof.
  intros Hcvs Hfault cond.
  rewrite updateWorkout_run, Hcvs, Hfault. unfold updateStatement.
  rewrite (updateRows_total _ _ (patched (now env) p))
    by (intros x; apply assignAll_patchColumns).
  cbn [obind fst snd].
  by rewrite decide_False
    by (intros (Hid & _); by apply patchColumns_keeps_id in Hid).
Qed.

Lemma updateWorkoutAction_map (isUuid : string → bool) (input : JsObj) (userId : string)
    (env : Env) (w : World) :
  signedIn env userId →
  acceptsUpdate isUuid input →
  fault env = None →
  let cond := and_ [eq_id (WorkoutEdit.workoutIdOf input); eq_userId userId] in
  let owned := List.filter cond (workouts (db w)) in
  WorkoutEdit.updateWorkoutAction isUuid input env w =
    (Returned
       match head owned with
       | Some r => ActionSuccess (patched (now env) (patchOf input) r)
       | None =>
           ActionError "Workout not found or you do not have permission to edit it" None
       end,
     mkWorld
       (withWorkouts (db w)
          ((λ x, if cond x then patched (now env) (patchOf input) x else x)
             <$> workouts (db w)))
       (trace w ++ [EvSafeParse; EvQuery "updateWorkout"] ++
        match head owned with
        | Some _ =>
            [ EvRevalidatePath "/dashboard";
              EvRevalidatePath ("/dashboard/workout/" +:+ WorkoutEdit.workoutIdOf input) ]
        | None => []
        end)).
Proof.
  intros Hin Hok Hfault cond owned.
  rewrite (updateWorkoutAction_run _ _ _ _ _ Hin).
  assert (Hparse : WorkoutEdit.updateWorkoutSchema isUuid input =
            z.success (z.strip ["workoutId"; "name"; "startedAt"; "completedAt"]%string input)).
  { apply object_success_iff. split; [|done].
    destruct Hok as (Hw & Hn & Hs & Hc).
    repeat apply Forall_cons_2; try apply Forall_nil_2; cbn [fst snd].
    - by apply identifier_ok_iff.
    - apply optional_ok_iff. rewrite name_ok_iff. done.
    - apply optional_ok_iff. rewrite date_ok_iff. done.
    - apply optional_ok_iff. rewrite nullable_ok_iff, date_ok_iff. done. }
  rewrite Hparse, (workoutIdOf_parsed _ _ _ Hparse).
  rewrite (updateWorkout_patchColumns _ _ (patchOf input)); [|..|done].
  - change (db (validated w)) with (db w). fold cond owned.
    destruct owned as [|r owned']; unfold revalidated, validated;
      cbn [db trace fmap list_fmap head]; by rewrite <- !app_assoc.
  - rewrite (mapColumns_ext _ _ (<["updatedAt" := VDate (Some (now env))]>
                                   (patchObject (patchOf input))))
      by (intros c; by eapply set_object_accepted).
    apply mapColumns_patchObject.
Qed.

(** X11. For a signed-in caller, an input the schema accepts and a store
    that answers, [updateWorkoutAction] does exactly this: every row with
    the given id and the caller as owner gets the fields of the input's
    patch and a fresh [updatedAt], every other row stays; when there is such
    a row the action returns it, updated, and revalidates [/dashboard] and
    the workout's page; when there is none it returns the not-found message
    and revalidates nothing.  It never answers "Failed to update workout". *)
Theorem updateWorkoutAction_accepted (isUuid : string → bool) (input : JsObj)
    (userId : string) (env : Env) (w : World) :
  signedIn env userId →
  acceptsUpdate isUuid input →
  fault env = None →
  let cond := and_ [eq_id (WorkoutEdit.workoutIdOf input); eq_userId userId] in
  let owned := List.filter cond (workouts (db w)) in
  WorkoutEdit.updateWorkoutAction isUuid input env w =
    (Returned
       match head owned with
       | Some r => ActionSuccess (patched (now env) (patchOf input) r)
       | None =>
           ActionError "Workout not found or you do not have permission to edit it" None
       end,
     mkWorld
       (withWorkouts (db w)
          ((λ x, if cond x then patched (now env) (patchOf input) x else x)
             <$> workouts (db w)))
       (trace w ++ [EvSafeParse; EvQuery "updateWorkout"] ++
        match head owned with
        | Some _ =>
            [ EvRevalidatePath "/dashboard";
              EvRevalidatePath ("/dashboard/workout/" +:+ WorkoutEdit.workoutIdOf input) ]
        | None => []
        end)).
Proof. apply updateWorkoutAction_map. Qed.

Lemma updateWorkoutAction_accepted_witness :
  (WorkoutEdit.updateWorkoutAction uuidShape
     {[ "workoutId" := VStr (w_id legDay); "name" := VNull;
        "completedAt" := VDate (Some 1705366740000); "startedAt" := VUndefined ]}
     (sampleEnv (Some "user_A"%string)) sampleWorld).1
  = Returned (ActionSuccess
      (mkWorkout (w_id legDay) "user_A" None 1705363140000 (Some 1705366740000)
         1705363140000 1705500000000)).
Proof.
  rewrite (updateWorkoutAction_accepted uuidShape _ "user_A"); [|done|..|done].
  - vm_compute. reflexivity.
  - split; [|split; [|split]].
    + exists (w_id legDay). split; vm_compute; reflexivity.
    + right. left. vm_compute. reflexivity.
    + left. vm_compute. reflexivity.
    + right. right. eexists. vm_compute. reflexivity.
Defined.

(** ** An accepted create, end to end *)

Lemma insertStatement_create (uuid : string) (dbNow : Z) (userId : string)
    (name : option string) (startedAt : Z) (d : Db) :
  insertStatement uuid dbNow
    [ ("userId"%string, SText userId);
      ("name"%string, match name with Some s => SText s | None => SNull end);
      ("startedAt"%string, STime startedAt);
      ("completedAt"%string, SNull) ] d =
  let r := mkWorkout uuid userId name startedAt None dbNow dbNow in
  if decide (uuid ∈ w_id <$> workouts d) then Thrown primaryKeyViolation
  else Returned (r, withWorkouts d (workouts d ++ [r])).
Proof.
  unfold insertStatement.
  replace (columnValue _ "id" _) with (SText uuid) by done.
  replace (columnValue _ "userId" _) with (SText userId) by done.
  replace (columnValue _ "name" _)
    with (match name with Some s => SText s | None => SNull end) by done.
  replace (columnValue _ "startedAt" _) with (STime startedAt) by done.
  replace (columnValue _ "completedAt" _) with SNull by done.
  replace (columnValue _ "createdAt" _) with (STime dbNow) by done.
  replace (columnValue _ "updatedAt" _) with (STime dbNow) by done.
  assert (Hn : textNullable "name" (match name with Some s => SText s | None => SNull end)
               = Returned name) by (by destruct name).
  rewrite Hn. cbn [obind textNotNull timeNotNull timeNullable]. done.
Qed.

Lemma createWorkoutAction_map (input : JsObj) (userId : string) (env : Env) (w : World) :
  signedIn env userId →
  acceptsCreate input →
  fault env = None →
  let r := mkWorkout (randomUuid env) userId (nameOf input) (startedAtOf input) None
             (dbNow env) (dbNow env) in
  WorkoutNew.createWorkoutAction input env w =
    if decide (randomUuid env ∈ w_id <$> workouts (db w)) then
      (Returned (ActionError "Failed to create workout" None),
       mkWorld (db w)
         (trace w ++ [ EvSafeParse; EvQuery "createWorkout";
                       EvConsoleError "Failed to create workout:" primaryKeyViolation ]))
    else
      (Returned (ActionSuccess r),
       mkWorld (withWorkouts (db w) (workouts (db w) ++ [r]))
         (trace w ++ [ EvSafeParse; EvQuery "createWorkout";
                       EvRevalidatePath "/dashboard" ])).
Proof.
  intros Hin [Hn (t & Ht)] Hfault r.
  rewrite (createWorkoutAction_run _ _ _ _ Hin).
  assert (Hparse : WorkoutNew.createWorkoutSchema input =
            z.success (z.strip ["name"; "startedAt"]%string input)).
  { apply object_success_iff. split; [|done].
    repeat apply Forall_cons_2; try apply Forall_nil_2; cbn [fst snd].
    - by apply name_ok_iff.
    - apply date_ok_iff. by exists t. }
  rewrite Hparse, createWorkout_run.
  rewrite (mapColumns_create _ (nameOf input) (startedAtOf input)).
  - rewrite Hfault, insertStatement_create. cbv zeta. fold r.
    change (db (validated w)) with (db w).
    case_decide; unfold logged, revalidated, validated, entered;
      cbn [db trace fmap list_fmap]; by rewrite <- !app_assoc.
  - rewrite prop_strip, decide_True by left. unfold nameOf.
    destruct Hn as [->|(s & -> & _)]; done.
  - rewrite prop_strip, decide_True by (right; left). unfold startedAtOf. by rewrite Ht.
  - rewrite prop_strip, decide_False; [done|].
    rewrite !not_elem_of_cons. repeat split; try done. apply not_elem_of_nil.
  - rewrite prop_strip, decide_False; [done|].
    rewrite !not_elem_of_cons. repeat split; try done. apply not_elem_of_nil.
  - rewrite prop_strip, decide_False; [done|].
    rewrite !not_elem_of_cons. repeat split; try done. apply not_elem_of_nil.
Qed.

(** X12. For a signed-in caller, an input the schema accepts and a store
    that answers, [createWorkoutAction] appends one row: the generated id,
    the caller as owner, the name and start of the input, no [completedAt],
    both timestamps from the database clock; it returns that row and
    revalidates [/dashboard].  The one exception is a generated id that is
    already in use: the insert fails on the primary key, nothing is written,
    the error goes to the console and the caller gets "Failed to create
    workout". *)
Theorem createWorkoutAction_accepted (input : JsObj) (userId : string) (env : Env)
    (w : World) :
  signedIn env userId →
  acceptsCreate input →
  fault env = None →
  let r := mkWorkout (randomUuid env) userId (nameOf input) (startedAtOf input) None
             (dbNow env) (dbNow env) in
  WorkoutNew.createWorkoutAction input env w =
    if decide (randomUuid env ∈ w_id <$> workouts (db w)) then
      (Returned (ActionError "Failed to create workout" None),
       mkWorld (db w)
         (trace w ++ [ EvSafeParse; EvQuery "createWorkout";
                       EvConsoleError "Failed to create workout:" primaryKeyViolation ]))
    else
      (Returned (ActionSuccess r),
       mkWorld (withWorkouts (db w) (workouts (db w) ++ [r]))
         (trace w ++ [ EvSafeParse; EvQuery "createWorkout";
                       EvRevalidatePath "/dashboard" ])).
Proof. apply createWorkoutAction_map. Qed.

Lemma createWorkoutAction_accepted_witness :
  (WorkoutNew.createWorkoutAction
     {[ "name" := VNull; "startedAt" := VDate (Some 1705500000000);
        "userId" := VStr "user_B" ]}
     (sampleEnv (Some "user_A"%string)) sampleWorld).1
  = Returned (ActionSuccess
      (mkWorkout "00000000-0000-4000-8000-0000000000c1" "user_A" None 1705500000000 None
         1705500000001 1705500000001)).
Proof.
  rewrite (createWorkoutAction_accepted _ "user_A"); [|done|..|done].
  - vm_compute. reflexivity.
  - split; [left|eexists]; vm_compute; reflexivity.
Defined.

(** ** The dashboard's FormData action *)

Lemma mapColumns_dashboard (userId : string) (name : option string) (date : option Z) :
  mapColumns workoutsColumns
    {[ "userId" := VStr userId; "name" := jsText name;
       "startedAt" := VDate date; "completedAt" := VNull ]} =
  match date with
  | Some t =>
      Returned [ ("userId"%string, SText userId);
                 ("name"%string, match name with Some s => SText s | None => SNull end);
                 ("startedAt"%string, STime t);
                 ("completedAt"%string, SNull) ]
  | None => Thrown (Error "Invalid time value")
  end.
Proof. destruct name, date; vm_compute; reflexivity. Qed.

Lemma Dashboard_createWorkoutAction_run (parseDate : string → option Z)
    (formData : gmap string string) (userId : string) (env : Env) (w : World) :
  signedIn env userId →
  Dashboard.createWorkoutAction parseDate formData env w =
    match formData !! "date" with
    | None | Some EmptyString => (Thrown (Error "Date is required"), w)
    | Some dateStr =>
        match parseDate dateStr with
        | None => (Thrown (Error "Invalid time value"), w)
        | Some t =>
            match fault env with
            | Some e => (Thrown (Error e), w)
            | None =>
                let r := mkWorkout (randomUuid env) userId
                           (fieldOrNull (formData !! "name")) t None
                           (dbNow env) (dbNow env) in
                if decide (randomUuid env ∈ w_id <$> workouts (db w))
                then (Thrown primaryKeyViolation, w)
                else (Returned (Dashboard.mkCreateResult true (randomUuid env)),
                      mkWorld (withWorkouts (db w) (workouts (db w) ++ [r]))
                        (trace w ++ [EvRevalidatePath "/dashboard"]))
            end
        end
    end.
Proof.
  intros Hin. unfold Dashboard.createWorkoutAction, bind at 1.
  rewrite (auth_signedIn _ _ _ Hin). unfold Dashboard.get.
  destruct (formData !! "date") as [[|a dateStr]|]; [done| |done].
  unfold bind at 1, ask. unfold bind at 1, encode.
  assert (Hname : match formData !! "name" with
                  | None | Some EmptyString => VNull
                  | Some n => VStr n
                  end = jsText (fieldOrNull (formData !! "name")))
    by (by destruct (formData !! "name") as [[|]|]).
  rewrite Hname, mapColumns_dashboard.
  destruct (parseDate (String a dateStr)) as [t|]; [|done].
  unfold bind at 1, statement. destruct (fault env); [done|].
  rewrite insertStatement_create. cbv zeta.
  case_decide; [done|].
  unfold bind, revalidatePath, emit, ret. done.
Qed.

(** X13. For a signed-in caller, a form with a non-empty [date] that the
    host parses, and a store that answers, the dashboard's
    [createWorkoutAction] appends one row (the generated id, the caller as
    owner, the [name] field or no name when it is missing or empty, of any
    length, the parsed date as start, no [completedAt]), revalidates
    [/dashboard] and returns [{ success: true, workoutId }] with the new id;
    if the generated id is in use it throws the primary-key error and writes
    nothing. *)
Theorem dashboard_create_success (parseDate : string → option Z)
    (formData : gmap string string) (dateStr : string) (t : Z) (userId : string)
    (env : Env) (w : World) :
  signedIn env userId →
  formData !! "date" = Some dateStr →
  dateStr ≠ ""%string →
  parseDate dateStr = Some t →
  fault env = None →
  let r := mkWorkout (randomUuid env) userId (fieldOrNull (formData !! "name")) t None
             (dbNow env) (dbNow env) in
  Dashboard.createWorkoutAction parseDate formData env w =
    if decide (randomUuid env ∈ w_id <$> workouts (db w))
    then (Thrown primaryKeyViolation, w)
    else (Returned (Dashboard.mkCreateResult true (randomUuid env)),
          mkWorld (withWorkouts (db w) (workouts (db w) ++ [r]))
            (trace w ++ [EvRevalidatePath "/dashboard"])).
Proof.
  intros Hin Hdate Hne Hparse Hfault r.
  rewrite (Dashboard_createWorkoutAction_run _ _ _ _ _ Hin), Hdate.
  destruct dateStr; [done|]. by rewrite Hparse, Hfault.
Qed.

Lemma dashboard_create_success_witness :
  (Dashboard.createWorkoutAction (λ _, Some 1705363200000)
     {[ "name" := ""; "date" := "2024-01-16T00:00:00.000Z" ]}%string
     (sampleEnv (Some "user_A"%string)) sampleWorld).1
  = Returned (Dashboard.mkCreateResult true "00000000-0000-4000-8000-0000000000c1").
Proof.
  rewrite (dashboard_create_success (λ _, Some 1705363200000) _
             "2024-01-16T00:00:00.000Z" 1705363200000 "user_A");
    first [done | vm_compute; reflexivity].
Defined.

(** X14. The dashboard's [createWorkoutAction] catches nothing.  For a
    signed-in caller: a missing or empty [date] throws "Date is required";
    a [date] the host cannot parse throws the encoder's "Invalid time
    value"; a failing store throws its own error message to the caller.  In
    each case the world is as it was. *)
Theorem dashboard_create_throws (parseDate : string → option Z)
    (formData : gmap string string) (userId : string) (env : Env) (w : World) :
  signedIn env userId →
  (fieldOrNull (formData !! "date") = None →
   Dashboard.createWorkoutAction parseDate formData env w =
     (Thrown (Error "Date is required"), w)) ∧
  (∀ dateStr, fieldOrNull (formData !! "date") = Some dateStr →
     parseDate dateStr = None →
     Dashboard.createWorkoutAction parseDate formData env w =
       (Thrown (Error "Invalid time value"), w)) ∧
  (∀ dateStr t e, fieldOrNull (formData !! "date") = Some dateStr →
     parseDate dateStr = Some t →
     fault env = Some e →
     Dashboard.createWorkoutAction parseDate formData env w = (Thrown (Error e), w)).
Proof.
  intros Hin. rewrite (Dashboard_createWorkoutAction_run _ _ _ _ _ Hin).
  destruct (formData !! "date") as [[|a s]|]; cbn [fieldOrNull];
    (split; [|split]); try done.
  - intros dateStr [= <-] Hparse. by rewrite Hparse.
  - intros dateStr t e [= <-] Hparse Hfault. by rewrite Hparse, Hfault.
Qed.

Lemma dashboard_create_throws_witness :
  Dashboard.createWorkoutAction (λ _, None) {[ "name" := "Leg Day" ]}%string
    (sampleEnv (Some "user_A"%string)) sampleWorld
    = (Thrown (Error "Date is required"), sampleWorld) ∧
  Dashboard.createWorkoutAction (λ _, None) {[ "date" := "yesterday" ]}%string
    (sampleEnv (Some "user_A"%string)) sampleWorld
    = (Thrown (Error "Invalid time value"), sampleWorld) ∧
  Dashboard.createWorkoutAction (λ _, Some 1705363200000)
    {[ "date" := "2024-01-16T00:00:00.000Z" ]}%string
    (faultyEnv (Some "user_A"%string)) sampleWorld
    = (Thrown (Error "connect ECONNREFUSED 10.0.0.5:5432"), sampleWorld).
Proof.
  assert (Hin : signedIn (sampleEnv (Some "user_A"%string)) "user_A") by done.
  assert (Hin' : signedIn (faultyEnv (Some "user_A"%string)) "user_A") by done.
  split; [|split].
  - apply (proj1 (dashboard_create_throws (λ _, None) _ "user_A" _ sampleWorld Hin)).
    vm_compute. reflexivity.
  - apply (proj1 (proj2 (dashboard_create_throws (λ _, None) _ "user_A" _ sampleWorld Hin))
             "yesterday"%string); vm_compute; reflexivity.
  - apply (proj2 (proj2 (dashboard_create_throws (λ _, Some 1705363200000) _ "user_A" _
                           sampleWorld Hin'))
             "2024-01-16T00:00:00.000Z"%string 1705363200000); vm_compute; reflexivity.
Defined.

(** ** What a request leaves behind *)

Lemma session_cases (env : Env) : signedOut env ∨ ∃ userId, signedIn env userId.
Proof.
  unfold signedOut, signedIn. destruct (session env) as [[|a u]|]; eauto.
Qed.

Lemma updateRows_returning_nil (cond : WorkoutRow → bool) (cvs : list (string * SqlVal))
    (rows rows' : list WorkoutRow) :
  updateRows cond cvs rows = Returned (rows', []) → rows' = rows.
Proof.
  revert rows'. induction rows as [|r rows IH]; intros rows'; cbn [updateRows].
  - by intros [= <-].
  - destruct (cond r).
    + destruct (assignAll r cvs) as [r1|e]; [|done]. cbn [obind].
      by destruct (updateRows cond cvs rows) as [[rows1 ret1]|e].
    + destruct (updateRows cond cvs rows) as [[rows1 ret1]|e]; [|done]. cbn [obind fst snd].
      intros [= <- ->]. by rewrite (IH rows1).
Qed.

(** Every [updateWorkout] records its entry; it changes the store only when
    it returns a row. *)
Lemma updateWorkout_outcome (params_workoutId : string) (data : JsObj) (userId : string)
    (env : Env) (w : World) :
  ∃ o d',
    updateWorkout params_workoutId data userId env w =
      (o, mkWorld d' (trace w ++ [EvQuery "updateWorkout"])) ∧
    ((∀ r, o ≠ Returned (Some r)) → d' = db w).
Proof.
  rewrite updateWorkout_run. unfold entered.
  destruct (mapColumns _ _) as [cvs|e]; [|by eauto].
  destruct (fault env); [by eauto|].
  unfold updateStatement.
  destruct (updateRows _ cvs (workouts (db w))) as [[rows' returning]|e] eqn:Hrows;
    [|by eauto].
  cbn [obind fst snd]. case_decide; [by eauto|].
  eexists _, _. split; [done|]. intros Hnone.
  destruct returning as [|r returning]; [|by destruct (Hnone r)].
  by rewrite (updateRows_returning_nil _ _ _ _ Hrows), withWorkouts_same.
Qed.

(** Every [createWorkout] records its entry; it changes the store only when
    it returns, and then by one row of the caller's. *)
Lemma createWorkout_outcome (data : JsObj) (userId : string) (env : Env) (w : World) :
  ∃ o d',
    createWorkout data userId env w =
      (o, mkWorld d' (trace w ++ [EvQuery "createWorkout"])) ∧
    match o with
    | Thrown _ => d' = db w
    | Returned r =>
        d' = withWorkouts (db w) (workouts (db w) ++ [r]) ∧ w_userId r = userId ∧
        (w_id r ∉ w_id <$> workouts (db w))
    end.
Proof.
  destruct (createWorkout data userId env w) as [o w'] eqn:Hrun.
  pose proof Hrun as Hrun'. rewrite createWorkout_run in Hrun'. unfold entered in Hrun'.
  destruct o as [r|e].
  - destruct (createWorkout_returned _ _ _ _ _ _ Hrun) as (Hu & _ & Hfresh & Hd').
    exists (Returned r), (db w'). split; [|done]. f_equal.
    destruct (mapColumns _ _) as [cvs|e]; [|done].
    destruct (fault env); [done|].
    destruct (insertStatement _ _ _ _) as [[r0 d0]|e]; [|done].
    by injection Hrun' as _ <-.
  - exists (Thrown e), (db w).
    destruct (mapColumns _ _) as [cvs|e']; [|by injection Hrun' as <- <-].
    destruct (fault env); [by injection Hrun' as <- <-|].
    destruct (insertStatement _ _ _ _) as [[r0 d0]|e']; [done|by injection Hrun' as <- <-].
Qed.

Lemma not_revalidated (evs : list Event) (path : string) :
  Forall (λ ev, match ev with EvRevalidatePath _ => False | _ => True end) evs →
  EvRevalidatePath path ∉ evs.
Proof.
  intros Hall Hin. rewrite Forall_forall in Hall. by apply Hall in Hin.
Qed.

(** X15. The two typed actions, for every input and every state of the
    session and the store: the events of the request extend the trace; the
    workouts cache is revalidated exactly when the action returns success;
    and an action that does not return success has left the store as it
    was. *)
Theorem typed_actions_effects (isUuid : string → bool) (input : JsObj)
    (env : Env) (w : World) :
  (∃ evs,
     trace (WorkoutNew.createWorkoutAction input env w).2 = trace w ++ evs ∧
     ((∃ r, (WorkoutNew.createWorkoutAction input env w).1 = Returned (ActionSuccess r))
      ↔ EvRevalidatePath "/dashboard" ∈ evs) ∧
     ((∀ r, (WorkoutNew.createWorkoutAction input env w).1 ≠ Returned (ActionSuccess r))
      → db (WorkoutNew.createWorkoutAction input env w).2 = db w)) ∧
  (∃ evs,
     trace (WorkoutEdit.updateWorkoutAction isUuid input env w).2 = trace w ++ evs ∧
     ((∃ r, (WorkoutEdit.updateWorkoutAction isUuid input env w).1
              = Returned (ActionSuccess r))
      ↔ EvRevalidatePath "/dashboard" ∈ evs) ∧
     ((∀ r, (WorkoutEdit.updateWorkoutAction isUuid input env w).1
              ≠ Returned (ActionSuccess r))
      → db (WorkoutEdit.updateWorkoutAction isUuid input env w).2 = db w)).
Proof.
  destruct (session_cases env) as [Hout|[userId Hin]].
  { unfold WorkoutNew.createWorkoutAction, WorkoutEdit.updateWorkoutAction, bind.
    rewrite (auth_signedOut _ _ Hout). cbn [fst snd ret].
    split; exists []; rewrite app_nil_r; (split; [done|]);
      (split; [split; [by intros [? ?]|by intros ?%not_elem_of_nil]|done]). }
  split.
  - rewrite (createWorkoutAction_run _ _ _ _ Hin).
    destruct (WorkoutNew.createWorkoutSchema input) as [data|error].
    + destruct (createWorkout_outcome data userId env (validated w))
        as (o & d' & -> & Hd'). destruct o as [r|e]; cbn [fst snd].
      * exists [EvSafeParse; EvQuery "createWorkout"; EvRevalidatePath "/dashboard"].
        unfold revalidated, validated. cbn [db trace fmap list_fmap].
        rewrite <- !app_assoc. split; [done|]. split.
        -- split; [intros _; do 2 right; left|by eauto].
        -- intros Hno. by destruct (Hno r).
      * exists [EvSafeParse; EvQuery "createWorkout";
                EvConsoleError "Failed to create workout:" e].
        unfold logged, validated. cbn [db trace].
        rewrite <- !app_assoc. split; [done|]. split; [|done].
        split; [by intros [? ?]|].
        intros Hin'. by apply not_revalidated in Hin'; [|repeat constructor].
    + exists [EvSafeParse]. cbn [fst snd]. split; [done|]. split; [|done].
      split; [by intros [? ?]|].
      intros Hin'. by apply not_revalidated in Hin'; [|repeat constructor].
  - rewrite (updateWorkoutAction_run _ _ _ _ _ Hin).
    destruct (WorkoutEdit.updateWorkoutSchema isUuid input) as [parsed|error].
    + destruct (updateWorkout_outcome (WorkoutEdit.workoutIdOf parsed)
                  (delete "workoutId" parsed) userId env (validated w))
        as (o & d' & -> & Hd'). destruct o as [[r|]|e]; cbn [fst snd].
      * exists [EvSafeParse; EvQuery "updateWorkout"; EvRevalidatePath "/dashboard";
                EvRevalidatePath ("/dashboard/workout/" +:+ WorkoutEdit.workoutIdOf parsed)].
        unfold revalidated, validated. cbn [db trace fmap list_fmap].
        rewrite <- !app_assoc. split; [done|]. split.
        -- split; [intros _; do 2 right; left|by eauto].
        -- intros Hno. by destruct (Hno r).
      * exists [EvSafeParse; EvQuery "updateWorkout"].
        unfold validated. cbn [db trace].
        rewrite <- !app_assoc. split; [done|]. split; [|intros _; by apply Hd'].
        split; [by intros [? ?]|].
        intros Hin'. by apply not_revalidated in Hin'; [|repeat constructor].
      * exists [EvSafeParse; EvQuery "updateWorkout";
                EvConsoleError "Failed to update workout:" e].
        unfold logged, validated. cbn [db trace].
        rewrite <- !app_assoc. split; [done|]. split; [|intros _; by apply Hd'].
        split; [by intros [? ?]|].
        intros Hin'. by apply not_revalidated in Hin'; [|repeat constructor].
    + exists [EvSafeParse]. cbn [fst snd]. split; [done|]. split; [|done].
      split; [by intros [? ?]|].
      intros Hin'. by apply not_revalidated in Hin'; [|repeat constructor].
Qed.

(** ** Rows of other users, and the primary key *)

Lemma grownByOwn_foreign (env : Env) (d d' : Db) :
  grownByOwn env d d' →
  sameForeignRows env d d' ∧ childTables d' = childTables d ∧
  (NoDup (w_id <$> workouts d) → NoDup (w_id <$> workouts d')).
Proof.
  intros [->|(r & -> & Hown & Hfresh)]; [by repeat split|].
  split; [|split; [done|]].
  - intros i x Hforeign. cbn [workouts withWorkouts]. split.
    + intros Hx. by apply lookup_app_l_Some.
    + intros [Hx|[_ Hx]]%lookup_app_Some; [done|].
      apply list_lookup_singleton_Some in Hx as [_ <-]. by destruct Hforeign.
  - intros Hkey. cbn [workouts withWorkouts]. rewrite fmap_app.
    apply NoDup_app. split; [done|]. split.
    + intros i Hi [->|?%not_elem_of_nil]%elem_of_cons; done.
    + apply NoDup_singleton.
Qed.

Lemma rewrittenOwn_foreign (env : Env) (d d' : Db) :
  rewrittenOwn env d d' →
  sameForeignRows env d d' ∧ childTables d' = childTables d ∧
  (NoDup (w_id <$> workouts d) → NoDup (w_id <$> workouts d')).
Proof.
  intros (rows' & -> & Hrows). cbn [workouts withWorkouts]. split; [|split; [done|]].
  - intros i x Hforeign. split; intros Hx.
    + destruct (Forall2_lookup_l _ _ _ _ _ Hrows Hx) as (x' & Hx' & [->|[Hown _]]); [done|].
      by destruct Hforeign.
    + destruct (Forall2_lookup_r _ _ _ _ _ Hrows Hx) as (x0 & Hx0 & [->|[Hown Hid]]); [done|].
      destruct Hforeign. rewrite Hown. f_equal. unfold identity in Hid. congruence.
  - assert (Hids : w_id <$> rows' = w_id <$> workouts d); [|by rewrite Hids].
    induction Hrows as [|x x' rows rows'' Hx _ IH]; [done|].
    rewrite !fmap_cons, IH. f_equal.
    destruct Hx as [->|[_ Hid]]; [done|]. unfold identity in Hid. congruence.
Qed.

Lemma updateRows_pointwise (cond : WorkoutRow → bool) (cvs : list (string * SqlVal))
    (rows rows' returning : list WorkoutRow) :
  updateRows cond cvs rows = Returned (rows', returning) →
  Forall2 (λ x x', x' = x ∨ (cond x = true ∧ assignAll x cvs = Returned x')) rows rows'.
Proof.
  revert rows' returning. induction rows as [|r rows IH]; intros rows' returning;
    cbn [updateRows].
  - intros [= <- <-]. constructor.
  - destruct (cond r) eqn:Hcond.
    + destruct (assignAll r cvs) as [r1|e] eqn:Hr1; [|done]. cbn [obind].
      destruct (updateRows cond cvs rows) as [[rows1 ret1]|e]; [|done]. cbn [obind fst snd].
      intros [= <- <-]. constructor; [by right|by eapply IH].
    + destruct (updateRows cond cvs rows) as [[rows1 ret1]|e]; [|done]. cbn [obind fst snd].
      intros [= <- <-]. constructor; [by left|by eapply IH].
Qed.

Lemma rewrittenOwn_refl (env : Env) (d : Db) : rewrittenOwn env d d.
Proof.
  exists (workouts d). split; [by rewrite withWorkouts_same|].
  apply Forall2_same_length_lookup_2; [done|]. intros i x y Hx Hy. left. congruence.
Qed.

Lemma createWorkoutAction_grows (input : JsObj) (env : Env) (w : World) :
  grownByOwn env (db w) (db (WorkoutNew.createWorkoutAction input env w).2).
Proof.
  destruct (session_cases env) as [Hout|[userId Hin]].
  { unfold WorkoutNew.createWorkoutAction, bind.
    rewrite (auth_signedOut _ _ Hout). by left. }
  rewrite (createWorkoutAction_run _ _ _ _ Hin).
  destruct (WorkoutNew.createWorkoutSchema input) as [data|error]; [|by left].
  destruct (createWorkout_outcome data userId env (validated w)) as (o & d' & -> & Hd').
  destruct o as [r|e]; cbn [snd db revalidated logged]; [|by left].
  destruct Hd' as (-> & Hown & Hfresh). right. exists r.
  split; [done|]. split; [|done]. destruct Hin as [-> _]. by rewrite Hown.
Qed.

Lemma dashboard_createWorkoutAction_grows (parseDate : string → option Z)
    (formData : gmap string string) (env : Env) (w : World) :
  grownByOwn env (db w) (db (Dashboard.createWorkoutAction parseDate formData env w).2).
Proof.
  destruct (session_cases env) as [Hout|[userId Hin]].
  { unfold Dashboard.createWorkoutAction, bind.
    rewrite (auth_signedOut _ _ Hout). by left. }
  rewrite (Dashboard_createWorkoutAction_run _ _ _ _ _ Hin).
  destruct (formData !! "date") as [[|a dateStr]|]; [by left| |by left].
  destruct (parseDate _) as [t|]; [|by left].
  destruct (fault env); [by left|]. cbv zeta.
  case_decide as Hfresh; [by left|]. right. eexists. split; [done|].
  split; [|done]. by destruct Hin as [-> _].
Qed.

Lemma updateWorkoutAction_rewrites (isUuid : string → bool) (input : JsObj)
    (env : Env) (w : World) :
  rewrittenOwn env (db w) (db (WorkoutEdit.updateWorkoutAction isUuid input env w).2).
Proof.
  destruct (session_cases env) as [Hout|[userId Hin]].
  { unfold WorkoutEdit.updateWorkoutAction, bind.
    rewrite (auth_signedOut _ _ Hout). apply rewrittenOwn_refl. }
  rewrite (updateWorkoutAction_run _ _ _ _ _ Hin).
  destruct (WorkoutEdit.updateWorkoutSchema isUuid input) as [parsed|error] eqn:Hparse;
    [|apply rewrittenOwn_refl].
  rewrite updateWorkout_run.
  destruct (mapColumns _ _) as [cvs|e] eqn:Hcvs; [|apply rewrittenOwn_refl].
  destruct (fault env); [apply rewrittenOwn_refl|].
  pose proof (set_object_identity_free _ _ _ _ _ Hparse Hcvs) as Hfree.
  unfold updateStatement. cbn [db validated].
  destruct (updateRows _ cvs (workouts (db w))) as [[rows' returning]|e] eqn:Hrows;
    [|apply rewrittenOwn_refl].
  cbn [obind fst snd]. case_decide; [apply rewrittenOwn_refl|].
  assert (Hshape : rewrittenOwn env (db w) (withWorkouts (db w) rows')).
  { exists rows'. split; [done|].
    eapply Forall2_impl; [by eapply updateRows_pointwise|].
    intros x x' [->|[Hcond Hassign]]; [by left|]. right.
    apply and_id_userId in Hcond as [_ Hown]. split.
    - destruct Hin as [-> _]. by rewrite Hown.
    - by eapply assignAll_identity. }
  by destruct returning.
Qed.

(** X16. No action writes to anybody else's workouts.  For every input and
    every state of the session and the store, after each of the three
    actions the rows whose owner is not the caller are the same rows at the
    same places as before (none changed, none added, none removed), and the
    tables of exercises, workout exercises and sets are as they were. *)
Theorem foreign_rows_untouched (isUuid : string → bool) (parseDate : string → option Z)
    (input : JsObj) (formData : gmap string string) (env : Env) (w : World) :
  (sameForeignRows env (db w) (db (WorkoutNew.createWorkoutAction input env w).2) ∧
   childTables (db (WorkoutNew.createWorkoutAction input env w).2) = childTables (db w)) ∧
  (sameForeignRows env (db w) (db (WorkoutEdit.updateWorkoutAction isUuid input env w).2) ∧
   childTables (db (WorkoutEdit.updateWorkoutAction isUuid input env w).2)
     = childTables (db w)) ∧
  (sameForeignRows env (db w)
     (db (Dashboard.createWorkoutAction parseDate formData env w).2) ∧
   childTables (db (Dashboard.createWorkoutAction parseDate formData env w).2)
     = childTables (db w)).
Proof.
  pose proof (grownByOwn_foreign _ _ _ (createWorkoutAction_grows input env w)).
  pose proof (rewrittenOwn_foreign _ _ _ (updateWorkoutAction_rewrites isUuid input env w)).
  pose proof (grownByOwn_foreign _ _ _
                (dashboard_createWorkoutAction_grows parseDate formData env w)).
  tauto.
Qed.

(** X17. The primary key survives every action: if no two workouts share
    an id before, none do after, whatever the input and whatever the
    session and the store do. *)
Theorem primary_key_preserved (isUuid : string → bool) (parseDate : string → option Z)
    (input : JsObj) (formData : gmap string string) (env : Env) (w : World) :
  NoDup (w_id <$> workouts (db w)) →
  NoDup (w_id <$> workouts (db (WorkoutNew.createWorkoutAction input env w).2)) ∧
  NoDup (w_id <$> workouts (db (WorkoutEdit.updateWorkoutAction isUuid input env w).2)) ∧
  NoDup (w_id <$> workouts (db (Dashboard.createWorkoutAction parseDate formData env w).2)).
Proof.
  intros Hkey.
  pose proof (grownByOwn_foreign _ _ _ (createWorkoutAction_grows input env w)).
  pose proof (rewrittenOwn_foreign _ _ _ (updateWorkoutAction_rewrites isUuid input env w)).
  pose proof (grownByOwn_foreign _ _ _
                (dashboard_createWorkoutAction_grows parseDate formData env w)).
  tauto.
Qed.

Lemma primary_key_preserved_witness :
  NoDup (w_id <$> workouts (db (WorkoutNew.createWorkoutAction
           {[ "name" := VNull; "startedAt" := VDate (Some 1705500000000);
              "id" := VStr (w_id legDay) ]}
           (sampleEnv (Some "user_A"%string)) sampleWorld).2)).
Proof.
  assert (Hkey : NoDup (w_id <$> workouts (db sampleWorld)))
    by (apply (bool_decide_unpack _); vm_compute; exact I).
  exact (proj1 (primary_key_preserved uuidShape (λ _, None)
                  {[ "name" := VNull; "startedAt" := VDate (Some 1705500000000);
                     "id" := VStr (w_id legDay) ]}
                  ∅ (sampleEnv (Some "user_A"%string)) sampleWorld Hkey)).
Defined.

(** ** The client handlers *)

Lemma handleCreateWorkout_run (parseDate : string → option Z)
    (formData : gmap string string) (env : Env) (w : World) :
  DashboardClient.handleCreateWorkout parseDate formData env w =
    match Dashboard.createWorkoutAction parseDate formData env w with
    | (Returned _, w1) => (Returned (DashboardClient.mkDialogState false false), w1)
    | (Thrown e, w1) =>
        (Returned (DashboardClient.mkDialogState true false),
         logged "Failed to create workout:" e w1)
    end.
Proof.
  unfold DashboardClient.handleCreateWorkout, bind at 1, tryCatch, bind at 1.
  by destruct (Dashboard.createWorkoutAction parseDate formData env w) as [[res|e] w1].
Qed.

(** X18. [handleCreateWorkout] never throws and always ends with
    [isSubmitting] false.  Either the dialog has closed and one workout of
    the caller's has been appended to the store, or the dialog is still
    open, the store is as it was, and the only thing that happened is one
    error written to the console: a visitor whose action failed (no
    session, no date, a bad date, a failing store) is shown nothing. *)
Theorem handleCreateWorkout_outcome (parseDate : string → option Z)
    (formData : gmap string string) (env : Env) (w : World) :
  ∃ st w',
    DashboardClient.handleCreateWorkout parseDate formData env w = (Returned st, w') ∧
    DashboardClient.isSubmitting st = false ∧
    ((DashboardClient.isDialogOpen st = false ∧
      ∃ r, db w' = withWorkouts (db w) (workouts (db w) ++ [r]) ∧
           session env = Some (w_userId r) ∧
           trace w' = trace w ++ [EvRevalidatePath "/dashboard"]) ∨
     (DashboardClient.isDialogOpen st = true ∧
      db w' = db w ∧
      ∃ e, trace w' = trace w ++ [EvConsoleError "Failed to create workout:" e])).
Proof.
  rewrite handleCreateWorkout_run.
  destruct (session_cases env) as [Hout|[userId Hin]].
  { unfold Dashboard.createWorkoutAction, bind. rewrite (auth_signedOut _ _ Hout).
    eexists _, _. split; [reflexivity|]. split; [done|]. right. by eauto. }
  rewrite (Dashboard_createWorkoutAction_run _ _ _ _ _ Hin).
  destruct (formData !! "date") as [[|a dateStr]|];
    [eexists _, _; split; [reflexivity|]; split; [done|]; right; by eauto| |
     eexists _, _; split; [reflexivity|]; split; [done|]; right; by eauto].
  destruct (parseDate _) as [t|];
    [|eexists _, _; split; [reflexivity|]; split; [done|]; right; by eauto].
  destruct (fault env);
    [eexists _, _; split; [reflexivity|]; split; [done|]; right; by eauto|].
  cbv zeta. case_decide;
    [eexists _, _; split; [reflexivity|]; split; [done|]; right; by eauto|].
  eexists _, _. split; [reflexivity|]. split; [done|]. left. split; [done|].
  eexists. split; [done|]. split; [|done]. by destruct Hin as [-> _].
Qed.

(** Without a session the dialog just stays open; the visitor is told
    nothing. *)
Example handleCreateWorkout_signed_out :
  DashboardClient.handleCreateWorkout (λ _, Some 1705363200000)
    {[ "name" := "Leg Day"; "date" := "2024-01-16T00:00:00.000Z" ]}%string
    (sampleEnv None) sampleWorld
  = (Returned (DashboardClient.mkDialogState true false),
     mkWorld sampleDb [EvConsoleError "Failed to create workout:" (Error "Unauthorized")]).
Proof. vm_compute. reflexivity. Qed.

Lemma prop_inputOf (name : string) (date : Z) :
  prop (NewWorkoutForm.inputOf name date) "name" = jsText (fieldOrNull (Some name)) ∧
  prop (NewWorkoutForm.inputOf name date) "startedAt" = VDate (Some date).
Proof.
  unfold NewWorkoutForm.inputOf. split.
  - rewrite prop_insert_eq. by destruct name.
  - rewrite prop_insert_ne by done. unfold prop. by rewrite lookup_singleton_eq.
Qed.

Lemma handleSubmit_run (name : string) (date : Z) (env : Env) (w : World) :
  NewWorkoutForm.handleSubmit name date env w =
    match WorkoutNew.createWorkoutAction (NewWorkoutForm.inputOf name date) env w with
    | (Returned (ActionSuccess _), w') =>
        (Returned (NewWorkoutForm.mkFormState false None ["/dashboard"%string]), w')
    | (Returned (ActionError error _), w') =>
        (Returned (NewWorkoutForm.mkFormState false (Some error) []), w')
    | (Thrown e, w') => (Thrown e, w')
    end.
Proof.
  unfold NewWorkoutForm.handleSubmit, bind.
  by destruct (WorkoutNew.createWorkoutAction _ env w) as [[[r|error details]|e] w'].
Qed.


(** X20. What the form of the new-workout page does with the name field.
    For a signed-in user and a store that answers, with a free generated id:
    a name of at most 100 characters creates the workout (no name when the
    field is empty, the text otherwise; the start is the date picked) and
    sends the router to [/dashboard]; a longer name creates nothing and
    shows "Invalid input". *)
Theorem handleSubmit_name_field (name : string) (date : Z) (userId : string)
    (env : Env) (w : World) :
  signedIn env userId →
  fault env = None →
  randomUuid env ∉ w_id <$> workouts (db w) →
  ((String.length name ≤ 100)%nat →
   let r := mkWorkout (randomUuid env) userId (fieldOrNull (Some name)) date None
              (dbNow env) (dbNow env) in
   NewWorkoutForm.handleSubmit name date env w =
     (Returned (NewWorkoutForm.mkFormState false None ["/dashboard"%string]),
      mkWorld (withWorkouts (db w) (workouts (db w) ++ [r]))
        (trace w ++ [ EvSafeParse; EvQuery "createWorkout";
                      EvRevalidatePath "/dashboard" ]))) ∧
  ((100 < String.length name)%nat →
   NewWorkoutForm.handleSubmit name date env w =
     (Returned (NewWorkoutForm.mkFormState false (Some "Invalid input"%string) []),
      validated w)).
Proof.
  intros Hin Hfault Hfresh.
  destruct (prop_inputOf name date) as [Hn Hs].
  rewrite handleSubmit_run. split.
  - intros Hlen r.
    rewrite (createWorkoutAction_map _ _ _ _ Hin); [|split|done].
    + rewrite decide_False by done. cbv zeta.
      unfold nameOf, startedAtOf. rewrite Hn, Hs.
      by destruct name.
    + rewrite Hn. destruct name as [|a name]; [by left|].
      right. eexists. split; [done|]. simpl in *. lia.
    + rewrite Hs. by eexists.
  - intros Hlen.
    destruct (createWorkoutSchema_rejects (NewWorkoutForm.inputOf name date) "name")
      as (details & Hparse & Hfield).
    { apply create_name. rewrite Hn. destruct name as [|a name]; [simpl in Hlen; lia|].
      exists (String a name). split; [done|]. by right. }
    by rewrite (createWorkoutAction_run _ _ _ _ Hin), Hparse.
Qed.

Lemma handleSubmit_name_field_witness :
  (NewWorkoutForm.handleSubmit "" 1705500000000
     (sampleEnv (Some "user_A"%string)) sampleWorld).1
  = Returned (NewWorkoutForm.mkFormState false None ["/dashboard"%string]).
Proof.
  assert (Hin : signedIn (sampleEnv (Some "user_A"%string)) "user_A") by done.
  assert (Hfresh : randomUuid (sampleEnv (Some "user_A"%string))
                   ∉ w_id <$> workouts (db sampleWorld))
    by (apply (bool_decide_unpack _); vm_compute; exact I).
  rewrite (proj1 (handleSubmit_name_field "" 1705500000000 "user_A" _ sampleWorld
                    Hin eq_refl Hfresh)); [done|simpl; lia].
Defined.

(** ** Update, then read *)

Lemma filter_rewritten (cond : WorkoutRow → bool) (f : WorkoutRow → WorkoutRow)
    (rows : list WorkoutRow) :
  (∀ x, cond (f x) = cond x) →
  List.filter cond ((λ x, if cond x then f x else x) <$> rows) = f <$> List.filter cond rows.
Proof.
  intros Hf. induction rows as [|x rows IH]; [done|].
  rewrite fmap_cons. cbn [List.filter]. destruct (cond x) eqn:Hx.
  - by rewrite Hf, Hx, fmap_cons, IH.
  - by rewrite Hx, IH.
Qed.

(** X21. What [updateWorkoutAction] returns is what the owner reads next:
    after a successful call, [getUserWorkout] for the same id and user
    finds the row the action returned, the old row with the input's patch
    applied. *)
Theorem update_then_get (isUuid : string → bool) (input : JsObj) (userId : string)
    (env env' : Env) (w : World) (r : WorkoutRow) :
  signedIn env userId →
  acceptsUpdate isUuid input →
  fault env = None →
  fault env' = None →
  head (List.filter (and_ [eq_id (WorkoutEdit.workoutIdOf input); eq_userId userId])
          (workouts (db w))) = Some r →
  let after := WorkoutEdit.updateWorkoutAction isUuid input env w in
  after.1 = Returned (ActionSuccess (patched (now env) (patchOf input) r)) ∧
  ∃ wf,
    getUserWorkout (WorkoutEdit.workoutIdOf input) userId env' after.2 =
      (Returned (Some wf), entered "getUserWorkout" after.2) ∧
    wf_row wf = patched (now env) (patchOf input) r.
Proof.
  intros Hin Hok Hfault Hfault' Hhead after. subst after.
  rewrite (updateWorkoutAction_map _ _ _ _ _ Hin Hok Hfault). cbv zeta.
  rewrite Hhead. cbn [fst snd]. split; [done|].
  rewrite getUserWorkout_run, Hfault'.
  unfold findFirst. cbn [db workouts withWorkouts].
  rewrite filter_rewritten by done.
  destruct (List.filter _ (workouts (db w))) as [|r0 owned]; [done|].
  simpl in Hhead. injection Hhead as ->.
  eexists. split; reflexivity.
Qed.

Lemma update_then_get_witness :
  ∃ wf w',
    getUserWorkout (w_id legDay) "user_A" (sampleEnv (Some "user_A"%string))
      (WorkoutEdit.updateWorkoutAction uuidShape
         (updateInput (w_id legDay) (mkPatch (Some None) None (Some (Some 1705366740000))))
         (sampleEnv (Some "user_A"%string)) sampleWorld).2
    = (Returned (Some wf), w') ∧
    wf_row wf = mkWorkout (w_id legDay) "user_A" None 1705363140000 (Some 1705366740000)
                  1705363140000 1705500000000.
Proof.
  assert (Hin : signedIn (sampleEnv (Some "user_A"%string)) "user_A") by done.
  assert (Hok : acceptsUpdate uuidShape
            (updateInput (w_id legDay) (mkPatch (Some None) None (Some (Some 1705366740000))))).
  { destruct (prop_updateInput (w_id legDay)
                (mkPatch (Some None) None (Some (Some 1705366740000))))
      as (Hw & Hn & Hs & Hc).
    split; [|split; [|split]].
    - exists (w_id legDay). split; [done|]. vm_compute. reflexivity.
    - right. left. exact Hn.
    - left. exact Hs.
    - right. right. eexists. exact Hc. }
  destruct (update_then_get uuidShape
              (updateInput (w_id legDay) (mkPatch (Some None) None (Some (Some 1705366740000))))
              "user_A" (sampleEnv (Some "user_A"%string)) (sampleEnv (Some "user_A"%string))
              sampleWorld legDay Hin Hok eq_refl eq_refl)
    as (_ & wf & Hget & Hwf).
  { rewrite workoutIdOf_updateInput. vm_compute. reflexivity. }
  rewrite workoutIdOf_updateInput in Hget.
  exists wf. eexists. split; [exact Hget|].
  rewrite Hwf. unfold patched, patchOf.
  destruct (prop_updateInput (w_id legDay)
              (mkPatch (Some None) None (Some (Some 1705366740000))))
    as (_ & -> & -> & ->). reflexivity.
Defined.
